(** * The terminal screen buffer of aminal (package [buffer])

    A shallow embedding of the [Buffer] type of [buffer.go] and of its
    cursor, writer, scroll-region, erase and resize operations, followed by
    the properties of the specification that were checked against it.

    Conventions of the embedding.
    - Go's fixed-width integers are integers of [Z]; every place where the
      Go arithmetic can wrap around carries its reduction ([u16], [u64],
      [i16], [int]).  [len] of a slice is a Go [int], so it is kept as the
      list length without reduction.
    - A function that can hit a run-time panic returns an [outcome].
    - A pointer into [buffer.lines] ([*Line]) is the index of the line.
    - Slices are lists: cell and line contents are tracked by value. *)

From Stdlib Require Import ZArith Lia Bool List.
From stdpp Require Import base tactics list.
Import ListNotations.
Local Open Scope Z_scope.

(** ** Machine integers *)

(** Conversion to [uint16]. *)
Definition u16 (z : Z) : Z := z mod 65536.

(** Conversion to [uint] and [uint64] (64 bits). *)
Definition u64 (z : Z) : Z := z mod 18446744073709551616.

(** Conversion to [int16]. *)
Definition i16 (z : Z) : Z := (z + 32768) mod 65536 - 32768.

(** Conversion to [int] (64 bits, two's complement). *)
Definition int (z : Z) : Z :=
  (z + 9223372036854775808) mod 18446744073709551616 - 9223372036854775808.

Definition is_u16 (z : Z) : Prop := 0 <= z < 65536.
Definition is_u64 (z : Z) : Prop := 0 <= z < 18446744073709551616.
Definition is_i16 (z : Z) : Prop := -32768 <= z < 32768.

(** ** Outcomes of a call *)

Inductive outcome (A : Type) : Type :=
| Ok (a : A)   (* the call returns *)
| Panic        (* the Go run time panics: index or slice bound out of range *)
| Starved.     (* the iteration budget of the embedding ran out *)

Arguments Ok {A} a.
Arguments Panic {A}.
Arguments Starved {A}.

Definition bind {A B : Type} (m : outcome A) (k : A -> outcome B) : outcome B :=
  match m with
  | Ok a => k a
  | Panic => Panic
  | Starved => Starved
  end.

Notation "x <- m ;; k" := (bind m (fun x => k))
  (at level 100, m at next level, right associativity).

(** [n] calls of [f] in a row, as in [for i := 0; i < n; i++ { f() }]. *)
Fixpoint times {A : Type} (n : nat) (f : A -> outcome A) (a : A) : outcome A :=
  match n with
  | O => Ok a
  | S n' => a' <- f a ;; times n' f a'
  end.

(** ** Cells and lines *)

(** Modelled from the spec: the colour type is declared outside [buffer.go];
    a colour is a triple of channel values. *)
Definition Colour : Type := Z * Z * Z.

(** Modelled from the spec: [CellAttributes] is declared outside
    [buffer.go]; section 3 lists a foreground colour, a background colour and
    the eight flags. *)
Record CellAttributes := {
  FgColour : Colour;
  BgColour : Colour;
  Bold : bool;
  Dim : bool;
  Italic : bool;
  Underline : bool;
  Blink : bool;
  Reverse : bool;
  Hidden : bool;
  Strikethrough : bool }.

(** Modelled from the spec: the default attributes that [erase] resets a cell
    to (the zero value, before the background is set). *)
Definition defaultAttributes : CellAttributes :=
  {| FgColour := (0, 0, 0); BgColour := (0, 0, 0); Bold := false; Dim := false;
     Italic := false; Underline := false; Blink := false; Reverse := false;
     Hidden := false; Strikethrough := false |}.

(** Modelled from the spec: [Cell] is declared outside [buffer.go]; a cell
    holds one base character (0 is blank) and its attributes. *)
Record Cell := { r : Z; attr : CellAttributes }.

(** Modelled from the spec: [Cell.Rune], the cell's character. *)
Definition Rune (c : Cell) : Z := r c.

(** Modelled from the spec: [Cell.setRune] sets the base character. *)
Definition setRune (x : Z) (c : Cell) : Cell := {| r := x; attr := attr c |}.

Definition set_attr (a : CellAttributes) (c : Cell) : Cell := {| r := r c; attr := a |}.

(** Modelled from the spec: [Cell.erase] sets the character to 0 and the
    background to the given colour, and resets the other attributes. *)
Definition erase (bg : Colour) (c : Cell) : Cell :=
  {| r := 0;
     attr := {| FgColour := FgColour defaultAttributes; BgColour := bg;
                Bold := false; Dim := false; Italic := false; Underline := false;
                Blink := false; Reverse := false; Hidden := false;
                Strikethrough := false |} |}.

(** Modelled from the spec: [Line] is declared outside [buffer.go]; a line is
    a sequence of cells and the [wrapped] flag. *)
Record Line := { cells : list Cell; wrapped : bool }.

(** Modelled from the spec: [newLine] makes an empty line that is not a
    continuation. *)
Definition newLine : Line := {| cells := []; wrapped := false |}.

(** Modelled from the spec: [Line.setWrapped]. *)
Definition setWrapped (w : bool) (l : Line) : Line := {| cells := cells l; wrapped := w |}.

Definition set_cells (cs : list Cell) (l : Line) : Line :=
  {| cells := cs; wrapped := wrapped l |}.

(** ** The buffer *)

Record Position := { Position_Line : Z; Position_Col : Z }.

(** The struct [Buffer]; [displayChangeHandlers] is never used by the code
    and is left out. *)
Record Buffer := {
  lines : list Line;
  cursorX : Z;                      (* uint16 *)
  cursorY : Z;                      (* uint16 *)
  viewHeight : Z;                   (* uint16 *)
  viewWidth : Z;                    (* uint16 *)
  cursorAttr : CellAttributes;
  savedX : Z;                       (* uint16 *)
  savedY : Z;                       (* uint16 *)
  scrollLinesFromBottom : Z;        (* uint *)
  topMargin : Z;                    (* uint *)
  bottomMargin : Z;                 (* uint *)
  replaceMode : bool;
  originMode : bool;
  lineFeedMode : bool;
  autoWrap : bool;
  dirty : bool;
  selectionStart : option Position;
  selectionEnd : option Position;
  selectionComplete : bool;
  selectionExpanded : bool;
  selectionClickTime : Z;
  defaultCell : Cell;
  maxLines : Z }.                   (* uint64 *)

(** Field updates. *)

Definition set_lines (v : list Line) (b : Buffer) : Buffer :=
  {| lines := v; cursorX := cursorX b; cursorY := cursorY b;
     viewHeight := viewHeight b; viewWidth := viewWidth b; cursorAttr := cursorAttr b;
     savedX := savedX b; savedY := savedY b;
     scrollLinesFromBottom := scrollLinesFromBottom b; topMargin := topMargin b;
     bottomMargin := bottomMargin b; replaceMode := replaceMode b;
     originMode := originMode b; lineFeedMode := lineFeedMode b;
     autoWrap := autoWrap b; dirty := dirty b; selectionStart := selectionStart b;
     selectionEnd := selectionEnd b; selectionComplete := selectionComplete b;
     selectionExpanded := selectionExpanded b;
     selectionClickTime := selectionClickTime b; defaultCell := defaultCell b;
     maxLines := maxLines b |}.

Definition set_cursorX (v : Z) (b : Buffer) : Buffer :=
  {| lines := lines b; cursorX := v; cursorY := cursorY b; viewHeight := viewHeight b;
     viewWidth := viewWidth b; cursorAttr := cursorAttr b; savedX := savedX b;
     savedY := savedY b; scrollLinesFromBottom := scrollLinesFromBottom b;
     topMargin := topMargin b; bottomMargin := bottomMargin b;
     replaceMode := replaceMode b; originMode := originMode b;
     lineFeedMode := lineFeedMode b; autoWrap := autoWrap b; dirty := dirty b;
     selectionStart := selectionStart b; selectionEnd := selectionEnd b;
     selectionComplete := selectionComplete b;
     selectionExpanded := selectionExpanded b;
     selectionClickTime := selectionClickTime b; defaultCell := defaultCell b;
     maxLines := maxLines b |}.

Definition set_cursorY (v : Z) (b : Buffer) : Buffer :=
  {| lines := lines b; cursorX := cursorX b; cursorY := v; viewHeight := viewHeight b;
     viewWidth := viewWidth b; cursorAttr := cursorAttr b; savedX := savedX b;
     savedY := savedY b; scrollLinesFromBottom := scrollLinesFromBottom b;
     topMargin := topMargin b; bottomMargin := bottomMargin b;
     replaceMode := replaceMode b; originMode := originMode b;
     lineFeedMode := lineFeedMode b; autoWrap := autoWrap b; dirty := dirty b;
     selectionStart := selectionStart b; selectionEnd := selectionEnd b;
     selectionComplete := selectionComplete b;
     selectionExpanded := selectionExpanded b;
     selectionClickTime := selectionClickTime b; defaultCell := defaultCell b;
     maxLines := maxLines b |}.

Definition set_viewHeight (v : Z) (b : Buffer) : Buffer :=
  {| lines := lines b; cursorX := cursorX b; cursorY := cursorY b; viewHeight := v;
     viewWidth := viewWidth b; cursorAttr := cursorAttr b; savedX := savedX b;
     savedY := savedY b; scrollLinesFromBottom := scrollLinesFromBottom b;
     topMargin := topMargin b; bottomMargin := bottomMargin b;
     replaceMode := replaceMode b; originMode := originMode b;
     lineFeedMode := lineFeedMode b; autoWrap := autoWrap b; dirty := dirty b;
     selectionStart := selectionStart b; selectionEnd := selectionEnd b;
     selectionComplete := selectionComplete b;
     selectionExpanded := selectionExpanded b;
     selectionClickTime := selectionClickTime b; defaultCell := defaultCell b;
     maxLines := maxLines b |}.

Definition set_viewWidth (v : Z) (b : Buffer) : Buffer :=
  {| lines := lines b; cursorX := cursorX b; cursorY := cursorY b;
     viewHeight := viewHeight b; viewWidth := v; cursorAttr := cursorAttr b;
     savedX := savedX b; savedY := savedY b;
     scrollLinesFromBottom := scrollLinesFromBottom b; topMargin := topMargin b;
     bottomMargin := bottomMargin b; replaceMode := replaceMode b;
     originMode := originMode b; lineFeedMode := lineFeedMode b;
     autoWrap := autoWrap b; dirty := dirty b; selectionStart := selectionStart b;
     selectionEnd := selectionEnd b; selectionComplete := selectionComplete b;
     selectionExpanded := selectionExpanded b;
     selectionClickTime := selectionClickTime b; defaultCell := defaultCell b;
     maxLines := maxLines b |}.

Definition set_savedX (v : Z) (b : Buffer) : Buffer :=
  {| lines := lines b; cursorX := cursorX b; cursorY := cursorY b;
     viewHeight := viewHeight b; viewWidth := viewWidth b; cursorAttr := cursorAttr b;
     savedX := v; savedY := savedY b;
     scrollLinesFromBottom := scrollLinesFromBottom b; topMargin := topMargin b;
     bottomMargin := bottomMargin b; replaceMode := replaceMode b;
     originMode := originMode b; lineFeedMode := lineFeedMode b;
     autoWrap := autoWrap b; dirty := dirty b; selectionStart := selectionStart b;
     selectionEnd := selectionEnd b; selectionComplete := selectionComplete b;
     selectionExpanded := selectionExpanded b;
     selectionClickTime := selectionClickTime b; defaultCell := defaultCell b;
     maxLines := maxLines b |}.

Definition set_savedY (v : Z) (b : Buffer) : Buffer :=
  {| lines := lines b; cursorX := cursorX b; cursorY := cursorY b;
     viewHeight := viewHeight b; viewWidth := viewWidth b; cursorAttr := cursorAttr b;
     savedX := savedX b; savedY := v;
     scrollLinesFromBottom := scrollLinesFromBottom b; topMargin := topMargin b;
     bottomMargin := bottomMargin b; replaceMode := replaceMode b;
     originMode := originMode b; lineFeedMode := lineFeedMode b;
     autoWrap := autoWrap b; dirty := dirty b; selectionStart := selectionStart b;
     selectionEnd := selectionEnd b; selectionComplete := selectionComplete b;
     selectionExpanded := selectionExpanded b;
     selectionClickTime := selectionClickTime b; defaultCell := defaultCell b;
     maxLines := maxLines b |}.

Definition set_scrollLinesFromBottom (v : Z) (b : Buffer) : Buffer :=
  {| lines := lines b; cursorX := cursorX b; cursorY := cursorY b;
     viewHeight := viewHeight b; viewWidth := viewWidth b; cursorAttr := cursorAttr b;
     savedX := savedX b; savedY := savedY b; scrollLinesFromBottom := v;
     topMargin := topMargin b; bottomMargin := bottomMargin b;
     replaceMode := replaceMode b; originMode := originMode b;
     lineFeedMode := lineFeedMode b; autoWrap := autoWrap b; dirty := dirty b;
     selectionStart := selectionStart b; selectionEnd := selectionEnd b;
     selectionComplete := selectionComplete b;
     selectionExpanded := selectionExpanded b;
     selectionClickTime := selectionClickTime b; defaultCell := defaultCell b;
     maxLines := maxLines b |}.

Definition set_topMargin (v : Z) (b : Buffer) : Buffer :=
  {| lines := lines b; cursorX := cursorX b; cursorY := cursorY b;
     viewHeight := viewHeight b; viewWidth := viewWidth b; cursorAttr := cursorAttr b;
     savedX := savedX b; savedY := savedY b;
     scrollLinesFromBottom := scrollLinesFromBottom b; topMargin := v;
     bottomMargin := bottomMargin b; replaceMode := replaceMode b;
     originMode := originMode b; lineFeedMode := lineFeedMode b;
     autoWrap := autoWrap b; dirty := dirty b; selectionStart := selectionStart b;
     selectionEnd := selectionEnd b; selectionComplete := selectionComplete b;
     selectionExpanded := selectionExpanded b;
     selectionClickTime := selectionClickTime b; defaultCell := defaultCell b;
     maxLines := maxLines b |}.

Definition set_bottomMargin (v : Z) (b : Buffer) : Buffer :=
  {| lines := lines b; cursorX := cursorX b; cursorY := cursorY b;
     viewHeight := viewHeight b; viewWidth := viewWidth b; cursorAttr := cursorAttr b;
     savedX := savedX b; savedY := savedY b;
     scrollLinesFromBottom := scrollLinesFromBottom b; topMargin := topMargin b;
     bottomMargin := v; replaceMode := replaceMode b; originMode := originMode b;
     lineFeedMode := lineFeedMode b; autoWrap := autoWrap b; dirty := dirty b;
     selectionStart := selectionStart b; selectionEnd := selectionEnd b;
     selectionComplete := selectionComplete b;
     selectionExpanded := selectionExpanded b;
     selectionClickTime := selectionClickTime b; defaultCell := defaultCell b;
     maxLines := maxLines b |}.

Definition set_replaceMode (v : bool) (b : Buffer) : Buffer :=
  {| lines := lines b; cursorX := cursorX b; cursorY := cursorY b;
     viewHeight := viewHeight b; viewWidth := viewWidth b; cursorAttr := cursorAttr b;
     savedX := savedX b; savedY := savedY b;
     scrollLinesFromBottom := scrollLinesFromBottom b; topMargin := topMargin b;
     bottomMargin := bottomMargin b; replaceMode := v; originMode := originMode b;
     lineFeedMode := lineFeedMode b; autoWrap := autoWrap b; dirty := dirty b;
     selectionStart := selectionStart b; selectionEnd := selectionEnd b;
     selectionComplete := selectionComplete b;
     selectionExpanded := selectionExpanded b;
     selectionClickTime := selectionClickTime b; defaultCell := defaultCell b;
     maxLines := maxLines b |}.

Definition set_originMode (v : bool) (b : Buffer) : Buffer :=
  {| lines := lines b; cursorX := cursorX b; cursorY := cursorY b;
     viewHeight := viewHeight b; viewWidth := viewWidth b; cursorAttr := cursorAttr b;
     savedX := savedX b; savedY := savedY b;
     scrollLinesFromBottom := scrollLinesFromBottom b; topMargin := topMargin b;
     bottomMargin := bottomMargin b; replaceMode := replaceMode b; originMode := v;
     lineFeedMode := lineFeedMode b; autoWrap := autoWrap b; dirty := dirty b;
     selectionStart := selectionStart b; selectionEnd := selectionEnd b;
     selectionComplete := selectionComplete b;
     selectionExpanded := selectionExpanded b;
     selectionClickTime := selectionClickTime b; defaultCell := defaultCell b;
     maxLines := maxLines b |}.

Definition set_lineFeedMode (v : bool) (b : Buffer) : Buffer :=
  {| lines := lines b; cursorX := cursorX b; cursorY := cursorY b;
     viewHeight := viewHeight b; viewWidth := viewWidth b; cursorAttr := cursorAttr b;
     savedX := savedX b; savedY := savedY b;
     scrollLinesFromBottom := scrollLinesFromBottom b; topMargin := topMargin b;
     bottomMargin := bottomMargin b; replaceMode := replaceMode b;
     originMode := originMode b; lineFeedMode := v; autoWrap := autoWrap b;
     dirty := dirty b; selectionStart := selectionStart b;
     selectionEnd := selectionEnd b; selectionComplete := selectionComplete b;
     selectionExpanded := selectionExpanded b;
     selectionClickTime := selectionClickTime b; defaultCell := defaultCell b;
     maxLines := maxLines b |}.

Definition set_autoWrap (v : bool) (b : Buffer) : Buffer :=
  {| lines := lines b; cursorX := cursorX b; cursorY := cursorY b;
     viewHeight := viewHeight b; viewWidth := viewWidth b; cursorAttr := cursorAttr b;
     savedX := savedX b; savedY := savedY b;
     scrollLinesFromBottom := scrollLinesFromBottom b; topMargin := topMargin b;
     bottomMargin := bottomMargin b; replaceMode := replaceMode b;
     originMode := originMode b; lineFeedMode := lineFeedMode b; autoWrap := v;
     dirty := dirty b; selectionStart := selectionStart b;
     selectionEnd := selectionEnd b; selectionComplete := selectionComplete b;
     selectionExpanded := selectionExpanded b;
     selectionClickTime := selectionClickTime b; defaultCell := defaultCell b;
     maxLines := maxLines b |}.

Definition set_dirty (v : bool) (b : Buffer) : Buffer :=
  {| lines := lines b; cursorX := cursorX b; cursorY := cursorY b;
     viewHeight := viewHeight b; viewWidth := viewWidth b; cursorAttr := cursorAttr b;
     savedX := savedX b; savedY := savedY b;
     scrollLinesFromBottom := scrollLinesFromBottom b; topMargin := topMargin b;
     bottomMargin := bottomMargin b; replaceMode := replaceMode b;
     originMode := originMode b; lineFeedMode := lineFeedMode b;
     autoWrap := autoWrap b; dirty := v; selectionStart := selectionStart b;
     selectionEnd := selectionEnd b; selectionComplete := selectionComplete b;
     selectionExpanded := selectionExpanded b;
     selectionClickTime := selectionClickTime b; defaultCell := defaultCell b;
     maxLines := maxLines b |}.

Definition set_selectionEnd (v : option Position) (b : Buffer) : Buffer :=
  {| lines := lines b; cursorX := cursorX b; cursorY := cursorY b;
     viewHeight := viewHeight b; viewWidth := viewWidth b; cursorAttr := cursorAttr b;
     savedX := savedX b; savedY := savedY b;
     scrollLinesFromBottom := scrollLinesFromBottom b; topMargin := topMargin b;
     bottomMargin := bottomMargin b; replaceMode := replaceMode b;
     originMode := originMode b; lineFeedMode := lineFeedMode b;
     autoWrap := autoWrap b; dirty := dirty b; selectionStart := selectionStart b;
     selectionEnd := v; selectionComplete := selectionComplete b;
     selectionExpanded := selectionExpanded b;
     selectionClickTime := selectionClickTime b; defaultCell := defaultCell b;
     maxLines := maxLines b |}.

Definition set_selectionComplete (v : bool) (b : Buffer) : Buffer :=
  {| lines := lines b; cursorX := cursorX b; cursorY := cursorY b;
     viewHeight := viewHeight b; viewWidth := viewWidth b; cursorAttr := cursorAttr b;
     savedX := savedX b; savedY := savedY b;
     scrollLinesFromBottom := scrollLinesFromBottom b; topMargin := topMargin b;
     bottomMargin := bottomMargin b; replaceMode := replaceMode b;
     originMode := originMode b; lineFeedMode := lineFeedMode b;
     autoWrap := autoWrap b; dirty := dirty b; selectionStart := selectionStart b;
     selectionEnd := selectionEnd b; selectionComplete := v;
     selectionExpanded := selectionExpanded b;
     selectionClickTime := selectionClickTime b; defaultCell := defaultCell b;
     maxLines := maxLines b |}.

(** ** Queries and small state updates *)

Definition emitDisplayChange (b : Buffer) : Buffer := set_dirty true b.

(** [IsDirty] returns the flag and the buffer with the flag cleared. *)
Definition IsDirty (b : Buffer) : bool * Buffer :=
  if negb (dirty b) then (false, b) else (true, set_dirty false b).

Definition SetAutoWrap (enabled : bool) (b : Buffer) : Buffer := set_autoWrap enabled b.
Definition IsAutoWrap (b : Buffer) : bool := autoWrap b.
Definition SetInsertMode (b : Buffer) : Buffer := set_replaceMode false b.
Definition SetReplaceMode (b : Buffer) : Buffer := set_replaceMode true b.
Definition SetNewLineMode (b : Buffer) : Buffer := set_lineFeedMode false b.
Definition SetLineFeedMode (b : Buffer) : Buffer := set_lineFeedMode true b.
Definition IsNewLineMode (b : Buffer) : bool := negb (lineFeedMode b).

Definition Width (b : Buffer) : Z := viewWidth b.
Definition ViewWidth (b : Buffer) : Z := viewWidth b.
Definition ViewHeight (b : Buffer) : Z := viewHeight b.
Definition Height (b : Buffer) : Z := Z.of_nat (length (lines b)).
Definition CursorColumn (b : Buffer) : Z := cursorX b.
Definition TopMargin (b : Buffer) : Z := topMargin b.
Definition BottomMargin (b : Buffer) : Z := bottomMargin b.
Definition GetScrollOffset (b : Buffer) : Z := scrollLinesFromBottom b.

(** [CursorLine]: the test [result < 0] of the source is dead for a uint16. *)
Definition CursorLine (b : Buffer) : Z :=
  if originMode b then u16 (cursorY b - u16 (topMargin b)) else cursorY b.

Definition SetVerticalMargins (top bottom : Z) (b : Buffer) : Buffer :=
  set_bottomMargin bottom (set_topMargin top b).

Definition ResetVerticalMargins (b : Buffer) : Buffer :=
  SetVerticalMargins 0 (u16 (viewHeight b - 1)) b.

Definition HasScrollableRegion (b : Buffer) : bool :=
  (topMargin b >? 0) || (bottomMargin b <? u64 (ViewHeight b - 1)).

Definition InScrollableRegion (b : Buffer) : bool :=
  HasScrollableRegion b && (cursorY b >=? topMargin b) && (cursorY b <=? bottomMargin b).

Definition SaveCursor (b : Buffer) : Buffer :=
  set_savedY (cursorY b) (set_savedX (cursorX b) b).

Definition RestoreCursor (b : Buffer) : Buffer :=
  set_cursorY (savedY b) (set_cursorX (savedX b) b).

Definition getMaxLines (b : Buffer) : Z :=
  if maxLines b <? viewHeight b then viewHeight b else maxLines b.

Definition convertViewLineToRawLine (b : Buffer) (viewLine : Z) : Z :=
  let rawHeight := Height b in
  if viewHeight b >? rawHeight then viewLine
  else u64 (viewLine + (rawHeight - viewHeight b)).

Definition convertRawLineToViewLine (b : Buffer) (rawLine : Z) : Z :=
  let rawHeight := Height b in
  if viewHeight b >? rawHeight then u16 rawLine
  else u16 (int rawLine - (rawHeight - viewHeight b)).

Definition RawLine (b : Buffer) : Z := convertViewLineToRawLine b (cursorY b).

(** [GetRawCell]: the tests [viewCol < 0] and [rawLine < 0] of the source are
    dead for unsigned arguments.  The row is compared after conversion to
    [int], and then used unconverted as the index. *)
Definition GetRawCell (viewCol rawLine : Z) (b : Buffer) : outcome (option Cell) :=
  if int rawLine >=? Height b then Ok None
  else if rawLine <? Height b then
    match lines b !! Z.to_nat rawLine with
    | Some line =>
      if viewCol >=? Z.of_nat (length (cells line)) then Ok None
      else Ok (cells line !! Z.to_nat viewCol)
    | None => Panic
    end
  else Panic.

Definition GetCell (viewCol viewRow : Z) (b : Buffer) : outcome (option Cell) :=
  let rawLine := convertViewLineToRawLine b viewRow in
  GetRawCell viewCol rawLine b.

Definition ScrollDown (n : Z) (b : Buffer) : Buffer :=
  if Height b <? ViewHeight b then emitDisplayChange b
  else
    let n := if n >? scrollLinesFromBottom b then u16 (scrollLinesFromBottom b) else n in
    emitDisplayChange (set_scrollLinesFromBottom (u64 (scrollLinesFromBottom b - n)) b).

Definition ScrollUp (n : Z) (b : Buffer) : Buffer :=
  if Height b <? ViewHeight b then emitDisplayChange b
  else if u64 (n + scrollLinesFromBottom b) >=? u64 (Height b - ViewHeight b) then
    emitDisplayChange (set_scrollLinesFromBottom (u64 (Height b - ViewHeight b)) b)
  else emitDisplayChange (set_scrollLinesFromBottom (u64 (scrollLinesFromBottom b + n)) b).

Definition ScrollPageDown (b : Buffer) : Buffer := ScrollDown (viewHeight b) b.
Definition ScrollPageUp (b : Buffer) : Buffer := ScrollUp (viewHeight b) b.
Definition ScrollToEnd (b : Buffer) : Buffer :=
  emitDisplayChange (set_scrollLinesFromBottom 0 b).

(** ** Lines of the view *)

(** [getViewLine] returns the buffer, in which missing lines may have been
    created, and the index in [lines] of the line pointed to.  The final
    [panic] of the source is the last branch. *)
Definition getViewLine (index : Z) (b : Buffer) : outcome (Buffer * nat) :=
  if index >=? ViewHeight b then
    match length (lines b) with
    | O => Panic
    | S n => Ok (b, n)
    end
  else if Height b <? ViewHeight b then
    let missing := (Z.to_nat (index + 1) - length (lines b))%nat in
    Ok (set_lines (lines b ++ replicate missing newLine) b, Z.to_nat index)
  else if int (convertViewLineToRawLine b index) <? Height b then
    Ok (b, Z.to_nat (convertViewLineToRawLine b index))
  else Panic.

Definition getCurrentLine (b : Buffer) : outcome (Buffer * nat) :=
  getViewLine (cursorY b) b.

(** Reading and updating the line behind a line pointer. *)
Definition readLine (li : nat) (b : Buffer) : outcome Line :=
  match lines b !! li with
  | Some line => Ok line
  | None => Panic
  end.

Definition updLine (li : nat) (f : Line -> Line) (b : Buffer) : Buffer :=
  set_lines (alter f li (lines b)) b.

(** [lines[i] = v]. *)
Definition storeLine (i : Z) (v : Line) (ls : list Line) : outcome (list Line) :=
  if (0 <=? i) && (i <? Z.of_nat (length ls)) then Ok (<[Z.to_nat i := v]> ls) else Panic.

(** ** Index and reverse index *)

(** [for i := from; i < from+n; i++ { lines[i] = lines[i+1] }]. *)
Fixpoint shiftLinesUp (n : nat) (i : nat) (ls : list Line) : outcome (list Line) :=
  match n with
  | O => Ok ls
  | S n' =>
    match ls !! S i with
    | Some next => shiftLinesUp n' (S i) (<[i := next]> ls)
    | None => Panic
    end
  end.

(** [for i := from; i > from-n; i-- { lines[i] = lines[i-1] }]. *)
Fixpoint shiftLinesDown (n : nat) (i : nat) (ls : list Line) : outcome (list Line) :=
  match n with
  | O => Ok ls
  | S n' =>
    match i with
    | O => Panic
    | S j =>
      match ls !! j with
      | Some prev =>
        if decide (i < length ls)%nat then shiftLinesDown n' j (<[i := prev]> ls)
        else Panic
      | None => Panic
      end
    end
  end.

(** The append of [Index] followed by the cut to [getMaxLines] lines. *)
Definition appendCapped (maxL : Z) (ls : list Line) : list Line :=
  let ls' := ls ++ [newLine] in
  if Z.of_nat (length ls') >? maxL
  then take (Z.to_nat maxL) (drop (Z.to_nat (Z.of_nat (length ls') - maxL)) ls')
  else ls'.

Definition Index (b : Buffer) : outcome Buffer :=
  if InScrollableRegion b then
    if cursorY b <? bottomMargin b then
      Ok (emitDisplayChange (set_cursorY (u16 (cursorY b + 1)) b))
    else
      let topIndex := convertViewLineToRawLine b (u16 (topMargin b)) in
      let bottomIndex := convertViewLineToRawLine b (u16 (bottomMargin b)) in
      ls <- shiftLinesUp (Z.to_nat (bottomIndex - topIndex)) (Z.to_nat topIndex) (lines b) ;;
      ls' <- storeLine bottomIndex newLine ls ;;
      Ok (emitDisplayChange (set_lines ls' b))
  else if cursorY b >=? u16 (ViewHeight b - 1) then
    Ok (emitDisplayChange (set_lines (appendCapped (getMaxLines b) (lines b)) b))
  else Ok (emitDisplayChange (set_cursorY (u16 (cursorY b + 1)) b)).

Definition ReverseIndex (b : Buffer) : outcome Buffer :=
  if InScrollableRegion b then
    if cursorY b >? topMargin b then
      Ok (emitDisplayChange (set_cursorY (u16 (cursorY b - 1)) b))
    else
      let topIndex := convertViewLineToRawLine b (u16 (topMargin b)) in
      let bottomIndex := convertViewLineToRawLine b (u16 (bottomMargin b)) in
      ls <- shiftLinesDown (Z.to_nat (bottomIndex - topIndex)) (Z.to_nat bottomIndex) (lines b) ;;
      ls' <- storeLine topIndex newLine ls ;;
      Ok (emitDisplayChange (set_lines ls' b))
  else if cursorY b >? 0 then
    Ok (emitDisplayChange (set_cursorY (u16 (cursorY b - 1)) b))
  else Ok (emitDisplayChange b).

(** ** Cursor positioning *)

Definition SetPosition (col line : Z) (b : Buffer) : Buffer :=
  let maxLine := u16 (ViewHeight b - 1) in
  let useLine := if originMode b then u16 (line + u16 (topMargin b)) else line in
  let maxLine := if originMode b then u16 (bottomMargin b) else maxLine in
  let useLine := if useLine >? maxLine then maxLine else useLine in
  let useCol := if col >=? ViewWidth b then u16 (ViewWidth b - 1) else col in
  emitDisplayChange (set_cursorY useLine (set_cursorX useCol b)).

(** [MovePosition]: the sums are taken in [int16]. *)
Definition MovePosition (x y : Z) (b : Buffer) : Buffer :=
  let sumX := i16 (i16 (CursorColumn b) + x) in
  let sumY := i16 (i16 (CursorLine b) + y) in
  let toX := if sumX <? 0 then 0 else u16 sumX in
  let toY := if sumY <? 0 then 0 else u16 sumY in
  SetPosition toX toY b.

Definition SetOriginMode (enabled : bool) (b : Buffer) : Buffer :=
  SetPosition 0 0 (set_originMode enabled b).

Definition incrementCursorPosition (b : Buffer) : Buffer :=
  if CursorColumn b <? Width b then set_cursorX (u16 (cursorX b + 1)) b else b.

Definition inDoWrap (b : Buffer) : bool := cursorX b =? viewWidth b.

(** ** New line *)

(** The loop of [NewLineEx]: index again while the current line is a
    continuation. *)
Fixpoint newLineLoop (fuel : nat) (b : Buffer) : outcome Buffer :=
  match fuel with
  | O => Starved
  | S fuel' =>
    p <- getCurrentLine b ;;
    let '(b1, li) := p in
    line <- readLine li b1 ;;
    if negb (wrapped line) then Ok b1
    else b2 <- Index b1 ;; newLineLoop fuel' b2
  end.

(** An index either moves the cursor down or leaves a fresh line under it, so
    the loop runs at most once per view row and once more. *)
Definition newLineBudget (b : Buffer) : nat := S (S (Z.to_nat (u16 (viewHeight b - 1)))).

Definition NewLineEx (forceCursorToMargin : bool) (b : Buffer) : outcome Buffer :=
  let b1 := if IsNewLineMode b || forceCursorToMargin then set_cursorX 0 b else b in
  b2 <- Index b1 ;;
  newLineLoop (newLineBudget b) b2.

Definition NewLine (b : Buffer) : outcome Buffer := NewLineEx false b.

(** ** Writing *)

(** [for col >= len(cells) { cells = append(cells, def) }]. *)
Definition padCells (col : nat) (def : Cell) (cs : list Cell) : list Cell :=
  cs ++ replicate (S col - length cs) def.

(** Pad the line up to column [col], then set the rune and the attributes of
    the cell at [col]. *)
Definition putCell (col : nat) (x : Z) (a : CellAttributes) (def : Cell) (line : Line) : Line :=
  set_cells (alter (fun c => set_attr a (setRune x c)) col (padCells col def (cells line))) line.

(** The loop over the runes of [Write]; a [return] inside the loop drops the
    runes that are left. *)
Fixpoint writeRunes (runes : list Z) (b : Buffer) : outcome Buffer :=
  match runes with
  | [] => Ok b
  | x :: rest =>
    p <- getCurrentLine b ;;
    let '(b1, li) := p in
    if replaceMode b1 then
      if CursorColumn b1 >=? Width b1 then Ok b1
      else
        let col := Z.to_nat (CursorColumn b1) in
        let b2 := updLine li (putCell col x (cursorAttr b1) (defaultCell b1)) b1 in
        writeRunes rest (incrementCursorPosition b2)
    else if CursorColumn b1 >=? Width b1 then
      if autoWrap b1 then
        b2 <- NewLineEx true b1 ;;
        q <- getCurrentLine b2 ;;
        let '(b3, ni) := q in
        let b4 := updLine ni (putCell 0 x (cursorAttr b3) (defaultCell b3)) b3 in
        writeRunes rest (incrementCursorPosition b4)
      else Ok b1
    else
      let col := Z.to_nat (CursorColumn b1) in
      let b2 := updLine li (putCell col x (cursorAttr b1) (defaultCell b1)) b1 in
      writeRunes rest (incrementCursorPosition b2)
  end.

Definition Write (runes : list Z) (b : Buffer) : outcome Buffer :=
  writeRunes runes (set_scrollLinesFromBottom 0 b).

Definition Backspace (b : Buffer) : outcome Buffer :=
  if cursorX b =? 0 then
    p <- getCurrentLine b ;;
    let '(b1, li) := p in
    line <- readLine li b1 ;;
    if wrapped line then Ok (MovePosition (i16 (u16 (Width b1 - 1))) (-1) b1)
    else Ok b1
  else if inDoWrap b then Ok (MovePosition (-2) 0 b)
  else Ok (MovePosition (-1) 0 b).

(** The loop of [CarriageReturn]; the pointer returned by [getCurrentLine] is
    never nil, so the first [break] of the source is dead. *)
Fixpoint carriageReturnLoop (fuel : nat) (b : Buffer) : outcome Buffer :=
  match fuel with
  | O => Starved
  | S fuel' =>
    p <- getCurrentLine b ;;
    let '(b1, li) := p in
    line <- readLine li b1 ;;
    if wrapped line && (cursorY b1 >? 0)
    then carriageReturnLoop fuel' (set_cursorY (u16 (cursorY b1 - 1)) b1)
    else Ok b1
  end.

Definition CarriageReturn (b : Buffer) : outcome Buffer :=
  b1 <- carriageReturnLoop (S (Z.to_nat (cursorY b))) b ;;
  Ok (set_cursorX 0 b1).

Definition Tab (b : Buffer) : outcome Buffer :=
  let tabSize := 4 in
  let max := if cursorX b <? viewWidth b then u16 (viewWidth b - cursorX b - 1) else tabSize in
  let shift := tabSize - u16 (cursorX b + 1) mod tabSize in
  let shift := if shift >? max then max else shift in
  times (Z.to_nat shift) (Write [32]) b.

Definition Clear (b : Buffer) : Buffer :=
  let ls := lines b ++ replicate (Z.to_nat (ViewHeight b)) newLine in
  emitDisplayChange (SetPosition 0 0 (set_lines ls b)).

(** ** Erasing *)

(** Erase the cells whose index is in [lo, hi). *)
Definition eraseCells (lo hi : nat) (bg : Colour) (cs : list Cell) : list Cell :=
  imap (fun i c => if decide (lo <= i < hi)%nat then erase bg c else c) cs.

(** [lines[int(rawLine)].cells = []Cell{}] for each of the view rows, where
    the raw line exists. *)
Fixpoint clearViewRows (b : Buffer) (rows : list Z) (ls : list Line) : outcome (list Line) :=
  match rows with
  | [] => Ok ls
  | i :: rest =>
    let rawLine := convertViewLineToRawLine b i in
    if int rawLine <? Height b then
      if int rawLine <? 0 then Panic
      else clearViewRows b rest (alter (set_cells []) (Z.to_nat (int rawLine)) ls)
    else clearViewRows b rest ls
  end.

(** The view rows [from, from+1, ..., to-1]. *)
Definition viewRows (from to : Z) : list Z :=
  map (fun k => from + Z.of_nat k) (seq 0 (Z.to_nat (to - from))).

Definition EraseLine (b : Buffer) : outcome Buffer :=
  p <- getCurrentLine b ;;
  let '(b1, li) := p in
  Ok (emitDisplayChange (updLine li (set_cells []) b1)).

Definition EraseLineToCursor (b : Buffer) : outcome Buffer :=
  p <- getCurrentLine b ;;
  let '(b1, li) := p in
  let bg := BgColour (attr (defaultCell b1)) in
  Ok (emitDisplayChange
        (updLine li (fun l => set_cells (eraseCells 0 (S (Z.to_nat (cursorX b1))) bg (cells l)) l) b1)).

Definition EraseLineFromCursor (b : Buffer) : outcome Buffer :=
  p <- getCurrentLine b ;;
  let '(b1, li) := p in
  line <- readLine li b1 ;;
  let cs :=
    if (Z.of_nat (length (cells line)) >? 0) && (cursorX b1 <? Z.of_nat (length (cells line)))
    then take (Z.to_nat (cursorX b1)) (cells line)
    else cells line in
  let b2 := updLine li (set_cells cs) b1 in
  let max := ViewWidth b2 - Z.of_nat (length cs) in
  b3 <- times (Z.to_nat max) (Write [0]) (SaveCursor b2) ;;
  Ok (emitDisplayChange (RestoreCursor b3)).

Definition EraseDisplay (b : Buffer) : outcome Buffer :=
  ls <- clearViewRows b (viewRows 0 (ViewHeight b)) (lines b) ;;
  Ok (emitDisplayChange (set_lines ls b)).

Definition DeleteChars (n : Z) (b : Buffer) : outcome Buffer :=
  p <- getCurrentLine b ;;
  let '(b1, li) := p in
  line <- readLine li b1 ;;
  let len := Z.of_nat (length (cells line)) in
  if cursorX b1 >=? len then Ok (emitDisplayChange b1)
  else
    let before := take (Z.to_nat (cursorX b1)) (cells line) in
    let n := if cursorX b1 + n >=? len then len - cursorX b1 else n in
    if cursorX b1 + n <? 0 then Panic
    else
      let after := drop (Z.to_nat (cursorX b1 + n)) (cells line) in
      Ok (emitDisplayChange (updLine li (set_cells (before ++ after)) b1)).

Definition EraseCharacters (n : Z) (b : Buffer) : outcome Buffer :=
  p <- getCurrentLine b ;;
  let '(b1, li) := p in
  line <- readLine li b1 ;;
  let len := Z.of_nat (length (cells line)) in
  let max := if cursorX b1 + n >? len then len else cursorX b1 + n in
  let bg := BgColour (attr (defaultCell b1)) in
  Ok (emitDisplayChange
        (updLine li (fun l => set_cells
           (eraseCells (Z.to_nat (cursorX b1)) (Z.to_nat max) bg (cells l)) l) b1)).

Definition EraseDisplayFromCursor (b : Buffer) : outcome Buffer :=
  p <- getCurrentLine b ;;
  let '(b1, li) := p in
  line <- readLine li b1 ;;
  let len := Z.of_nat (length (cells line)) in
  let max := if cursorX b1 >? len then len else cursorX b1 in
  let b2 := updLine li (set_cells (take (Z.to_nat max) (cells line))) b1 in
  ls <- clearViewRows b2 (viewRows (u16 (cursorY b2 + 1)) (ViewHeight b2)) (lines b2) ;;
  Ok (emitDisplayChange (set_lines ls b2)).

Definition EraseDisplayToCursor (b : Buffer) : outcome Buffer :=
  p <- getCurrentLine b ;;
  let '(b1, li) := p in
  let bg := BgColour (attr (defaultCell b1)) in
  let b2 := updLine li (fun l => set_cells
              (eraseCells 0 (S (Z.to_nat (cursorX b1))) bg (cells l)) l) b1 in
  ls <- clearViewRows b2 (viewRows 0 (cursorY b2)) (lines b2) ;;
  Ok (emitDisplayChange (set_lines ls b2)).

(** ** Deleting and inserting lines *)

(** [lines[:index+copy(lines[index:], lines[index+1:])]]: both slice
    expressions need [index+1 <= len]. *)
Definition deleteLine (b : Buffer) : outcome Buffer :=
  let index := int (RawLine b) in
  if (0 <=? index) && (index + 1 <=? Height b)
  then Ok (set_lines (take (Z.to_nat index) (lines b) ++ drop (S (Z.to_nat index)) (lines b)) b)
  else Panic.

Definition DeleteLines (count : Z) (b : Buffer) : outcome Buffer :=
  if HasScrollableRegion b && negb (InScrollableRegion b) then Ok b
  else times (Z.to_nat count) deleteLine (set_cursorX 0 b).

(** [copy(dst[lo:hi], src)]. *)
Definition copyInto {A : Type} (dst : list A) (lo hi : nat) (src : list A) : list A :=
  let n := Nat.min (hi - lo) (length src) in
  take lo dst ++ take n src ++ drop (lo + n) dst.

(** The loop of the region branch of [insertLine], over the raw rows
    [i, i+1, ..., i+n-1]. *)
Fixpoint insertShift (n : nat) (i pos : nat) (src out : list Line) : outcome (list Line) :=
  match n with
  | O => Ok out
  | S n' =>
    match src !! i with
    | Some line =>
      let target := if decide (i < pos)%nat then i else S i in
      if decide (target < length out)%nat
      then insertShift n' (S i) pos src (<[target := line]> out)
      else Panic
    | None => Panic
    end
  end.

(** [insertLine].  A slice expression whose bound lies between [len] and
    [cap] of [buffer.lines] does not panic in Go; on every such path the
    store [out[pos] = newLine()] panics afterwards, so the outcome is [Panic]
    in the embedding as well. *)
Definition insertLine (b : Buffer) : outcome Buffer :=
  let len := Height b in
  if negb (InScrollableRegion b) then
    let pos := RawLine b in
    let maxL := getMaxLines b in
    let newLineCount := if u64 (len + 1) >? maxL then maxL else u64 (len + 1) in
    let k := u64 (len + 1 - newLineCount) in
    let out := replicate (Z.to_nat newLineCount) newLine in
    if negb (u64 (pos - k) <=? newLineCount) then Panic
    else if negb ((k <=? pos) && (pos <=? len)) then Panic
    else
      let out := copyInto out 0 (Z.to_nat (u64 (pos - k)))
                   (take (Z.to_nat (pos - k)) (drop (Z.to_nat k) (lines b))) in
      if negb (pos <? newLineCount) then Panic
      else
        let out := <[Z.to_nat pos := newLine]> out in
        let out := copyInto out (S (Z.to_nat pos)) (length out) (drop (Z.to_nat pos) (lines b)) in
        Ok (emitDisplayChange (set_lines out b))
  else
    let topIndex := convertViewLineToRawLine b (u16 (topMargin b)) in
    let bottomIndex := convertViewLineToRawLine b (u16 (bottomMargin b)) in
    if negb (topIndex <=? len) then Panic
    else if negb (bottomIndex + 1 <=? len) then Panic
    else
      let before := take (Z.to_nat topIndex) (lines b) in
      let after := drop (Z.to_nat (bottomIndex + 1)) (lines b) in
      let out := replicate (length (lines b)) newLine in
      let out := copyInto out 0 (length out) before in
      let pos := RawLine b in
      out <- insertShift (Z.to_nat (bottomIndex - topIndex)) (Z.to_nat topIndex)
               (Z.to_nat pos) (lines b) out ;;
      let out := copyInto out (Z.to_nat (bottomIndex + 1)) (length out) after in
      out <- storeLine pos newLine out ;;
      Ok (emitDisplayChange (set_lines out b)).

Definition InsertLines (count : Z) (b : Buffer) : outcome Buffer :=
  if HasScrollableRegion b && negb (InScrollableRegion b) then Ok b
  else times (Z.to_nat count) insertLine (set_cursorX 0 b).

(** ** Resizing *)

Definition wrappedLine (cs : list Cell) : Line := {| cells := cs; wrapped := true |}.

(** The shrinking loop of [ResizeView], from the line at the head of [ls] on;
    the lines before it are final.  A line longer than [width] is cut; the
    cells cut off go to the front of the next line when that line is a
    continuation, and into a new continuation line otherwise.  The counter
    [cursorYMovement] of the source is never read and is left out. *)
Fixpoint wrapLines (fuel : nat) (width : Z) (ls : list Line) : outcome (list Line) :=
  match fuel with
  | O => Starved
  | S fuel' =>
    match ls with
    | [] => Ok []
    | line :: rest =>
      if Z.of_nat (length (cells line)) >? width then
        let sillyCells := drop (Z.to_nat width) (cells line) in
        let line' := set_cells (take (Z.to_nat width) (cells line)) line in
        let rest' :=
          match rest with
          | nextLine :: after =>
            if wrapped nextLine
            then set_cells (sillyCells ++ cells nextLine) nextLine :: after
            else wrappedLine sillyCells :: rest
          | [] => [wrappedLine sillyCells]
          end in
        tl <- wrapLines fuel' width rest' ;;
        Ok (line' :: tl)
      else
        tl <- wrapLines fuel' width rest ;;
        Ok (line :: tl)
    end
  end.

(** One pass over every line, and one more for every cell that can be cut. *)
Definition wrapBudget (ls : list Line) : nat :=
  S (length ls + length (concat (map cells ls))).

(** The inner loop of the growing branch, for the line [line] followed by
    [rest]: cells are pulled up from the next line while it is a continuation
    and there is room.  When only part of the next line fits, the line is
    full, and the source's loop stops at its next test. *)
Fixpoint pullCells (width : Z) (line : Line) (rest : list Line) : Line * list Line :=
  match rest with
  | [] => (line, [])
  | nextLine :: after =>
    if negb (wrapped nextLine) then (line, rest)
    else
      let spaceOnLine := width - Z.of_nat (length (cells line)) in
      if spaceOnLine <=? 0 then (line, rest)
      else
        let moveCount :=
          if spaceOnLine >? Z.of_nat (length (cells nextLine))
          then Z.of_nat (length (cells nextLine)) else spaceOnLine in
        let line' := set_cells (cells line ++ take (Z.to_nat moveCount) (cells nextLine)) line in
        if moveCount =? Z.of_nat (length (cells nextLine))
        then pullCells width line' after
        else (line', set_cells (drop (Z.to_nat moveCount) (cells nextLine)) nextLine :: after)
  end.

(** The growing loop of [ResizeView]; [n] bounds the number of lines. *)
Fixpoint unwrapLines (n : nat) (width : Z) (ls : list Line) : list Line :=
  match n, ls with
  | S n', line :: rest =>
    let '(line', rest') := pullCells width line rest in
    line' :: unwrapLines n' width rest'
  | _, _ => ls
  end.

Definition ResizeView (width height : Z) (b : Buffer) : outcome Buffer :=
  if viewHeight b =? 0 then
    Ok (emitDisplayChange (set_viewHeight height (set_viewWidth width b)))
  else
    p <- getCurrentLine b ;;
    let '(b1, li) := p in
    line <- readLine li b1 ;;
    let cXFromEndOfLine := Z.of_nat (length (cells line)) - u16 (cursorX b1 + 1) in
    ls <- (if width <? viewWidth b1 then wrapLines (wrapBudget (lines b1)) width (lines b1)
           else if width >? viewWidth b1
                then Ok (unwrapLines (length (lines b1)) width (lines b1))
                else Ok (lines b1)) ;;
    let b2 := set_viewHeight height (set_viewWidth width (set_lines ls b1)) in
    let cY := u16 (Height b2 - 1) in
    let cY := if cY >=? viewHeight b2 then u16 (viewHeight b2 - 1) else cY in
    let b3 := set_cursorY cY b2 in
    q <- getCurrentLine b3 ;;
    let '(b4, li') := q in
    line' <- readLine li' b4 ;;
    let cX := u16 ((Z.of_nat (length (cells line')) - cXFromEndOfLine) - 1) in
    Ok (emitDisplayChange (ResetVerticalMargins (set_cursorX cX b4))).

(** ** Construction *)

Definition emptyBuffer (attr0 : CellAttributes) (maxL : Z) : Buffer :=
  {| lines := []; cursorX := 0; cursorY := 0; viewHeight := 0; viewWidth := 0;
     cursorAttr := attr0; savedX := 0; savedY := 0; scrollLinesFromBottom := 0;
     topMargin := 0; bottomMargin := 0; replaceMode := false; originMode := false;
     lineFeedMode := false; autoWrap := true; dirty := false;
     selectionStart := None; selectionEnd := None; selectionComplete := false;
     selectionExpanded := false; selectionClickTime := 0;
     defaultCell := {| r := 0; attr := attr0 |}; maxLines := maxL |}.

Definition NewBuffer (viewCols viewLines : Z) (attr0 : CellAttributes) (maxL : Z)
  : outcome Buffer :=
  let b := emptyBuffer attr0 maxL in
  let b := SetVerticalMargins 0 (u16 (viewLines - 1)) b in
  ResizeView viewCols viewLines b.

(** ** Selection end *)

(** The raw row of a view row under the scroll offset, as computed in the
    first statement of [GetURLAtPosition], [SelectWordAtPosition],
    [StartSelection] and in [EndSelection]; the subtraction is unsigned. *)
Definition scrolledRawLine (b : Buffer) (viewRow : Z) : Z :=
  u64 (convertViewLineToRawLine b viewRow - u64 (scrollLinesFromBottom b)).

Definition EndSelection (col viewRow : Z) (complete : bool) (b : Buffer) : Buffer :=
  if selectionComplete b then b
  else
    let b1 := set_selectionComplete complete b in
    match selectionStart b1 with
    | None => emitDisplayChange (set_selectionEnd None b1)
    | Some start =>
      let row := scrolledRawLine b1 viewRow in
      if (col =? Position_Col start) && (int row =? int (Position_Line start)) && complete
      then emitDisplayChange b1
      else emitDisplayChange
             (set_selectionEnd (Some {| Position_Line := int row; Position_Col := col |}) b1)
    end.

(** ** Sequences of operations *)

Inductive Op : Type :=
| OpWrite (runes : list Z)
| OpBackspace
| OpCarriageReturn
| OpTab
| OpNewLine
| OpNewLineEx (forceCursorToMargin : bool)
| OpIndex
| OpReverseIndex
| OpSetPosition (col line : Z)
| OpMovePosition (x y : Z)
| OpSaveCursor
| OpRestoreCursor
| OpSetAutoWrap (enabled : bool)
| OpSetOriginMode (enabled : bool)
| OpSetInsertMode
| OpSetReplaceMode
| OpSetNewLineMode
| OpSetLineFeedMode
| OpSetVerticalMargins (top bottom : Z)
| OpResetVerticalMargins
| OpScrollUp (n : Z)
| OpScrollDown (n : Z)
| OpScrollPageUp
| OpScrollPageDown
| OpScrollToEnd
| OpClear
| OpEraseLine
| OpEraseLineToCursor
| OpEraseLineFromCursor
| OpEraseDisplay
| OpEraseDisplayFromCursor
| OpEraseDisplayToCursor
| OpDeleteChars (n : Z)
| OpEraseCharacters (n : Z)
| OpInsertLines (count : Z)
| OpDeleteLines (count : Z)
| OpEndSelection (col viewRow : Z) (complete : bool)
| OpResizeView (width height : Z)
| OpIsDirty.

Definition apply (o : Op) (b : Buffer) : outcome Buffer :=
  match o with
  | OpWrite runes => Write runes b
  | OpBackspace => Backspace b
  | OpCarriageReturn => CarriageReturn b
  | OpTab => Tab b
  | OpNewLine => NewLine b
  | OpNewLineEx force => NewLineEx force b
  | OpIndex => Index b
  | OpReverseIndex => ReverseIndex b
  | OpSetPosition col line => Ok (SetPosition col line b)
  | OpMovePosition x y => Ok (MovePosition x y b)
  | OpSaveCursor => Ok (SaveCursor b)
  | OpRestoreCursor => Ok (RestoreCursor b)
  | OpSetAutoWrap enabled => Ok (SetAutoWrap enabled b)
  | OpSetOriginMode enabled => Ok (SetOriginMode enabled b)
  | OpSetInsertMode => Ok (SetInsertMode b)
  | OpSetReplaceMode => Ok (SetReplaceMode b)
  | OpSetNewLineMode => Ok (SetNewLineMode b)
  | OpSetLineFeedMode => Ok (SetLineFeedMode b)
  | OpSetVerticalMargins top bottom => Ok (SetVerticalMargins top bottom b)
  | OpResetVerticalMargins => Ok (ResetVerticalMargins b)
  | OpScrollUp n => Ok (ScrollUp n b)
  | OpScrollDown n => Ok (ScrollDown n b)
  | OpScrollPageUp => Ok (ScrollPageUp b)
  | OpScrollPageDown => Ok (ScrollPageDown b)
  | OpScrollToEnd => Ok (ScrollToEnd b)
  | OpClear => Ok (Clear b)
  | OpEraseLine => EraseLine b
  | OpEraseLineToCursor => EraseLineToCursor b
  | OpEraseLineFromCursor => EraseLineFromCursor b
  | OpEraseDisplay => EraseDisplay b
  | OpEraseDisplayFromCursor => EraseDisplayFromCursor b
  | OpEraseDisplayToCursor => EraseDisplayToCursor b
  | OpDeleteChars n => DeleteChars n b
  | OpEraseCharacters n => EraseCharacters n b
  | OpInsertLines count => InsertLines count b
  | OpDeleteLines count => DeleteLines count b
  | OpEndSelection col viewRow complete => Ok (EndSelection col viewRow complete b)
  | OpResizeView width height => ResizeView width height b
  | OpIsDirty => Ok (snd (IsDirty b))
  end.

Fixpoint run (ops : list Op) (b : Buffer) : outcome Buffer :=
  match ops with
  | [] => Ok b
  | o :: rest => b' <- apply o b ;; run rest b'
  end.

(** ** Notions used by the properties *)

(** The text of a line, one code point per cell. *)
Definition lineRunes (l : Line) : list Z := map Rune (cells l).

(** The line shown at a view row, when the grid store holds it. *)
Definition viewLine (b : Buffer) (row : Z) : option Line :=
  lines b !! Z.to_nat (convertViewLineToRawLine b row).

(** The line shown at a view row; a row that the grid store does not hold
    yet shows as a fresh line. *)
Definition rowLine (b : Buffer) (row : Z) : Line := default newLine (viewLine b row).

(** Whether the first line of a list is a continuation line. *)
Definition headWrapped (ls : list Line) : bool :=
  match ls with
  | line :: _ => wrapped line
  | [] => false
  end.

(** The logical lines of a list of lines: the cells of each line that is not
    a continuation, followed by the cells of the continuation lines after
    it.  (A continuation line at the very start begins a logical line.) *)
Fixpoint logicalLines (ls : list Line) : list (list Cell) :=
  match ls with
  | [] => []
  | line :: rest =>
    match logicalLines rest with
    | group :: groups =>
      if headWrapped rest then (cells line ++ group) :: groups
      else cells line :: group :: groups
    | [] => [cells line]
    end
  end.

(** No line has more than [width] cells. *)
Definition fitsWidth (width : Z) (ls : list Line) : Prop :=
  Forall (fun line => Z.of_nat (length (cells line)) <= width) ls.


(** The cell at a view position, when the grid store holds it. *)
Definition viewCell (b : Buffer) (col row : Z) : option Cell :=
  match viewLine b row with
  | Some line => cells line !! Z.to_nat col
  | None => None
  end.

(** The cell that [Write] leaves at the cursor. *)
Definition written (x : Z) (b : Buffer) : Cell := {| r := x; attr := cursorAttr b |}.

(** The column that [Tab] moves to from column [col] in a view of [width]
    columns: the next column that is one short of a multiple of 4, or the
    last column. *)
Definition tabStop (col width : Z) : Z := Z.min (4 * ((col + 1) / 4 + 1) - 1) (width - 1).

(** Every field holds a value of its Go type. *)
Definition typed (b : Buffer) : Prop :=
  is_u16 (cursorX b) /\ is_u16 (cursorY b) /\ is_u16 (viewHeight b) /\
  is_u16 (viewWidth b) /\ is_u16 (savedX b) /\ is_u16 (savedY b) /\
  is_u64 (scrollLinesFromBottom b) /\ is_u64 (topMargin b) /\
  is_u64 (bottomMargin b) /\ is_u64 (maxLines b).

(** [len(buffer.lines)] is a Go [int], and a slice that fits in memory has
    far fewer than 2^62 elements. *)
Definition len_ok (b : Buffer) : Prop := Height b < 4611686018427387904.

(** The arguments of an operation hold values of their Go types. *)
Definition typed_op (o : Op) : Prop :=
  match o with
  | OpSetPosition col line => is_u16 col /\ is_u16 line
  | OpMovePosition x y => is_i16 x /\ is_i16 y
  | OpSetVerticalMargins top bottom => is_u64 top /\ is_u64 bottom
  | OpScrollUp n | OpScrollDown n => is_u16 n
  | OpEndSelection col viewRow _ => is_u16 col /\ is_u16 viewRow
  | OpResizeView width height => is_u16 width /\ is_u16 height
  | _ => True
  end.

(** The cursor bounds of the specification. *)
Definition cursor_in_bounds (b : Buffer) : Prop :=
  0 <= cursorY b < viewHeight b /\ 0 <= cursorX b <= viewWidth b.

(** The fields that the cursor bounds depend on. *)
Definition cursor_state (b : Buffer) : Z * Z * Z * Z * Z * Z * Z * Z :=
  (viewWidth b, viewHeight b, cursorX b, cursorY b, savedX b, savedY b,
   topMargin b, bottomMargin b).

(** The invariant behind the cursor bounds: a view of [h] rows and at least
    one cell, the cursor and the saved cursor inside it (the column may be
    one past the last), and the bottom margin a row of the view. *)
Definition cursor_inv (h : Z) (b : Buffer) : Prop :=
  viewHeight b = h /\
  is_u16 (viewWidth b) /\ is_u16 (viewHeight b) /\
  1 <= viewWidth b /\ 1 <= viewHeight b /\
  cursor_in_bounds b /\
  (0 <= savedY b < viewHeight b /\ 0 <= savedX b <= viewWidth b) /\
  0 <= topMargin b /\ 0 <= bottomMargin b < viewHeight b.

(** An operation that neither resizes the view nor sets a bottom margin below
    the view of height [h]. *)
Definition calm (h : Z) (o : Op) : Prop :=
  typed_op o /\
  match o with
  | OpResizeView _ _ => False
  | OpSetVerticalMargins _ bottom => bottom < h
  | _ => True
  end.

(** The fields that writing and indexing leave alone: everything but the
    lines, the cursor, the scroll offset, the dirty flag and the selection. *)
Definition same_frame (b b' : Buffer) : Prop :=
  viewHeight b' = viewHeight b /\ viewWidth b' = viewWidth b /\
  cursorAttr b' = cursorAttr b /\ savedX b' = savedX b /\ savedY b' = savedY b /\
  topMargin b' = topMargin b /\ bottomMargin b' = bottomMargin b /\
  replaceMode b' = replaceMode b /\ originMode b' = originMode b /\
  lineFeedMode b' = lineFeedMode b /\ autoWrap b' = autoWrap b /\
  defaultCell b' = defaultCell b /\ maxLines b' = maxLines b.

(** The cap on the number of lines. *)
Definition within_cap (b : Buffer) : Prop := Height b <= Z.max (maxLines b) (viewHeight b).

(** The result of a run that is known to return. *)
Definition state_of (o : outcome Buffer) (d : Buffer) : Buffer :=
  match o with
  | Ok b => b
  | _ => d
  end.

(** The lines of a reflow pass that is known to return. *)
Definition lines_of (o : outcome (list Line)) : list Line :=
  match o with
  | Ok ls => ls
  | _ => []
  end.

Definition attr0 : CellAttributes := defaultAttributes.

(** Fresh buffers used in the examples. *)
Definition fresh (cols rows maxL : Z) : Buffer :=
  state_of (NewBuffer cols rows attr0 maxL) (emptyBuffer attr0 maxL).

(** The number of scrollback lines above the view. *)
Definition viewOffset (b : Buffer) : Z :=
  if viewHeight b >? Height b then 0 else Height b - viewHeight b.

(** Scenario 2 of the specification: the rows "A" to "E" in a 4x5 view,
    margins (1,3), cursor at (0,3). *)
Definition regionOps : list Op :=
  [OpWrite [65]; OpNewLine; OpWrite [66]; OpNewLine; OpWrite [67]; OpNewLine;
   OpWrite [68]; OpNewLine; OpWrite [69]; OpSetVerticalMargins 1 3; OpSetPosition 0 3].

(** Six one-letter lines, written with a line feed between them. *)
Definition sixLines : list Op :=
  [OpWrite [97]; OpNewLine; OpWrite [98]; OpNewLine; OpWrite [99]; OpNewLine;
   OpWrite [100]; OpNewLine; OpWrite [101]; OpNewLine; OpWrite [102]].

(** * Properties *)

(** ** Machine integers *)

Lemma u16_small (z : Z) : 0 <= z < 65536 -> u16 z = z.
Proof. intros H. unfold u16. apply Z.mod_small. exact H. Qed.

Lemma u16_range (z : Z) : 0 <= u16 z < 65536.
Proof. unfold u16. apply Z.mod_pos_bound. lia. Qed.

Lemma u64_small (z : Z) : 0 <= z < 18446744073709551616 -> u64 z = z.
Proof. intros H. unfold u64. apply Z.mod_small. exact H. Qed.

Lemma u64_range (z : Z) : 0 <= u64 z < 18446744073709551616.
Proof. unfold u64. apply Z.mod_pos_bound. lia. Qed.

Lemma int_small (z : Z) : 0 <= z < 9223372036854775808 -> int z = z.
Proof. intros H. unfold int. rewrite Z.mod_small; lia. Qed.

Lemma int_high (z : Z) :
  9223372036854775808 <= z < 18446744073709551616 -> int z = z - 18446744073709551616.
Proof.
  intros H. unfold int.
  replace (z + 9223372036854775808)
    with (z - 9223372036854775808 + 1 * 18446744073709551616) by lia.
  rewrite Z.mod_add by lia. rewrite Z.mod_small; lia.
Qed.

(** ** Outcomes *)

Lemma bind_Ok {A B : Type} (m : outcome A) (k : A -> outcome B) (y : B) :
  bind m k = Ok y -> exists a, m = Ok a /\ k a = Ok y.
Proof. destruct m as [a| |]; simpl; intros H; [eauto | discriminate | discriminate]. Qed.

(** ** Vertical margins (C8) *)

(** C8, as stated, fails: after [SetPosition 2 1] on a fresh 10x8 buffer,
    [SetVerticalMargins 2 5] stores the margins and the cursor is still at
    column 2, row 1, not at (0,0). *)
Lemma SetVerticalMargins_cursor_not_reset :
  exists b, run [OpSetPosition 2 1] (fresh 10 8 100) = Ok b /\
    topMargin (SetVerticalMargins 2 5 b) = 2 /\
    bottomMargin (SetVerticalMargins 2 5 b) = 5 /\
    ~ (cursorX (SetVerticalMargins 2 5 b) = 0 /\ cursorY (SetVerticalMargins 2 5 b) = 0).
Proof.
  eexists. split; [vm_compute; reflexivity |].
  vm_compute. repeat split; intros [H _]; discriminate H.
Qed.

(** C8, amended: for all top and bottom values, [SetVerticalMargins top
    bottom] stores the given margins and leaves the cursor position, the
    saved cursor and the lines as they were. *)
Theorem SetVerticalMargins_stores_margins_only (top bottom : Z) (b : Buffer) :
  topMargin (SetVerticalMargins top bottom b) = top /\
  bottomMargin (SetVerticalMargins top bottom b) = bottom /\
  cursorX (SetVerticalMargins top bottom b) = cursorX b /\
  cursorY (SetVerticalMargins top bottom b) = cursorY b /\
  savedX (SetVerticalMargins top bottom b) = savedX b /\
  savedY (SetVerticalMargins top bottom b) = savedY b /\
  lines (SetVerticalMargins top bottom b) = lines b.
Proof. repeat split. Qed.

(** ** Origin mode (C10) *)

(** The row chosen by [SetPosition 0 0], for every buffer. *)
Lemma SetOriginMode_cursor (enabled : bool) (b : Buffer) :
  originMode (SetOriginMode enabled b) = enabled /\
  cursorX (SetOriginMode enabled b) =
    (if 0 >=? viewWidth b then u16 (viewWidth b - 1) else 0) /\
  cursorY (SetOriginMode enabled b) =
    (if enabled then Z.min (u16 (topMargin b)) (u16 (bottomMargin b)) else 0).
Proof.
  unfold SetOriginMode, SetPosition. simpl.
  split; [reflexivity | split; [reflexivity |]].
  destruct enabled; simpl.
  - rewrite Z.add_0_l, (u16_small (u16 (topMargin b))) by apply u16_range.
    destruct (u16 (topMargin b) >? u16 (bottomMargin b)) eqn:E; lia.
  - pose proof (u16_range (viewHeight b - 1)).
    destruct (0 >? u16 (viewHeight b - 1)) eqn:E; lia.
Qed.

(** C10: [SetOriginMode] sets the flag and then calls [SetPosition 0 0]: for
    every prior cursor position, enabling origin mode puts the cursor at
    column 0 on row [topMargin], clamped at [bottomMargin], and disabling it
    puts the cursor at column 0, row 0.  The view is at least one column wide
    and the margins are rows of a view (below 65536). *)
Theorem SetOriginMode_repositions_cursor (enabled : bool) (b : Buffer) :
  1 <= viewWidth b ->
  is_u16 (topMargin b) ->
  is_u16 (bottomMargin b) ->
  SetOriginMode enabled b = SetPosition 0 0 (set_originMode enabled b) /\
  originMode (SetOriginMode enabled b) = enabled /\
  cursorX (SetOriginMode enabled b) = 0 /\
  cursorY (SetOriginMode enabled b) =
    (if enabled then Z.min (topMargin b) (bottomMargin b) else 0).
Proof.
  intros Hw Ht Hb.
  destruct (SetOriginMode_cursor enabled b) as (Ho & Hx & Hy).
  split; [reflexivity | split; [exact Ho | split]].
  - rewrite Hx. destruct (0 >=? viewWidth b) eqn:E; [lia | reflexivity].
  - rewrite Hy. rewrite !u16_small by assumption. reflexivity.
Qed.

Lemma SetOriginMode_repositions_cursor_witness :
  let b := state_of (run [OpSetVerticalMargins 2 5; OpSetPosition 7 6] (fresh 10 8 100))
             (fresh 10 8 100) in
  (cursorX b = 7 /\ cursorY b = 6) /\
  (cursorX (SetOriginMode true b) = 0 /\ cursorY (SetOriginMode true b) = 2) /\
  (cursorX (SetOriginMode false b) = 0 /\ cursorY (SetOriginMode false b) = 0).
Proof.
  intros b.
  assert (Hw : 1 <= viewWidth b) by (vm_compute; discriminate).
  assert (Ht : is_u16 (topMargin b)) by (vm_compute; split; [discriminate | reflexivity]).
  assert (Hb : is_u16 (bottomMargin b)) by (vm_compute; split; [discriminate | reflexivity]).
  split; [split; reflexivity |].
  split.
  - destruct (SetOriginMode_repositions_cursor true b Hw Ht Hb) as (_ & _ & Hx & Hy).
    split; [exact Hx | rewrite Hy; reflexivity].
  - destruct (SetOriginMode_repositions_cursor false b Hw Ht Hb) as (_ & _ & Hx & Hy).
    split; [exact Hx | exact Hy].
Defined.

(** ** Cell lookup (C7) *)

(** Below 2^63 the bounds check of [GetRawCell] does what it is meant to do:
    a row at or beyond the line count gives no cell. *)
Lemma GetRawCell_row_beyond (col row : Z) (b : Buffer) :
  0 <= row < 9223372036854775808 -> Height b <= row -> GetRawCell col row b = Ok None.
Proof.
  intros Hr Hh. unfold GetRawCell. rewrite int_small by exact Hr.
  destruct (row >=? Height b) eqn:E; [reflexivity | lia].
Qed.

(** A column at or beyond the cell count of the line gives no cell. *)
Lemma GetRawCell_column_beyond (col row : Z) (b : Buffer) (line : Line) :
  0 <= row < 9223372036854775808 ->
  lines b !! Z.to_nat row = Some line ->
  Z.of_nat (length (cells line)) <= col ->
  GetRawCell col row b = Ok None.
Proof.
  intros Hr Hl Hc. unfold GetRawCell. rewrite int_small by exact Hr.
  destruct (row >=? Height b) eqn:E; [reflexivity |].
  destruct (row <? Height b) eqn:E'; [| lia].
  rewrite Hl. destruct (col >=? Z.of_nat (length (cells line))) eqn:E''; [reflexivity | lia].
Qed.

(** A row whose conversion to [int] is negative passes the bounds check and
    faults at the index expression. *)
Lemma GetRawCell_high_row_panics (col row : Z) (b : Buffer) :
  len_ok b ->
  9223372036854775808 <= row < 18446744073709551616 ->
  GetRawCell col row b = Panic.
Proof.
  intros Hl Hr. unfold GetRawCell, len_ok in *. rewrite int_high by exact Hr.
  assert (0 <= Height b) by (unfold Height; lia).
  destruct (row - 18446744073709551616 >=? Height b) eqn:E; [lia |].
  destruct (row <? Height b) eqn:E'; [lia | reflexivity].
Qed.

(** [GetCell] never faults: the raw row of a view row is below 2^63. *)
Lemma GetCell_returns (col row : Z) (b : Buffer) :
  len_ok b -> is_u16 (viewHeight b) -> is_u16 row ->
  exists c, GetCell col row b = Ok c.
Proof.
  intros Hl Hv Hr. unfold GetCell, GetRawCell, convertViewLineToRawLine.
  unfold len_ok, is_u16 in *.
  assert (0 <= Height b) by (unfold Height; lia).
  set (raw := if viewHeight b >? Height b then row
              else u64 (row + (Height b - viewHeight b))).
  assert (Hraw : 0 <= raw < 9223372036854775808).
  { subst raw. destruct (viewHeight b >? Height b) eqn:E; [lia |].
    rewrite u64_small; lia. }
  rewrite int_small by exact Hraw.
  destruct (raw >=? Height b) eqn:E; [eauto |].
  destruct (raw <? Height b) eqn:E'; [| lia].
  destruct (lines b !! Z.to_nat raw) as [line|] eqn:El.
  - destruct (col >=? Z.of_nat (length (cells line))); eauto.
  - apply lookup_ge_None in El. unfold Height in *. lia.
Qed.

(** The fault is reached through the public operations: with six lines in
    a 5x3 view, scrolling up two rows and growing the view to twenty rows
    leaves a scroll offset above the raw row of view row 0; the row passed to
    [GetRawCell] by [GetURLAtPosition] and [SelectWordAtPosition] wraps
    around, and the lookup faults. *)
Lemma GetRawCell_panics_after_scroll_and_resize :
  exists b, run (sixLines ++ [OpScrollUp 2; OpResizeView 5 20]) (fresh 5 3 100) = Ok b /\
    scrolledRawLine b 0 = 18446744073709551614 /\
    GetRawCell 0 (scrolledRawLine b 0) b = Panic.
Proof. eexists. split; [vm_compute; reflexivity | split; vm_compute; reflexivity]. Qed.

(** C7: the code at the failing input.  On a fresh 80x24 buffer (no lines)
    the raw row 2^63 is beyond the line count, and [GetRawCell] faults where
    the claim promises an absent cell. *)
Theorem GetRawCell_faults_on_row_2_63 :
  Height (fresh 80 24 100) <= 9223372036854775808 /\
  GetRawCell 0 9223372036854775808 (fresh 80 24 100) = Panic.
Proof. split; [vm_compute; discriminate | vm_compute; reflexivity]. Qed.

(** ** The dirty flag (C5) *)

(** [IsDirty] returns the flag and clears it. *)
Lemma IsDirty_test_and_clear (b : Buffer) :
  fst (IsDirty b) = dirty b /\ dirty (snd (IsDirty b)) = false /\
  fst (IsDirty (snd (IsDirty b))) = false.
Proof. unfold IsDirty. destruct (dirty b) eqn:E; simpl; rewrite ?E; auto. Qed.

(** C5: the code at the failing input.  On a fresh 5x3 buffer a first
    [IsDirty] returns true and clears the flag; [Write] of one letter then
    changes the first line, and the next [IsDirty] returns false. *)
Theorem Write_leaves_dirty_flag_clear :
  exists b1 b2,
    IsDirty (fresh 5 3 100) = (true, b1) /\
    Write [97] b1 = Ok b2 /\
    map lineRunes (lines b1) = [] /\ map lineRunes (lines b2) = [[97]] /\
    fst (IsDirty b2) = false.
Proof.
  do 2 eexists. split; [vm_compute; reflexivity |].
  split; [vm_compute; reflexivity |]. repeat split.
Qed.

(** ** The cap on the number of lines (C2) *)

(** C2: the code at the failing input.  A 6x2 buffer with [maxLines = 2]
    holds two full lines, within the cap; [ResizeView 3 2] splits both and
    leaves four lines, two more than max(maxLines, viewHeight). *)
Theorem ResizeView_exceeds_line_cap :
  exists b b',
    run [OpWrite [97; 98; 99; 100; 101; 102]; OpNewLine;
         OpWrite [103; 104; 105; 106; 107; 108]] (fresh 6 2 2) = Ok b /\
    within_cap b /\
    ResizeView 3 2 b = Ok b' /\
    Height b' = 4 /\ Z.max (maxLines b') (viewHeight b') = 2 /\
    ~ within_cap b'.
Proof.
  do 2 eexists. split; [vm_compute; reflexivity |].
  split; [vm_compute; discriminate |].
  split; [vm_compute; reflexivity |].
  split; [reflexivity | split; [reflexivity |]].
  vm_compute. intros H. apply H. reflexivity.
Qed.

(** ** Automatic wrapping (C1) *)

(** C1: the code at the failing input.  A fresh 5x3 buffer has [autoWrap] on
    and [replaceMode] off; writing the six letters "abcdef" gives the lines
    "abcde" and "f", and the [wrapped] flag of the second line is false. *)
Theorem Write_autowrap_leaves_wrapped_false :
  exists b,
    autoWrap (fresh 5 3 100) = true /\ replaceMode (fresh 5 3 100) = false /\
    Write [97; 98; 99; 100; 101; 102] (fresh 5 3 100) = Ok b /\
    map lineRunes (lines b) = [[97; 98; 99; 100; 101]; [102]] /\
    map wrapped (lines b) = [false; false].
Proof.
  eexists. split; [reflexivity | split; [reflexivity |]].
  split; [vm_compute; reflexivity | split; reflexivity].
Qed.

(** ** Frame of writing and indexing *)

Tactic Notation "bind_inv" hyp(H) "as" simple_intropattern(a) ident(Ha) :=
  apply bind_Ok in H; destruct H as (a & Ha & H).

Lemma same_frame_refl (b : Buffer) : same_frame b b.
Proof. unfold same_frame. repeat split. Qed.

Lemma same_frame_trans (b1 b2 b3 : Buffer) :
  same_frame b1 b2 -> same_frame b2 b3 -> same_frame b1 b3.
Proof. unfold same_frame. intros H1 H2. intuition congruence. Qed.

Lemma getViewLine_lines (i : Z) (b b1 : Buffer) (li : nat) :
  getViewLine i b = Ok (b1, li) -> exists ls, b1 = set_lines ls b.
Proof.
  unfold getViewLine. intros H.
  destruct (i >=? ViewHeight b).
  - destruct (length (lines b)); [discriminate |].
    injection H as <- _. exists (lines b). destruct b; reflexivity.
  - destruct (Height b <? ViewHeight b).
    + injection H as <- _. eauto.
    + destruct (int (convertViewLineToRawLine b i) <? Height b); [| discriminate].
      injection H as <- _. exists (lines b). destruct b; reflexivity.
Qed.

Lemma getViewLine_frame (i : Z) (b b1 : Buffer) (li : nat) :
  getViewLine i b = Ok (b1, li) ->
  same_frame b b1 /\ cursorX b1 = cursorX b /\ cursorY b1 = cursorY b.
Proof.
  intros H. apply getViewLine_lines in H as [ls ->].
  unfold same_frame. simpl. repeat split.
Qed.

Lemma Index_frame (b b' : Buffer) : Index b = Ok b' -> same_frame b b'.
Proof.
  unfold Index. intros H.
  destruct (InScrollableRegion b).
  - destruct (cursorY b <? bottomMargin b).
    + injection H as <-. unfold same_frame. simpl. repeat split.
    + bind_inv H as ls Hs. bind_inv H as ls' Hs'.
      injection H as <-. unfold same_frame. simpl. repeat split.
  - destruct (cursorY b >=? u16 (ViewHeight b - 1));
      injection H as <-; unfold same_frame; simpl; repeat split.
Qed.

Lemma newLineLoop_frame (fuel : nat) (b b' : Buffer) :
  newLineLoop fuel b = Ok b' -> same_frame b b'.
Proof.
  revert b. induction fuel as [|fuel IH]; intros b H; [discriminate |].
  simpl in H. bind_inv H as [b1 li] Hg.
  apply getViewLine_frame in Hg as (Hf & _).
  bind_inv H as line Hl. destruct (negb (wrapped line)).
  - injection H as <-. exact Hf.
  - bind_inv H as b2 Hi. apply Index_frame in Hi. apply IH in H.
    eauto using same_frame_trans.
Qed.

Lemma NewLineEx_frame (force : bool) (b b' : Buffer) :
  NewLineEx force b = Ok b' -> same_frame b b'.
Proof.
  unfold NewLineEx. intros H. bind_inv H as b2 Hi.
  apply Index_frame in Hi. apply newLineLoop_frame in H.
  eapply same_frame_trans; [| eapply same_frame_trans; [exact Hi | exact H]].
  destruct (IsNewLineMode b || force); unfold same_frame; simpl; repeat split.
Qed.

Lemma updLine_frame (li : nat) (f : Line -> Line) (b : Buffer) :
  same_frame b (updLine li f b).
Proof. unfold same_frame. simpl. repeat split. Qed.

Lemma incrementCursorPosition_frame (b : Buffer) :
  same_frame b (incrementCursorPosition b).
Proof.
  unfold incrementCursorPosition.
  destruct (CursorColumn b <? Width b); unfold same_frame; simpl; repeat split.
Qed.

Lemma writeRunes_frame (runes : list Z) (b b' : Buffer) :
  writeRunes runes b = Ok b' -> same_frame b b'.
Proof.
  revert b. induction runes as [|x rest IH]; intros b H.
  - injection H as <-. apply same_frame_refl.
  - simpl in H. bind_inv H as [b1 li] Hg.
    apply getViewLine_frame in Hg as (Hf & _).
    destruct (replaceMode b1).
    + destruct (CursorColumn b1 >=? Width b1).
      * injection H as <-. exact Hf.
      * apply IH in H.
        eauto using same_frame_trans, updLine_frame, incrementCursorPosition_frame.
    + destruct (CursorColumn b1 >=? Width b1).
      * destruct (autoWrap b1).
        -- bind_inv H as b2 Hn. bind_inv H as [b3 ni] Hg3.
           apply NewLineEx_frame in Hn. apply getViewLine_frame in Hg3 as (Hf3 & _).
           apply IH in H.
           eauto 8 using same_frame_trans, updLine_frame, incrementCursorPosition_frame.
        -- injection H as <-. exact Hf.
      * apply IH in H.
        eauto using same_frame_trans, updLine_frame, incrementCursorPosition_frame.
Qed.

Lemma Write_frame (runes : list Z) (b b' : Buffer) :
  Write runes b = Ok b' -> same_frame b b'.
Proof.
  unfold Write. intros H. apply writeRunes_frame in H.
  eapply same_frame_trans; [| exact H]. unfold same_frame. simpl. repeat split.
Qed.

Lemma times_frame (n : nat) (f : Buffer -> outcome Buffer) (b b' : Buffer) :
  (forall a a', f a = Ok a' -> same_frame a a') ->
  times n f b = Ok b' -> same_frame b b'.
Proof.
  intros Hf. revert b. induction n as [|n IH]; intros b H.
  - injection H as <-. apply same_frame_refl.
  - simpl in H. bind_inv H as a Ha. eauto using same_frame_trans.
Qed.

(** ** Erase from cursor and the saved cursor (C9) *)

(** C9: [EraseLineFromCursor] saves the cursor before its loop of null
    writes and restores it afterwards, so it overwrites the saved-cursor
    slot: when it returns, the slot holds the position the cursor had when
    it began, whatever an earlier [SaveCursor] stored, the cursor is back at
    that position, and a following [RestoreCursor] puts it there again. *)
Theorem EraseLineFromCursor_overwrites_saved_cursor (b b' : Buffer) :
  EraseLineFromCursor b = Ok b' ->
  savedX b' = cursorX b /\ savedY b' = cursorY b /\
  cursorX b' = cursorX b /\ cursorY b' = cursorY b /\
  cursorX (RestoreCursor b') = cursorX b /\ cursorY (RestoreCursor b') = cursorY b.
Proof.
  unfold EraseLineFromCursor. intros H.
  bind_inv H as [b1 li] Hg.
  apply getViewLine_frame in Hg as (_ & Hx & Hy).
  bind_inv H as line Hl. bind_inv H as b3 Hw. injection H as <-.
  apply times_frame in Hw; [| intros; eapply Write_frame; eassumption].
  destruct Hw as (_ & _ & _ & Hsx & Hsy & _).
  simpl in *. rewrite Hsx, Hsy, Hx, Hy. repeat split.
Qed.

Lemma EraseLineFromCursor_overwrites_saved_cursor_witness :
  let b := state_of (run [OpWrite [104; 101; 108; 108; 111]; OpSaveCursor; OpSetPosition 2 0]
                       (fresh 10 3 100)) (fresh 10 3 100) in
  let b' := state_of (EraseLineFromCursor b) b in
  (savedX b = 5 /\ savedY b = 0 /\ cursorX b = 2 /\ cursorY b = 0) /\
  savedX b' = 2 /\ savedY b' = 0 /\
  cursorX (RestoreCursor b') = 2 /\ cursorY (RestoreCursor b') = 0.
Proof.
  intros b b'.
  assert (H : EraseLineFromCursor b = Ok b') by (vm_compute; reflexivity).
  destruct (EraseLineFromCursor_overwrites_saved_cursor b b' H)
    as (Hsx & Hsy & _ & _ & Hx & Hy).
  split; [repeat split |].
  rewrite Hsx, Hsy, Hx, Hy. repeat split.
Defined.

(** ** Index at the bottom margin (C4) *)

Ltac zlia := unfold u16, u64, is_u16, is_u64 in *; Z.to_euclidean_division_equations; lia.

Lemma convertViewLineToRawLine_offset (b : Buffer) (row : Z) :
  len_ok b -> is_u16 (viewHeight b) -> 0 <= row < 4611686018427387904 ->
  convertViewLineToRawLine b row = row + viewOffset b.
Proof.
  unfold convertViewLineToRawLine, viewOffset, len_ok, is_u16. intros Hl Hv Hr.
  assert (0 <= Height b) by (unfold Height; lia).
  destruct (viewHeight b >? Height b) eqn:E; [lia |].
  apply u64_small. lia.
Qed.

(** The loop of [Index] moves each line of the range one place up the list
    and leaves the others alone. *)
Lemma shiftLinesUp_lookup (n i : nat) (ls : list Line) :
  (i + n < length ls)%nat ->
  exists ls', shiftLinesUp n i ls = Ok ls' /\
    length ls' = length ls /\
    (forall j, (i <= j < i + n)%nat -> ls' !! j = ls !! S j) /\
    (forall j, (j < i \/ i + n <= j)%nat -> ls' !! j = ls !! j).
Proof.
  revert i ls. induction n as [|n IH]; intros i ls Hlen.
  - exists ls. simpl. split; [reflexivity | split; [reflexivity | split]].
    + intros j Hj. lia.
    + reflexivity.
  - simpl. destruct (ls !! S i) as [next|] eqn:En.
    2:{ apply lookup_ge_None in En. lia. }
    destruct (IH (S i) (<[i := next]> ls)) as (ls' & Hs & Hl & Hin & Hout).
    { rewrite length_insert. lia. }
    exists ls'. split; [exact Hs |]. rewrite length_insert in Hl.
    split; [exact Hl |]. split.
    + intros j Hj. destruct (decide (j = i)) as [-> | Hne].
      * rewrite Hout by lia. rewrite list_lookup_insert_eq by lia. symmetry. exact En.
      * rewrite Hin by lia. apply list_lookup_insert_ne. lia.
    + intros j Hj. rewrite Hout by lia. apply list_lookup_insert_ne. lia.
Qed.

Lemma storeLine_lookup (i : Z) (v : Line) (ls : list Line) :
  0 <= i < Z.of_nat (length ls) ->
  exists ls', storeLine i v ls = Ok ls' /\
    length ls' = length ls /\
    ls' !! Z.to_nat i = Some v /\
    (forall j, j <> Z.to_nat i -> ls' !! j = ls !! j).
Proof.
  intros Hi. unfold storeLine.
  destruct (0 <=? i) eqn:E1; [| lia]. destruct (i <? Z.of_nat (length ls)) eqn:E2; [| lia].
  simpl. eexists. split; [reflexivity |]. split; [apply length_insert |]. split.
  - apply list_lookup_insert_eq. lia.
  - intros j Hj. apply list_lookup_insert_ne. lia.
Qed.

(** C4, as stated, fails: in scenario 2 of the specification the rows are
    "A", "B", "C", "D", "E", the margins (1,3) and the cursor is on row 3;
    after [Index], row 2 holds "D", the prior content of row 3, and not "B",
    the prior content of row 1. *)
Lemma Index_rows_not_shifted_down :
  exists b b',
    run regionOps (fresh 4 5 100) = Ok b /\
    InScrollableRegion b = true /\ cursorY b = bottomMargin b /\
    Index b = Ok b' /\
    ~ (forall row, topMargin b + 1 <= row <= bottomMargin b ->
         viewLine b' row = viewLine b (row - 1)).
Proof.
  do 2 eexists. split; [vm_compute; reflexivity |].
  split; [reflexivity | split; [reflexivity |]].
  split; [vm_compute; reflexivity |].
  intros H. specialize (H 2 ltac:(vm_compute; split; discriminate)).
  vm_compute in H. discriminate H.
Qed.

Lemma convertViewLineToRawLine_ext (b b' : Buffer) (row : Z) :
  length (lines b') = length (lines b) -> viewHeight b' = viewHeight b ->
  convertViewLineToRawLine b' row = convertViewLineToRawLine b row.
Proof.
  intros Hl Hv. unfold convertViewLineToRawLine, Height. rewrite Hl, Hv. reflexivity.
Qed.

(** C4, amended: when [Index] is issued while the cursor is inside an active
    scroll region and on the bottom margin, and the grid store holds the
    bottom-margin row, the call returns; afterwards the content at view rows
    [top, bottom-1] equals the prior content at rows [top+1, bottom] (the
    region scrolls up), the new bottom-margin row is blank, the rows outside
    the region are unchanged, and the cursor has not moved. *)
Theorem Index_at_bottom_margin_scrolls_region_up (b : Buffer) :
  typed b -> len_ok b ->
  InScrollableRegion b = true ->
  cursorY b = bottomMargin b ->
  convertViewLineToRawLine b (bottomMargin b) < Height b ->
  exists b', Index b = Ok b' /\
    (forall row, topMargin b <= row < bottomMargin b ->
       viewLine b' row = viewLine b (row + 1)) /\
    viewLine b' (bottomMargin b) = Some newLine /\
    (forall row, 0 <= row < topMargin b \/ bottomMargin b < row < 65536 ->
       viewLine b' row = viewLine b row) /\
    cursorX b' = cursorX b /\ cursorY b' = cursorY b.
Proof.
  intros Ht Hl Hr Hc Hb.
  destruct Ht as (_ & Hcy & Hvh & _ & _ & _ & _ & Htop & Hbot & _).
  unfold InScrollableRegion in Hr.
  apply andb_true_iff in Hr as [Hr Hle]. apply andb_true_iff in Hr as [Hhas Hge].
  unfold is_u16, is_u64 in *.
  assert (Htb : 0 <= topMargin b <= bottomMargin b /\ bottomMargin b < 65536) by lia.
  assert (0 <= viewOffset b).
  { unfold viewOffset. destruct (viewHeight b >? Height b) eqn:E; lia. }
  rewrite convertViewLineToRawLine_offset in Hb by (unfold is_u16; auto; lia).
  unfold Index, InScrollableRegion. rewrite Hhas, Hge, Hle. simpl.
  destruct (cursorY b <? bottomMargin b) eqn:E; [lia |].
  rewrite !u16_small by lia.
  rewrite !convertViewLineToRawLine_offset by (unfold is_u16; auto; lia).
  destruct (shiftLinesUp_lookup
              (Z.to_nat (bottomMargin b + viewOffset b - (topMargin b + viewOffset b)))
              (Z.to_nat (topMargin b + viewOffset b)) (lines b))
    as (ls & -> & Hlen & Hin & Hout).
  { unfold Height in Hb. lia. }
  destruct (storeLine_lookup (bottomMargin b + viewOffset b) newLine ls)
    as (ls' & Hst & Hlen' & Hat & Hother).
  { unfold Height in Hb. lia. }
  cbn [bind]. rewrite Hst. cbn [bind]. eexists. split; [reflexivity |].
  assert (Hconv : forall row,
             convertViewLineToRawLine (emitDisplayChange (set_lines ls' b)) row
             = convertViewLineToRawLine b row).
  { intros row. apply convertViewLineToRawLine_ext; simpl; congruence. }
  unfold viewLine. split; [| split; [| split; [| split; reflexivity]]].
  - intros row Hrow. rewrite Hconv.
    rewrite !convertViewLineToRawLine_offset by (unfold is_u16; auto; lia).
    simpl. rewrite Hother by lia. rewrite Hin by lia. f_equal. lia.
  - rewrite Hconv.
    rewrite !convertViewLineToRawLine_offset by (unfold is_u16; auto; lia).
    simpl. exact Hat.
  - intros row Hrow. rewrite Hconv.
    rewrite !convertViewLineToRawLine_offset by (unfold is_u16; auto; lia).
    simpl. rewrite Hother by lia. apply Hout. lia.
Qed.

Lemma Index_at_bottom_margin_scrolls_region_up_witness :
  let b := state_of (run regionOps (fresh 4 5 100)) (fresh 4 5 100) in
  exists b', Index b = Ok b' /\
    map (fun row => option_map lineRunes (viewLine b row)) [0; 1; 2; 3; 4]
      = [Some [65]; Some [66]; Some [67]; Some [68]; Some [69]] /\
    viewLine b' 1 = viewLine b 2 /\ viewLine b' 2 = viewLine b 3 /\
    viewLine b' 3 = Some newLine /\
    viewLine b' 0 = viewLine b 0 /\ viewLine b' 4 = viewLine b 4 /\
    cursorY b' = 3.
Proof.
  intros b.
  assert (Ht : typed b).
  { unfold typed, is_u16, is_u64. vm_compute. repeat split; discriminate. }
  assert (Hl : len_ok b) by (vm_compute; reflexivity).
  assert (Hr : InScrollableRegion b = true) by reflexivity.
  assert (Hc : cursorY b = bottomMargin b) by reflexivity.
  assert (Hb : convertViewLineToRawLine b (bottomMargin b) < Height b)
    by (vm_compute; reflexivity).
  assert (Hrows : map (fun row => option_map lineRunes (viewLine b row)) [0; 1; 2; 3; 4]
                  = [Some [65]; Some [66]; Some [67]; Some [68]; Some [69]])
    by (vm_compute; reflexivity).
  assert (Htop : topMargin b = 1) by reflexivity.
  assert (Hbot : bottomMargin b = 3) by reflexivity.
  clearbody b.
  destruct (Index_at_bottom_margin_scrolls_region_up b Ht Hl Hr Hc Hb)
    as (b' & Hi & Hin & Hbottom & Hout & _ & Hy).
  exists b'. split; [exact Hi |]. split; [exact Hrows |].
  rewrite Htop, Hbot in *.
  split; [apply (Hin 1); lia |].
  split; [apply (Hin 2); lia |].
  split; [exact Hbottom |].
  split; [apply Hout; lia |].
  split; [apply Hout; lia |].
  rewrite Hy. exact Hc.
Defined.

(** ** Writing inside a line *)

Lemma Height_nonneg (b : Buffer) : 0 <= Height b.
Proof. unfold Height. lia. Qed.

(** [GetCell] reads the cell at a view position. *)
Lemma GetCell_viewCell (col row : Z) (b : Buffer) :
  len_ok b -> is_u16 (viewHeight b) -> is_u16 row -> 0 <= col ->
  GetCell col row b = Ok (viewCell b col row).
Proof.
  intros Hl Hv Hr Hc. unfold GetCell, GetRawCell, viewCell, viewLine.
  pose proof (Height_nonneg b) as Hh.
  rewrite convertViewLineToRawLine_offset by (unfold is_u16 in *; auto; lia).
  assert (0 <= viewOffset b <= Height b).
  { unfold viewOffset. destruct (viewHeight b >? Height b) eqn:E; unfold is_u16 in *; lia. }
  unfold len_ok, is_u16 in *.
  rewrite int_small by lia.
  destruct (row + viewOffset b >=? Height b) eqn:E.
  - rewrite (proj2 (lookup_ge_None _ _)); [reflexivity | unfold Height in *; lia].
  - destruct (row + viewOffset b <? Height b) eqn:E'; [| lia].
    destruct (lines b !! Z.to_nat (row + viewOffset b)) as [line|] eqn:El.
    + destruct (col >=? Z.of_nat (length (cells line))) eqn:E''; [| reflexivity].
      rewrite (proj2 (lookup_ge_None _ _)); [reflexivity | lia].
    + apply lookup_ge_None in El. unfold Height in *. lia.
Qed.

(** For a row of the view, [getViewLine] returns: the line exists afterwards,
    it is the line shown at that row, and it is a fresh line when the grid
    store did not hold the row. *)
Lemma getViewLine_in_view (row : Z) (b : Buffer) :
  len_ok b -> is_u16 (viewHeight b) -> 0 <= row < viewHeight b ->
  exists ls li,
    getViewLine row b = Ok (set_lines ls b, li) /\
    li = Z.to_nat (convertViewLineToRawLine (set_lines ls b) row) /\
    ls !! li = Some (default newLine (viewLine b row)) /\
    Z.of_nat (length ls) < 4611686018427387904.
Proof.
  intros Hl Hv Hr. unfold getViewLine, ViewHeight, len_ok, is_u16 in *.
  pose proof (Height_nonneg b) as Hh.
  destruct (row >=? viewHeight b) eqn:E; [lia |].
  destruct (Height b <? viewHeight b) eqn:E1.
  - eexists _, _. split; [reflexivity |].
    assert (Hconv : forall ls, Z.of_nat (length ls) <= viewHeight b ->
               convertViewLineToRawLine (set_lines ls b) row = row).
    { intros ls Hls. unfold convertViewLineToRawLine, Height. simpl.
      destruct (viewHeight b >? Z.of_nat (length ls)) eqn:E2; [reflexivity |].
      rewrite u64_small; lia. }
    unfold Height in *.
    assert (Hlen : length (lines b ++ replicate (Z.to_nat (row + 1) - length (lines b)) newLine)
                   = Nat.max (length (lines b)) (Z.to_nat (row + 1))).
    { rewrite length_app, length_replicate. lia. }
    rewrite Hconv by lia. split; [reflexivity |]. split; [| lia].
    unfold viewLine, convertViewLineToRawLine, Height.
    destruct (viewHeight b >? Z.of_nat (length (lines b))) eqn:E2; [| lia].
    destruct (lines b !! Z.to_nat row) as [l|] eqn:El.
    + rewrite lookup_app_l by (apply lookup_lt_Some in El; exact El). exact El.
    + apply lookup_ge_None in El. rewrite lookup_app_r by exact El. simpl.
      apply lookup_replicate_2. lia.
  - exists (lines b), (Z.to_nat (convertViewLineToRawLine b row)).
    assert (Hid : set_lines (lines b) b = b) by (destruct b; reflexivity).
    rewrite Hid.
    assert (Hc : convertViewLineToRawLine b row = row + (Height b - viewHeight b)).
    { unfold convertViewLineToRawLine.
      destruct (viewHeight b >? Height b) eqn:E2; [lia |]. apply u64_small. lia. }
    rewrite Hc, int_small by lia.
    destruct (row + (Height b - viewHeight b) <? Height b) eqn:E3; [| lia].
    split; [reflexivity |]. split; [reflexivity |]. split; [| exact Hl].
    unfold viewLine. rewrite Hc.
    destruct (lines b !! Z.to_nat (row + (Height b - viewHeight b))) as [l|] eqn:El;
      [reflexivity |].
    apply lookup_ge_None in El. unfold Height in *. lia.
Qed.

(** The cells of a line after [putCell]. *)
Lemma putCell_lookup (col : nat) (x : Z) (a : CellAttributes) (def : Cell) (line : Line) :
  cells (putCell col x a def line) !! col = Some {| r := x; attr := a |} /\
  (forall j c, j <> col -> cells line !! j = Some c ->
     cells (putCell col x a def line) !! j = Some c) /\
  wrapped (putCell col x a def line) = wrapped line.
Proof.
  unfold putCell, padCells. simpl. split; [| split; [| reflexivity]].
  - rewrite list_lookup_alter_eq.
    destruct (decide (col < length (cells line))%nat) as [Hlt | Hge].
    + rewrite lookup_app_l by exact Hlt.
      destruct (cells line !! col) as [c|] eqn:Ec; [reflexivity |].
      apply lookup_ge_None in Ec. lia.
    + rewrite lookup_app_r by lia.
      rewrite lookup_replicate_2 by lia. reflexivity.
  - intros j c Hj Hc. rewrite list_lookup_alter_ne by auto.
    rewrite lookup_app_l by (apply lookup_lt_Some in Hc; exact Hc). exact Hc.
Qed.

(** One rune written before the right edge: the call returns, the rune and
    the cursor attributes are in the cell under the cursor, the cells the
    line already had are kept, and the cursor moves one column right. *)
Lemma Write_one_in_line (x : Z) (b : Buffer) :
  typed b -> len_ok b ->
  cursorY b < viewHeight b -> cursorX b < viewWidth b ->
  exists b', Write [x] b = Ok b' /\
    same_frame b b' /\
    cursorX b' = cursorX b + 1 /\ cursorY b' = cursorY b /\
    typed b' /\ len_ok b' /\
    viewCell b' (cursorX b) (cursorY b) = Some (written x b) /\
    (forall c cell, 0 <= c -> c <> cursorX b ->
       viewCell b c (cursorY b) = Some cell -> viewCell b' c (cursorY b) = Some cell).
Proof.
  intros Ht Hl Hy Hx.
  destruct Ht as (Hcx & Hcy & Hvh & Hvw & Hsx & Hsy & Hsc & Htop & Hbot & Hmax).
  unfold Write. set (b0 := set_scrollLinesFromBottom 0 b).
  destruct (getViewLine_in_view (cursorY b0) b0) as (ls & li & Hg & Hli & Hlook & Hlen).
  { exact Hl. } { exact Hvh. } { unfold is_u16 in *. simpl. lia. }
  simpl writeRunes. unfold getCurrentLine. rewrite Hg. cbn [bind].
  set (b1 := set_lines ls b0) in *.
  set (f := putCell (Z.to_nat (CursorColumn b1)) x (cursorAttr b1) (defaultCell b1)).
  assert (Hsame : (if replaceMode b1
                   then if CursorColumn b1 >=? Width b1 then Ok b1
                        else writeRunes [] (incrementCursorPosition (updLine li f b1))
                   else if CursorColumn b1 >=? Width b1
                        then if autoWrap b1
                             then b2 <- NewLineEx true b1 ;;
                                  q <- getCurrentLine b2 ;;
                                  (let '(b3, ni) := q in
                                   writeRunes [] (incrementCursorPosition
                                     (updLine ni (putCell 0 x (cursorAttr b3) (defaultCell b3)) b3)))
                             else Ok b1
                        else writeRunes [] (incrementCursorPosition (updLine li f b1)))
                  = Ok (set_cursorX (cursorX b + 1) (updLine li f b1))).
  { assert (Hge : (CursorColumn b1 >=? Width b1) = false).
    { unfold CursorColumn, Width. simpl. lia. }
    rewrite Hge. simpl writeRunes.
    assert (Hinc : incrementCursorPosition (updLine li f b1)
                   = set_cursorX (cursorX b + 1) (updLine li f b1)).
    { unfold incrementCursorPosition, CursorColumn, Width. simpl.
      destruct (cursorX b <? viewWidth b) eqn:E; [| lia].
      rewrite u16_small by (unfold is_u16 in *; lia). reflexivity. }
    rewrite Hinc. destruct (replaceMode b1); reflexivity. }
  eexists. split; [exact Hsame |].
  split; [unfold same_frame; simpl; repeat split |].
  split; [reflexivity |]. split; [reflexivity |].
  split.
  { unfold typed, is_u16, is_u64 in *. simpl. repeat split; lia. }
  split.
  { unfold len_ok, Height. simpl. rewrite length_alter. exact Hlen. }
  assert (Hview : viewLine (set_cursorX (cursorX b + 1) (updLine li f b1)) (cursorY b)
                  = Some (f (default newLine (viewLine b (cursorY b))))).
  { unfold viewLine at 1.
    rewrite (convertViewLineToRawLine_ext b1) by (simpl; first [apply length_alter | reflexivity]).
    simpl lines. change (cursorY b0) with (cursorY b) in Hli. rewrite <- Hli.
    rewrite list_lookup_alter_eq. change (cursorY b0) with (cursorY b) in Hlook.
    rewrite Hlook. reflexivity. }
  unfold viewCell. rewrite Hview.
  destruct (putCell_lookup (Z.to_nat (cursorX b)) x (cursorAttr b) (defaultCell b)
              (default newLine (viewLine b (cursorY b)))) as (Hput & Hrest & _).
  split; [exact Hput |].
  intros c cell Hc Hne Hcell.
  destruct (viewLine b (cursorY b)) as [l|]; [| discriminate].
  apply Hrest; [unfold is_u16 in *; lia | exact Hcell].
Qed.

(** [n] spaces written with room for them on the line. *)
Lemma Write_spaces (n : nat) (b : Buffer) :
  typed b -> len_ok b ->
  cursorY b < viewHeight b -> cursorX b + Z.of_nat n <= viewWidth b ->
  exists b', times n (Write [32]) b = Ok b' /\
    same_frame b b' /\
    cursorX b' = cursorX b + Z.of_nat n /\ cursorY b' = cursorY b /\
    typed b' /\ len_ok b' /\
    (forall c, cursorX b <= c < cursorX b + Z.of_nat n ->
       viewCell b' c (cursorY b) = Some (written 32 b)) /\
    (forall c cell, 0 <= c < cursorX b ->
       viewCell b c (cursorY b) = Some cell -> viewCell b' c (cursorY b) = Some cell).
Proof.
  revert b. induction n as [|n IH]; intros b Ht Hl Hy Hx.
  - exists b. simpl. split; [reflexivity |]. split; [apply same_frame_refl |].
    split; [lia |]. split; [reflexivity |]. split; [exact Ht |]. split; [exact Hl |].
    split; [intros c Hc; lia | auto].
  - destruct (Write_one_in_line 32 b Ht Hl Hy) as (b1 & Hw & Hf & Hx1 & Hy1 & Ht1 & Hl1 & Hat & Hkeep).
    { lia. }
    assert (Hattr : cursorAttr b1 = cursorAttr b) by apply Hf.
    assert (Hvw : viewWidth b1 = viewWidth b) by apply Hf.
    assert (Hvh : viewHeight b1 = viewHeight b) by apply Hf.
    destruct (IH b1 Ht1 Hl1) as (b' & Hrun & Hf' & Hx' & Hy' & Ht' & Hl' & Hspaces & Hkeep').
    { lia. } { lia. }
    exists b'. simpl. rewrite Hw. cbn [bind]. split; [exact Hrun |].
    split; [eapply same_frame_trans; eassumption |].
    split; [lia |]. split; [congruence |]. split; [exact Ht' |]. split; [exact Hl' |].
    assert (Hcx : 0 <= cursorX b) by (destruct Ht as (Hcx & _); unfold is_u16 in Hcx; lia).
    rewrite Hy1 in *. split.
    + intros c Hc. destruct (decide (c = cursorX b)) as [-> | Hne].
      * apply Hkeep'; [lia | exact Hat].
      * rewrite Hspaces by lia. unfold written. rewrite Hattr. reflexivity.
    + intros c cell Hc Hcell. apply Hkeep'; [lia |]. apply Hkeep; [lia | lia | exact Hcell].
Qed.

(** ** Horizontal tab (C6) *)

(** C6, as stated, fails: on a fresh 80x24 buffer the cursor is at column 0
    and [Tab] moves it to column 3; the next multiple of 4, clamped at column
    79, is column 4. *)
Lemma Tab_from_column_0_stops_at_column_3 :
  exists b', cursorX (fresh 80 24 100) = 0 /\
    Tab (fresh 80 24 100) = Ok b' /\ cursorX b' = 3 /\
    ~ (cursorX b' = Z.min (4 * (cursorX (fresh 80 24 100) / 4 + 1))
                          (viewWidth (fresh 80 24 100) - 1)).
Proof.
  eexists. split; [reflexivity |]. split; [vm_compute; reflexivity |].
  split; [reflexivity |]. vm_compute. discriminate.
Qed.

(** C6, amended: for every cursor column before the right edge (and a cursor
    row inside the view), the horizontal tab advances the cursor to the next
    column that is one short of a multiple of 4 (columns 3, 7, 11, ...),
    clamped at viewWidth-1, by writing space characters into the cells it
    passes; the cursor row does not change. *)
Theorem Tab_advances_to_tab_stop (b : Buffer) :
  typed b -> len_ok b ->
  cursorY b < viewHeight b -> cursorX b < viewWidth b ->
  exists b', Tab b = Ok b' /\
    cursorX b' = tabStop (cursorX b) (viewWidth b) /\
    cursorY b' = cursorY b /\
    (forall c, cursorX b <= c < tabStop (cursorX b) (viewWidth b) ->
       exists cell, GetCell c (cursorY b) b' = Ok (Some cell) /\ Rune cell = 32).
Proof.
  intros Ht Hl Hy Hx.
  assert (Hr : is_u16 (cursorX b) /\ is_u16 (cursorY b) /\ is_u16 (viewWidth b)).
  { destruct Ht as (? & ? & ? & ? & _). auto. }
  destruct Hr as (Hcx & Hcy & Hvw). unfold is_u16 in *.
  unfold Tab. destruct (cursorX b <? viewWidth b) eqn:E; [| lia].
  rewrite (u16_small (viewWidth b - cursorX b - 1)) by lia.
  rewrite (u16_small (cursorX b + 1)) by lia.
  set (shift := if 4 - (cursorX b + 1) mod 4 >? viewWidth b - cursorX b - 1
                then viewWidth b - cursorX b - 1 else 4 - (cursorX b + 1) mod 4).
  assert (Hshift : 0 <= shift /\ cursorX b + shift = tabStop (cursorX b) (viewWidth b)).
  { subst shift. unfold tabStop.
    destruct (4 - (cursorX b + 1) mod 4 >? viewWidth b - cursorX b - 1) eqn:E';
      Z.to_euclidean_division_equations; lia. }
  destruct Hshift as (Hs0 & Hstop).
  destruct (Write_spaces (Z.to_nat shift) b Ht Hl Hy)
    as (b' & Hrun & Hf & Hx' & Hy' & Ht' & Hl' & Hspaces & _).
  { unfold tabStop in Hstop. lia. }
  exists b'. split; [exact Hrun |].
  rewrite Z2Nat.id in * by exact Hs0. rewrite Hstop in *.
  split; [exact Hx' |]. split; [exact Hy' |].
  intros c Hc. exists (written 32 b).
  rewrite GetCell_viewCell; [| exact Hl' | apply Ht' | exact Hcy | lia].
  rewrite Hspaces by exact Hc. split; reflexivity.
Qed.

Lemma Tab_advances_to_tab_stop_witness :
  let b := state_of (run [OpWrite [97; 98; 99; 100; 101]] (fresh 10 3 100)) (fresh 10 3 100) in
  cursorX b = 5 /\
  exists b', Tab b = Ok b' /\ cursorX b' = 7 /\ cursorY b' = 0 /\
    (exists cell, GetCell 5 0 b' = Ok (Some cell) /\ Rune cell = 32) /\
    (exists cell, GetCell 6 0 b' = Ok (Some cell) /\ Rune cell = 32).
Proof.
  intros b.
  assert (Ht : typed b).
  { unfold typed, is_u16, is_u64. vm_compute. repeat split; discriminate. }
  assert (Hl : len_ok b) by (vm_compute; reflexivity).
  assert (Hy : cursorY b < viewHeight b) by (vm_compute; reflexivity).
  assert (Hx : cursorX b < viewWidth b) by (vm_compute; reflexivity).
  assert (Hcx : cursorX b = 5) by reflexivity.
  assert (Hcy : cursorY b = 0) by reflexivity.
  assert (Hvw : viewWidth b = 10) by reflexivity.
  clearbody b.
  destruct (Tab_advances_to_tab_stop b Ht Hl Hy Hx) as (b' & Htab & Hx' & Hy' & Hsp).
  rewrite Hcx, Hcy, Hvw in *.
  split; [reflexivity |].
  exists b'. split; [exact Htab |].
  split; [rewrite Hx'; reflexivity |]. split; [exact Hy' |].
  assert (Hstop : tabStop 5 10 = 7) by reflexivity. rewrite Hstop in Hsp.
  split; apply Hsp; lia.
Defined.

(** ** Cursor bounds (C3) *)

(** Arithmetic over the fields of an updated buffer.  The field updates are
    reduced under the projections only: unfolding nested updates on their own
    would copy the buffer term once per field and level. *)
Ltac fields_cbn :=
  cbn [viewWidth viewHeight cursorX cursorY savedX savedY topMargin bottomMargin
       originMode lines dirty scrollLinesFromBottom
       emitDisplayChange set_lines set_cursorX set_cursorY set_viewHeight set_viewWidth
       set_savedX set_savedY set_scrollLinesFromBottom set_topMargin set_bottomMargin
       set_replaceMode set_originMode set_lineFeedMode set_autoWrap set_dirty
       set_selectionEnd set_selectionComplete updLine SaveCursor RestoreCursor
       SetVerticalMargins ResetVerticalMargins CursorColumn Width ViewWidth ViewHeight]
    in *.

Ltac inv_arith :=
  unfold cursor_inv, cursor_in_bounds, is_u16, is_u64, is_i16 in *;
  fields_cbn;
  unfold u16, u64 in *; Z.to_euclidean_division_equations; lia.

Lemma cursor_inv_state (h : Z) (b b' : Buffer) :
  cursor_state b' = cursor_state b -> cursor_inv h b -> cursor_inv h b'.
Proof.
  unfold cursor_state. intros H. injection H as Hw Hh Hx Hy Hsx Hsy Ht Hb.
  unfold cursor_inv, cursor_in_bounds. rewrite Hw, Hh, Hx, Hy, Hsx, Hsy, Ht, Hb. auto.
Qed.

Lemma getViewLine_state (i : Z) (b b1 : Buffer) (li : nat) :
  getViewLine i b = Ok (b1, li) -> cursor_state b1 = cursor_state b.
Proof. intros H. apply getViewLine_lines in H as [ls ->]. reflexivity. Qed.

Lemma Index_inv (h : Z) (b b' : Buffer) :
  cursor_inv h b -> Index b = Ok b' -> cursor_inv h b'.
Proof.
  unfold Index, InScrollableRegion, HasScrollableRegion, ViewHeight. intros Hi H.
  destruct ((topMargin b >? 0) || (bottomMargin b <? u64 (viewHeight b - 1))) eqn:E0;
    cbn [andb] in H.
  - destruct (cursorY b >=? topMargin b) eqn:E1; cbn [andb] in H.
    + destruct (cursorY b <=? bottomMargin b) eqn:E2.
      * destruct (cursorY b <? bottomMargin b) eqn:E3.
        -- injection H as <-. inv_arith.
        -- bind_inv H as ls Hs. bind_inv H as ls' Hs'. injection H as <-. exact Hi.
      * destruct (cursorY b >=? u16 (viewHeight b - 1)) eqn:E3; injection H as <-;
          [exact Hi | inv_arith].
    + destruct (cursorY b >=? u16 (viewHeight b - 1)) eqn:E3; injection H as <-;
        [exact Hi | inv_arith].
  - destruct (cursorY b >=? u16 (viewHeight b - 1)) eqn:E3; injection H as <-;
      [exact Hi | inv_arith].
Qed.

Lemma ReverseIndex_inv (h : Z) (b b' : Buffer) :
  cursor_inv h b -> ReverseIndex b = Ok b' -> cursor_inv h b'.
Proof.
  unfold ReverseIndex, InScrollableRegion, HasScrollableRegion, ViewHeight. intros Hi H.
  destruct ((topMargin b >? 0) || (bottomMargin b <? u64 (viewHeight b - 1))) eqn:E0;
    cbn [andb] in H.
  - destruct (cursorY b >=? topMargin b) eqn:E1; cbn [andb] in H.
    + destruct (cursorY b <=? bottomMargin b) eqn:E2.
      * destruct (cursorY b >? topMargin b) eqn:E3.
        -- injection H as <-. inv_arith.
        -- bind_inv H as ls Hs. bind_inv H as ls' Hs'. injection H as <-. exact Hi.
      * destruct (cursorY b >? 0) eqn:E3; injection H as <-; [inv_arith | exact Hi].
    + destruct (cursorY b >? 0) eqn:E3; injection H as <-; [inv_arith | exact Hi].
  - destruct (cursorY b >? 0) eqn:E3; injection H as <-; [inv_arith | exact Hi].
Qed.

Lemma getViewLine_inv (h : Z) (i : Z) (b b1 : Buffer) (li : nat) :
  cursor_inv h b -> getViewLine i b = Ok (b1, li) -> cursor_inv h b1.
Proof. intros Hi H. apply getViewLine_state in H. eapply cursor_inv_state; eassumption. Qed.

Lemma newLineLoop_inv (h : Z) (fuel : nat) (b b' : Buffer) :
  cursor_inv h b -> newLineLoop fuel b = Ok b' -> cursor_inv h b'.
Proof.
  revert b. induction fuel as [|fuel IH]; intros b Hi H; [discriminate |].
  simpl in H. bind_inv H as [b1 li] Hg. apply (getViewLine_inv h) in Hg; [| exact Hi].
  bind_inv H as line Hl. destruct (negb (wrapped line)).
  - injection H as <-. exact Hg.
  - bind_inv H as b2 Hx. apply (Index_inv h) in Hx; [| exact Hg]. eauto.
Qed.

Lemma NewLineEx_inv (h : Z) (force : bool) (b b' : Buffer) :
  cursor_inv h b -> NewLineEx force b = Ok b' -> cursor_inv h b'.
Proof.
  unfold NewLineEx. intros Hi H. bind_inv H as b2 Hx.
  apply (Index_inv h) in Hx.
  - eapply newLineLoop_inv; eassumption.
  - destruct (IsNewLineMode b || force); [inv_arith | exact Hi].
Qed.

Lemma incrementCursorPosition_inv (h : Z) (b : Buffer) :
  cursor_inv h b -> cursor_inv h (incrementCursorPosition b).
Proof.
  unfold incrementCursorPosition, CursorColumn, Width. intros Hi.
  destruct (cursorX b <? viewWidth b) eqn:E; [inv_arith | exact Hi].
Qed.

Lemma updLine_inv (h : Z) (li : nat) (f : Line -> Line) (b : Buffer) :
  cursor_inv h b -> cursor_inv h (updLine li f b).
Proof. intros Hi. exact Hi. Qed.

Lemma writeRunes_inv (h : Z) (runes : list Z) (b b' : Buffer) :
  cursor_inv h b -> writeRunes runes b = Ok b' -> cursor_inv h b'.
Proof.
  revert b. induction runes as [|x rest IH]; intros b Hi H.
  - injection H as <-. exact Hi.
  - simpl in H. bind_inv H as [b1 li] Hg. apply (getViewLine_inv h) in Hg; [| exact Hi].
    destruct (replaceMode b1).
    + destruct (CursorColumn b1 >=? Width b1).
      * injection H as <-. exact Hg.
      * eapply IH; [| exact H]. apply incrementCursorPosition_inv, updLine_inv, Hg.
    + destruct (CursorColumn b1 >=? Width b1).
      * destruct (autoWrap b1).
        -- bind_inv H as b2 Hn. bind_inv H as [b3 ni] Hg3.
           apply (NewLineEx_inv h) in Hn; [| exact Hg].
           apply (getViewLine_inv h) in Hg3; [| exact Hn].
           eapply IH; [| exact H]. apply incrementCursorPosition_inv, updLine_inv, Hg3.
        -- injection H as <-. exact Hg.
      * eapply IH; [| exact H]. apply incrementCursorPosition_inv, updLine_inv, Hg.
Qed.

Lemma Write_inv (h : Z) (runes : list Z) (b b' : Buffer) :
  cursor_inv h b -> Write runes b = Ok b' -> cursor_inv h b'.
Proof. unfold Write. intros Hi H. eapply writeRunes_inv; [| exact H]. exact Hi. Qed.

Lemma times_inv (h : Z) (n : nat) (f : Buffer -> outcome Buffer) (b b' : Buffer) :
  (forall a a', cursor_inv h a -> f a = Ok a' -> cursor_inv h a') ->
  cursor_inv h b -> times n f b = Ok b' -> cursor_inv h b'.
Proof.
  intros Hf. revert b. induction n as [|n IH]; intros b Hi H.
  - injection H as <-. exact Hi.
  - simpl in H. bind_inv H as a Ha. eauto.
Qed.

Lemma SetPosition_inv (h : Z) (col line : Z) (b : Buffer) :
  0 <= col -> 0 <= line -> cursor_inv h b -> cursor_inv h (SetPosition col line b).
Proof.
  intros Hc Hl Hi. unfold SetPosition, ViewHeight, ViewWidth.
  destruct (originMode b);
    [destruct (u16 (line + u16 (topMargin b)) >? u16 (bottomMargin b)) eqn:E1
    | destruct (line >? u16 (viewHeight b - 1)) eqn:E1];
    destruct (col >=? viewWidth b) eqn:E2; inv_arith.
Qed.

Lemma MovePosition_inv (h : Z) (x y : Z) (b : Buffer) :
  cursor_inv h b -> cursor_inv h (MovePosition x y b).
Proof.
  intros Hi. unfold MovePosition. apply SetPosition_inv; [| | exact Hi].
  - destruct (i16 (i16 (CursorColumn b) + x) <? 0) eqn:E; [lia |]. apply u16_range.
  - destruct (i16 (i16 (CursorLine b) + y) <? 0) eqn:E; [lia |]. apply u16_range.
Qed.

Lemma Backspace_inv (h : Z) (b b' : Buffer) :
  cursor_inv h b -> Backspace b = Ok b' -> cursor_inv h b'.
Proof.
  unfold Backspace. intros Hi H. destruct (cursorX b =? 0).
  - bind_inv H as [b1 li] Hg. apply (getViewLine_inv h) in Hg; [| exact Hi].
    bind_inv H as line Hl. destruct (wrapped line); injection H as <-;
      [apply MovePosition_inv |]; exact Hg.
  - destruct (inDoWrap b); injection H as <-; apply MovePosition_inv; exact Hi.
Qed.

Lemma carriageReturnLoop_inv (h : Z) (fuel : nat) (b b' : Buffer) :
  cursor_inv h b -> carriageReturnLoop fuel b = Ok b' -> cursor_inv h b'.
Proof.
  revert b. induction fuel as [|fuel IH]; intros b Hi H; [discriminate |].
  simpl in H. bind_inv H as [b1 li] Hg. apply (getViewLine_inv h) in Hg; [| exact Hi].
  bind_inv H as line Hl. destruct (wrapped line); cbn [andb] in H.
  - destruct (cursorY b1 >? 0) eqn:E.
    + eapply IH; [| exact H]. inv_arith.
    + injection H as <-. exact Hg.
  - injection H as <-. exact Hg.
Qed.

Lemma CarriageReturn_inv (h : Z) (b b' : Buffer) :
  cursor_inv h b -> CarriageReturn b = Ok b' -> cursor_inv h b'.
Proof.
  unfold CarriageReturn. intros Hi H. bind_inv H as b1 Hc.
  apply (carriageReturnLoop_inv h) in Hc; [| exact Hi]. injection H as <-. inv_arith.
Qed.

Lemma Tab_inv (h : Z) (b b' : Buffer) : cursor_inv h b -> Tab b = Ok b' -> cursor_inv h b'.
Proof.
  unfold Tab. intros Hi H. eapply times_inv; [| exact Hi | exact H].
  intros a a'. apply Write_inv.
Qed.

Lemma SaveCursor_inv (h : Z) (b : Buffer) : cursor_inv h b -> cursor_inv h (SaveCursor b).
Proof. intros Hi. inv_arith. Qed.

Lemma RestoreCursor_inv (h : Z) (b : Buffer) :
  cursor_inv h b -> cursor_inv h (RestoreCursor b).
Proof. intros Hi. inv_arith. Qed.

Lemma EraseLine_inv (h : Z) (b b' : Buffer) :
  cursor_inv h b -> EraseLine b = Ok b' -> cursor_inv h b'.
Proof.
  unfold EraseLine. intros Hi H. bind_inv H as [b1 li] Hg.
  apply (getViewLine_inv h) in Hg; [| exact Hi]. injection H as <-. exact Hg.
Qed.

Lemma EraseLineToCursor_inv (h : Z) (b b' : Buffer) :
  cursor_inv h b -> EraseLineToCursor b = Ok b' -> cursor_inv h b'.
Proof.
  unfold EraseLineToCursor. intros Hi H. bind_inv H as [b1 li] Hg.
  apply (getViewLine_inv h) in Hg; [| exact Hi]. injection H as <-. exact Hg.
Qed.

Lemma EraseLineFromCursor_inv (h : Z) (b b' : Buffer) :
  cursor_inv h b -> EraseLineFromCursor b = Ok b' -> cursor_inv h b'.
Proof.
  unfold EraseLineFromCursor. intros Hi H. bind_inv H as [b1 li] Hg.
  apply (getViewLine_inv h) in Hg; [| exact Hi].
  bind_inv H as line Hl. bind_inv H as b3 Hw. injection H as <-.
  apply (times_inv h) in Hw.
  - inv_arith.
  - intros a a'. apply Write_inv.
  - apply SaveCursor_inv. exact Hg.
Qed.

Lemma EraseDisplay_inv (h : Z) (b b' : Buffer) :
  cursor_inv h b -> EraseDisplay b = Ok b' -> cursor_inv h b'.
Proof.
  unfold EraseDisplay. intros Hi H. bind_inv H as ls Hc. injection H as <-. exact Hi.
Qed.

Lemma DeleteChars_inv (h : Z) (n : Z) (b b' : Buffer) :
  cursor_inv h b -> DeleteChars n b = Ok b' -> cursor_inv h b'.
Proof.
  unfold DeleteChars. intros Hi H. bind_inv H as [b1 li] Hg.
  apply (getViewLine_inv h) in Hg; [| exact Hi]. bind_inv H as line Hl.
  destruct (cursorX b1 >=? Z.of_nat (length (cells line))).
  - injection H as <-. exact Hg.
  - match type of H with (if ?c then _ else _) = _ => destruct c end;
      [discriminate | injection H as <-; exact Hg].
Qed.

Lemma EraseCharacters_inv (h : Z) (n : Z) (b b' : Buffer) :
  cursor_inv h b -> EraseCharacters n b = Ok b' -> cursor_inv h b'.
Proof.
  unfold EraseCharacters. intros Hi H. bind_inv H as [b1 li] Hg.
  apply (getViewLine_inv h) in Hg; [| exact Hi]. bind_inv H as line Hl.
  injection H as <-. exact Hg.
Qed.

Lemma EraseDisplayFromCursor_inv (h : Z) (b b' : Buffer) :
  cursor_inv h b -> EraseDisplayFromCursor b = Ok b' -> cursor_inv h b'.
Proof.
  unfold EraseDisplayFromCursor. intros Hi H. bind_inv H as [b1 li] Hg.
  apply (getViewLine_inv h) in Hg; [| exact Hi]. bind_inv H as line Hl.
  bind_inv H as ls Hc. injection H as <-. exact Hg.
Qed.

Lemma EraseDisplayToCursor_inv (h : Z) (b b' : Buffer) :
  cursor_inv h b -> EraseDisplayToCursor b = Ok b' -> cursor_inv h b'.
Proof.
  unfold EraseDisplayToCursor. intros Hi H. bind_inv H as [b1 li] Hg.
  apply (getViewLine_inv h) in Hg; [| exact Hi].
  bind_inv H as ls Hc. injection H as <-. exact Hg.
Qed.

Lemma deleteLine_inv (h : Z) (b b' : Buffer) :
  cursor_inv h b -> deleteLine b = Ok b' -> cursor_inv h b'.
Proof.
  unfold deleteLine. intros Hi H.
  match type of H with (if ?c then _ else _) = _ => destruct c end;
    [injection H as <-; exact Hi | discriminate].
Qed.

Lemma insertLine_inv (h : Z) (b b' : Buffer) :
  cursor_inv h b -> insertLine b = Ok b' -> cursor_inv h b'.
Proof.
  unfold insertLine. intros Hi H.
  destruct (negb (InScrollableRegion b)).
  - cbv zeta in H.
    destruct (negb _) in H; [discriminate |].
    destruct (negb _) in H; [discriminate |].
    destruct (negb _) in H; [discriminate |].
    injection H as <-. exact Hi.
  - cbv zeta in H.
    destruct (negb _) in H; [discriminate |].
    destruct (negb _) in H; [discriminate |].
    bind_inv H as out Ho. bind_inv H as out' Ho'.
    injection H as <-. exact Hi.
Qed.

Lemma DeleteLines_inv (h : Z) (count : Z) (b b' : Buffer) :
  cursor_inv h b -> DeleteLines count b = Ok b' -> cursor_inv h b'.
Proof.
  unfold DeleteLines. intros Hi H.
  destruct (HasScrollableRegion b && negb (InScrollableRegion b)).
  - injection H as <-. exact Hi.
  - apply (times_inv h) in H; [exact H | apply deleteLine_inv | inv_arith].
Qed.

Lemma InsertLines_inv (h : Z) (count : Z) (b b' : Buffer) :
  cursor_inv h b -> InsertLines count b = Ok b' -> cursor_inv h b'.
Proof.
  unfold InsertLines. intros Hi H.
  destruct (HasScrollableRegion b && negb (InScrollableRegion b)).
  - injection H as <-. exact Hi.
  - apply (times_inv h) in H; [exact H | apply insertLine_inv | inv_arith].
Qed.

Lemma ScrollDown_inv (h : Z) (n : Z) (b : Buffer) :
  cursor_inv h b -> cursor_inv h (ScrollDown n b).
Proof.
  unfold ScrollDown. intros Hi. destruct (Height b <? ViewHeight b); exact Hi.
Qed.

Lemma ScrollUp_inv (h : Z) (n : Z) (b : Buffer) :
  cursor_inv h b -> cursor_inv h (ScrollUp n b).
Proof.
  unfold ScrollUp. intros Hi. destruct (Height b <? ViewHeight b); [exact Hi |].
  match goal with |- context [if ?c then _ else _] => destruct c end; exact Hi.
Qed.

Lemma EndSelection_inv (h : Z) (col viewRow : Z) (complete : bool) (b : Buffer) :
  cursor_inv h b -> cursor_inv h (EndSelection col viewRow complete b).
Proof.
  unfold EndSelection. intros Hi. destruct (selectionComplete b); [exact Hi |].
  cbn [selectionStart set_selectionComplete].
  destruct (selectionStart b); [| exact Hi].
  match goal with |- context [if ?c then _ else _] => destruct c end; exact Hi.
Qed.

Lemma IsDirty_inv (h : Z) (b : Buffer) : cursor_inv h b -> cursor_inv h (snd (IsDirty b)).
Proof. unfold IsDirty. intros Hi. destruct (negb (dirty b)); exact Hi. Qed.

(** Every calm operation keeps the invariant. *)
Lemma apply_inv (h : Z) (o : Op) (b b' : Buffer) :
  calm h o -> cursor_inv h b -> apply o b = Ok b' -> cursor_inv h b'.
Proof.
  intros [Ht Hc] Hi H. destruct o; cbn [apply typed_op] in *;
    try match type of H with Ok _ = Ok _ => injection H as <- end;
    first
      [ contradiction
      | exact (Write_inv h _ _ _ Hi H)
      | exact (Backspace_inv h _ _ Hi H)
      | exact (CarriageReturn_inv h _ _ Hi H)
      | exact (Tab_inv h _ _ Hi H)
      | exact (NewLineEx_inv h _ _ _ Hi H)
      | exact (Index_inv h _ _ Hi H)
      | exact (ReverseIndex_inv h _ _ Hi H)
      | exact (EraseLine_inv h _ _ Hi H)
      | exact (EraseLineToCursor_inv h _ _ Hi H)
      | exact (EraseLineFromCursor_inv h _ _ Hi H)
      | exact (EraseDisplay_inv h _ _ Hi H)
      | exact (EraseDisplayFromCursor_inv h _ _ Hi H)
      | exact (EraseDisplayToCursor_inv h _ _ Hi H)
      | exact (DeleteChars_inv h _ _ _ Hi H)
      | exact (EraseCharacters_inv h _ _ _ Hi H)
      | exact (InsertLines_inv h _ _ _ Hi H)
      | exact (DeleteLines_inv h _ _ _ Hi H)
      | apply MovePosition_inv; exact Hi
      | apply SaveCursor_inv; exact Hi
      | apply RestoreCursor_inv; exact Hi
      | apply ScrollUp_inv; exact Hi
      | apply ScrollDown_inv; exact Hi
      | apply EndSelection_inv; exact Hi
      | apply IsDirty_inv; exact Hi
      | apply SetPosition_inv; [unfold is_u16 in Ht; lia | unfold is_u16 in Ht; lia | exact Hi]
      | exact Hi
      | inv_arith ].
Qed.

(** [NewBuffer] always returns: the view is set by the first branch of
    [ResizeView]. *)
Lemma NewBuffer_eq (w h maxL : Z) (a : CellAttributes) :
  NewBuffer w h a maxL =
  Ok (emitDisplayChange (set_viewHeight h (set_viewWidth w
        (SetVerticalMargins 0 (u16 (h - 1)) (emptyBuffer a maxL))))).
Proof. reflexivity. Qed.

Lemma NewBuffer_inv (w h maxL : Z) (a : CellAttributes) (b0 : Buffer) :
  is_u16 w -> is_u16 h -> 1 <= w -> 1 <= h ->
  NewBuffer w h a maxL = Ok b0 -> cursor_inv h b0.
Proof.
  intros Hw Hh Hw1 Hh1 H. rewrite NewBuffer_eq in H. injection H as <-.
  unfold emptyBuffer. inv_arith.
Qed.

Lemma run_inv (h : Z) (ops : list Op) (b b' : Buffer) :
  Forall (calm h) ops -> cursor_inv h b -> run ops b = Ok b' -> cursor_inv h b'.
Proof.
  intros Hc. revert b. induction Hc as [|o ops Ho Hops IH]; intros b Hi H.
  - injection H as <-. exact Hi.
  - cbn [run] in H. bind_inv H as b1 Ha. eauto using apply_inv.
Qed.

(** After [ResizeView] on a buffer that has a view, the cursor row is a row
    of the new view. *)
Lemma ResizeView_cursor_row (w h : Z) (b b' : Buffer) :
  viewHeight b <> 0 -> is_u16 h -> 1 <= h ->
  ResizeView w h b = Ok b' ->
  viewHeight b' = h /\ 0 <= cursorY b' < h.
Proof.
  intros Hv Hh Hh1 H. unfold ResizeView in H.
  destruct (viewHeight b =? 0) eqn:E; [lia |].
  bind_inv H as [b1 li] Hg. bind_inv H as line Hl. bind_inv H as ls Hls.
  bind_inv H as [b4 li'] Hg4. bind_inv H as line' Hl'. injection H as <-.
  apply getViewLine_lines in Hg4 as [ls4 ->].
  cbn [ResetVerticalMargins SetVerticalMargins emitDisplayChange set_dirty set_bottomMargin
       set_topMargin set_cursorX set_lines set_cursorY set_viewHeight set_viewWidth
       viewHeight cursorY].
  split; [reflexivity |].
  match goal with |- context [if ?c then _ else _] => destruct c eqn:E1 end;
    unfold is_u16, u16 in *; Z.to_euclidean_division_equations; lia.
Qed.

(** C3, as stated, fails.  First: on a 5x3 buffer, after writing "abcde",
    moving the cursor to (0,0) and resizing to 3x3, the cursor column is
    65533 in a view of 3 columns.  Second, without any resize: with margins
    (0,20) set on a 10x8 buffer and origin mode on, [SetPosition 0 15] puts
    the cursor on row 15 of a view of 8 rows. *)
Lemma cursor_out_of_bounds_reachable :
  (exists b, run [OpWrite [97; 98; 99; 100; 101]; OpSetPosition 0 0; OpResizeView 3 3]
               (fresh 5 3 100) = Ok b /\
     cursorX b = 65533 /\ viewWidth b = 3 /\ ~ cursor_in_bounds b) /\
  (exists b, run [OpSetVerticalMargins 0 20; OpSetOriginMode true; OpSetPosition 0 15]
               (fresh 10 8 100) = Ok b /\
     cursorY b = 15 /\ viewHeight b = 8 /\ ~ cursor_in_bounds b).
Proof.
  split; eexists; (split; [vm_compute; reflexivity |]);
    (split; [reflexivity |]); (split; [reflexivity |]);
    unfold cursor_in_bounds; cbn [cursorX cursorY viewWidth viewHeight]; lia.
Qed.

(** C3, amended: for every state reached from a freshly constructed buffer
    of at least one column and one row by any sequence of operations other
    than [ResizeView], in which [SetVerticalMargins] is only given a bottom
    margin inside the view, 0 <= cursorRow < viewHeight and 0 <= cursorColumn
    <= viewWidth; and immediately after a [ResizeView] of such a state to any
    height >= 1 the cursor row is again a row of the view (the cursor column
    after a resize is not covered). *)
Theorem cursor_bounds_without_resize
  (w h maxL : Z) (a : CellAttributes) (ops : list Op) (b0 b : Buffer) :
  is_u16 w -> is_u16 h -> 1 <= w -> 1 <= h ->
  Forall (calm h) ops ->
  NewBuffer w h a maxL = Ok b0 ->
  run ops b0 = Ok b ->
  cursor_in_bounds b /\
  (forall w' h' b', is_u16 h' -> 1 <= h' -> ResizeView w' h' b = Ok b' ->
     0 <= cursorY b' < viewHeight b').
Proof.
  intros Hw Hh Hw1 Hh1 Hops Hnew Hrun.
  assert (Hi : cursor_inv h b).
  { eapply run_inv; [exact Hops | | exact Hrun].
    exact (NewBuffer_inv w h maxL a b0 Hw Hh Hw1 Hh1 Hnew). }
  split; [apply Hi |].
  intros w' h' b' Hh' Hh1' Hr.
  apply ResizeView_cursor_row in Hr as [-> Hy]; [exact Hy | | exact Hh' | exact Hh1'].
  destruct Hi as (Hvh & _). lia.
Qed.

Lemma cursor_bounds_without_resize_witness :
  let ops := [OpWrite [97; 98; 99; 100; 101; 102; 103]; OpSetVerticalMargins 1 2;
              OpSetOriginMode true; OpSetPosition 9 9; OpWrite [120]; OpTab; OpBackspace;
              OpNewLine;
              OpEraseLineFromCursor; OpRestoreCursor; OpIndex] in
  let b := state_of (run ops (fresh 5 3 100)) (fresh 5 3 100) in
  let b' := state_of (ResizeView 2 2 b) b in
  run ops (fresh 5 3 100) = Ok b /\ cursor_in_bounds b /\
  ResizeView 2 2 b = Ok b' /\ 0 <= cursorY b' < viewHeight b'.
Proof.
  intros ops b b'.
  assert (Hnew : NewBuffer 5 3 attr0 100 = Ok (fresh 5 3 100)) by reflexivity.
  assert (Hrun : run ops (fresh 5 3 100) = Ok b) by (vm_compute; reflexivity).
  assert (Hres : ResizeView 2 2 b = Ok b') by (vm_compute; reflexivity).
  assert (Hops : Forall (calm 3) ops).
  { repeat constructor; unfold is_u16, is_u64; lia. }
  clearbody b' b ops.
  destruct (cursor_bounds_without_resize 5 3 100 attr0 ops (fresh 5 3 100) b
              ltac:(unfold is_u16; lia) ltac:(unfold is_u16; lia) ltac:(lia) ltac:(lia)
              Hops Hnew Hrun) as [Hb Hr].
  split; [exact Hrun |]. split; [exact Hb |]. split; [exact Hres |].
  exact (Hr 2 2 b' ltac:(unfold is_u16; lia) ltac:(lia) Hres).
Defined.

(** * Further properties of the code *)

(** ** Coordinates and cell lookup *)

(** [GetCell] never faults for a view position: it returns the cell that the
    grid store holds there, and no cell when the row or the column is beyond
    what the store holds. *)
Theorem GetCell_reads_view_cell (col row : Z) (b : Buffer) :
  len_ok b -> is_u16 (viewHeight b) -> is_u16 row -> is_u16 col ->
  GetCell col row b = Ok (viewCell b col row) /\
  (Height b <= convertViewLineToRawLine b row -> GetCell col row b = Ok None) /\
  (forall line, viewLine b row = Some line ->
     Z.of_nat (length (cells line)) <= col -> GetCell col row b = Ok None).
Proof.
  intros Hl Hv Hr Hc.
  assert (Hg : GetCell col row b = Ok (viewCell b col row)).
  { apply GetCell_viewCell; auto. unfold is_u16 in Hc. lia. }
  split; [exact Hg |]. rewrite Hg. unfold viewCell, viewLine. split.
  - intros Hh. rewrite (proj2 (lookup_ge_None _ _)); [reflexivity |].
    unfold Height in Hh.
    assert (0 <= convertViewLineToRawLine b row).
    { rewrite convertViewLineToRawLine_offset by (unfold is_u16 in *; auto; lia).
      unfold viewOffset, is_u16 in *. pose proof (Height_nonneg b).
      destruct (viewHeight b >? Height b) eqn:E; lia. }
    lia.
  - intros line -> Hlen. f_equal. apply lookup_ge_None. unfold is_u16 in Hc. lia.
Qed.

Lemma GetCell_reads_view_cell_witness :
  let b := state_of (run [OpWrite [104; 105]] (fresh 10 3 100)) (fresh 10 3 100) in
  GetCell 1 0 b = Ok (Some (written 105 b)) /\
  GetCell 2 0 b = Ok None /\ GetCell 0 1 b = Ok None.
Proof.
  intros b.
  assert (Hl : len_ok b) by (vm_compute; reflexivity).
  assert (Hv : is_u16 (viewHeight b)) by (vm_compute; split; [discriminate | reflexivity]).
  assert (Hc10 : viewCell b 1 0 = Some (written 105 b)) by reflexivity.
  assert (Hc20 : viewCell b 2 0 = None) by reflexivity.
  assert (Hc01 : viewCell b 0 1 = None) by reflexivity.
  clearbody b.
  assert (Hu : forall z, 0 <= z < 3 -> is_u16 z) by (unfold is_u16; lia).
  destruct (GetCell_reads_view_cell 1 0 b Hl Hv (Hu 0 ltac:(lia)) (Hu 1 ltac:(lia))) as (H1 & _).
  destruct (GetCell_reads_view_cell 2 0 b Hl Hv (Hu 0 ltac:(lia)) (Hu 2 ltac:(lia))) as (H2 & _).
  destruct (GetCell_reads_view_cell 0 1 b Hl Hv (Hu 1 ltac:(lia)) (Hu 0 ltac:(lia))) as (H3 & _).
  rewrite H1, H2, H3, Hc10, Hc20, Hc01. repeat split.
Defined.

(** A view row converted to a raw row and back is the same row. *)
Theorem convertRawLineToViewLine_of_view_line (row : Z) (b : Buffer) :
  len_ok b -> is_u16 (viewHeight b) -> is_u16 row ->
  convertRawLineToViewLine b (convertViewLineToRawLine b row) = row /\
  (viewHeight b <= Height b ->
     convertViewLineToRawLine b row = row + (Height b - viewHeight b)).
Proof.
  intros Hl Hv Hr. unfold convertRawLineToViewLine, convertViewLineToRawLine.
  unfold len_ok, is_u16 in *. pose proof (Height_nonneg b).
  destruct (viewHeight b >? Height b) eqn:E.
  - split; [apply u16_small; lia | lia].
  - rewrite u64_small by lia. rewrite int_small by lia. split; [| reflexivity].
    replace (row + (Height b - viewHeight b) - (Height b - viewHeight b)) with row by lia.
    apply u16_small. lia.
Qed.

Lemma convertRawLineToViewLine_of_view_line_witness :
  let b := state_of (run sixLines (fresh 5 3 100)) (fresh 5 3 100) in
  Height b = 6 /\ convertViewLineToRawLine b 2 = 5 /\
  convertRawLineToViewLine b (convertViewLineToRawLine b 2) = 2.
Proof.
  intros b.
  assert (Hl : len_ok b) by (vm_compute; reflexivity).
  assert (Hv : is_u16 (viewHeight b)) by (vm_compute; split; [discriminate | reflexivity]).
  assert (Hh : Height b = 6) by reflexivity.
  assert (Hvh : viewHeight b = 3) by reflexivity.
  clearbody b.
  destruct (convertRawLineToViewLine_of_view_line 2 b Hl Hv ltac:(unfold is_u16; lia))
    as (Hback & Hraw).
  split; [exact Hh |]. split; [rewrite Hraw; lia | exact Hback].
Defined.

(** ** Scrolling the view *)

(** With a scroll offset between 0 and the number of scrollback lines,
    [ScrollUp] adds to the offset and stops at the number of scrollback
    lines, [ScrollDown] subtracts and stops at 0, [ScrollToEnd] gives 0, a
    scroll up that is not cut short is undone by the same scroll down, and
    none of them touches the lines. *)
Theorem scroll_offset_stays_in_scrollback (n : Z) (b : Buffer) :
  len_ok b -> is_u16 (viewHeight b) -> is_u16 n ->
  0 <= scrollLinesFromBottom b <= viewOffset b ->
  scrollLinesFromBottom (ScrollUp n b) = Z.min (scrollLinesFromBottom b + n) (viewOffset b) /\
  scrollLinesFromBottom (ScrollDown n b) = Z.max 0 (scrollLinesFromBottom b - n) /\
  scrollLinesFromBottom (ScrollToEnd b) = 0 /\
  (scrollLinesFromBottom b + n <= viewOffset b ->
     scrollLinesFromBottom (ScrollDown n (ScrollUp n b)) = scrollLinesFromBottom b) /\
  lines (ScrollUp n b) = lines b /\ lines (ScrollDown n b) = lines b.
Proof.
  intros Hl Hv Hn Hs. unfold len_ok, is_u16 in *. pose proof (Height_nonneg b) as Hh.
  assert (Hup : scrollLinesFromBottom (ScrollUp n b)
                = Z.min (scrollLinesFromBottom b + n) (viewOffset b)
                /\ lines (ScrollUp n b) = lines b
                /\ Height (ScrollUp n b) = Height b
                /\ viewHeight (ScrollUp n b) = viewHeight b).
  { unfold ScrollUp, ViewHeight, viewOffset in *.
    destruct (Height b <? viewHeight b) eqn:E.
    - destruct (viewHeight b >? Height b) eqn:E'; [| lia].
      repeat split. fields_cbn. lia.
    - destruct (viewHeight b >? Height b) eqn:E'; [lia |].
      rewrite !u64_small by lia.
      destruct (n + scrollLinesFromBottom b >=? Height b - viewHeight b) eqn:E2;
        repeat split; fields_cbn; try rewrite u64_small; lia. }
  assert (Hdown : forall c, viewHeight c = viewHeight b -> Height c = Height b ->
             0 <= scrollLinesFromBottom c <= viewOffset b ->
             scrollLinesFromBottom (ScrollDown n c) = Z.max 0 (scrollLinesFromBottom c - n)
             /\ lines (ScrollDown n c) = lines c).
  { intros c Hcv Hch Hcs. unfold ScrollDown, ViewHeight, viewOffset in *.
    rewrite Hcv, Hch.
    destruct (Height b <? viewHeight b) eqn:E.
    - destruct (viewHeight b >? Height b) eqn:E'; [| lia].
      repeat split. fields_cbn. lia.
    - destruct (viewHeight b >? Height b) eqn:E'; [lia |].
      destruct (n >? scrollLinesFromBottom c) eqn:E2; split; try reflexivity; fields_cbn.
      + rewrite (u16_small (scrollLinesFromBottom c)) by lia. rewrite u64_small; lia.
      + rewrite u64_small; lia. }
  destruct Hup as (Hup & Hlu & Hhu & Hvu).
  destruct (Hdown b eq_refl eq_refl Hs) as (Hd & Hld).
  split; [exact Hup |]. split; [exact Hd |]. split; [reflexivity |].
  split; [| split; [exact Hlu | exact Hld]].
  intros Hfit. destruct (Hdown (ScrollUp n b) Hvu Hhu) as (Hdu & _).
  { rewrite Hup. lia. }
  rewrite Hdu, Hup. lia.
Qed.

Lemma scroll_offset_stays_in_scrollback_witness :
  let b := state_of (run sixLines (fresh 5 3 100)) (fresh 5 3 100) in
  viewOffset b = 3 /\
  scrollLinesFromBottom (ScrollUp 2 b) = 2 /\
  scrollLinesFromBottom (ScrollDown 2 (ScrollUp 2 b)) = 0 /\
  scrollLinesFromBottom (ScrollDown 2 b) = 0.
Proof.
  intros b.
  assert (Hl : len_ok b) by (vm_compute; reflexivity).
  assert (Hv : is_u16 (viewHeight b)) by (vm_compute; split; [discriminate | reflexivity]).
  assert (Ho : viewOffset b = 3) by reflexivity.
  assert (Hs : scrollLinesFromBottom b = 0) by reflexivity.
  clearbody b.
  destruct (scroll_offset_stays_in_scrollback 2 b Hl Hv ltac:(unfold is_u16; lia)
              ltac:(lia)) as (Hup & Hd & _ & Hback & _).
  rewrite Ho, Hs in *. split; [reflexivity |].
  split; [rewrite Hup; reflexivity |]. split; [apply Hback; lia |].
  rewrite Hd. reflexivity.
Defined.

(** ** Absolute and relative cursor moves *)

(** [SetPosition] clamps: the column at the last column of the view; the
    row, with origin mode off, at the last row of the view, and with origin
    mode on, after adding the top margin, at the bottom margin. *)
Theorem SetPosition_clamps (col line : Z) (b : Buffer) :
  is_u16 col -> is_u16 line ->
  is_u16 (viewWidth b) -> is_u16 (viewHeight b) ->
  1 <= viewWidth b -> 1 <= viewHeight b ->
  is_u16 (topMargin b) -> is_u16 (bottomMargin b) -> line + topMargin b < 65536 ->
  cursorX (SetPosition col line b) = Z.min col (viewWidth b - 1) /\
  cursorY (SetPosition col line b) =
    (if originMode b then Z.min (line + topMargin b) (bottomMargin b)
     else Z.min line (viewHeight b - 1)) /\
  dirty (SetPosition col line b) = true /\
  lines (SetPosition col line b) = lines b.
Proof.
  intros Hc Hli Hw Hh Hw1 Hh1 Ht Hb Hsum. unfold SetPosition, ViewHeight, ViewWidth.
  unfold is_u16 in *. fields_cbn.
  rewrite (u16_small (topMargin b)), (u16_small (bottomMargin b)) by lia.
  rewrite (u16_small (line + topMargin b)), (u16_small (viewHeight b - 1)),
    (u16_small (viewWidth b - 1)) by lia.
  split; [destruct (col >=? viewWidth b) eqn:E; lia |].
  split; [| split; reflexivity].
  destruct (originMode b).
  - destruct (line + topMargin b >? bottomMargin b) eqn:E; lia.
  - destruct (line >? viewHeight b - 1) eqn:E; lia.
Qed.

Lemma SetPosition_clamps_witness :
  let b := state_of (run [OpSetVerticalMargins 2 5; OpSetOriginMode true] (fresh 10 8 100))
             (fresh 10 8 100) in
  cursorX (SetPosition 0 99 b) = 0 /\ cursorY (SetPosition 0 99 b) = 5 /\
  cursorX (SetPosition 50 0 b) = 9.
Proof.
  intros b.
  assert (Hvw : viewWidth b = 10) by reflexivity.
  assert (Hvh : viewHeight b = 8) by reflexivity.
  assert (Ht : topMargin b = 2) by reflexivity.
  assert (Hb : bottomMargin b = 5) by reflexivity.
  assert (Ho : originMode b = true) by reflexivity.
  clearbody b.
  assert (Hu : forall z, 0 <= z < 100 -> is_u16 z) by (unfold is_u16; lia).
  destruct (SetPosition_clamps 0 99 b) as (Hx & Hy & _);
    try rewrite ?Hvw, ?Hvh, ?Ht, ?Hb; try (apply Hu; lia); try lia.
  destruct (SetPosition_clamps 50 0 b) as (Hx' & _);
    try rewrite ?Hvw, ?Hvh, ?Ht, ?Hb; try (apply Hu; lia); try lia.
  rewrite Hx, Hy, Hx', Ho, Hvw, Ht, Hb. repeat split.
Defined.

Lemma i16_small (z : Z) : -32768 <= z < 32768 -> i16 z = z.
Proof. intros H. unfold i16. rewrite Z.mod_small; lia. Qed.

Lemma MovePosition_cursor (x y : Z) (b : Buffer) :
  1 <= viewWidth b <= 16384 -> 1 <= viewHeight b <= 16384 ->
  0 <= cursorX b <= viewWidth b -> 0 <= cursorY b < viewHeight b ->
  -16384 <= x < 16384 -> -16384 <= y < 16384 ->
  is_u16 (topMargin b) -> is_u16 (bottomMargin b) ->
  (originMode b = true -> topMargin b <= cursorY b) ->
  cursorX (MovePosition x y b) = Z.min (Z.max 0 (cursorX b + x)) (viewWidth b - 1) /\
  cursorY (MovePosition x y b) =
    (if originMode b then Z.min (Z.max (topMargin b) (cursorY b + y)) (bottomMargin b)
     else Z.min (Z.max 0 (cursorY b + y)) (viewHeight b - 1)).
Proof.
  intros Hw Hh Hx Hy Hdx Hdy Ht Hb Ho. unfold is_u16 in *.
  unfold MovePosition, SetPosition, CursorColumn, CursorLine, ViewHeight, ViewWidth.
  fields_cbn.
  rewrite (i16_small (cursorX b)), (i16_small (cursorX b + x)) by lia.
  rewrite (u16_small (topMargin b)), (u16_small (bottomMargin b)),
    (u16_small (viewHeight b - 1)), (u16_small (viewWidth b - 1)) by lia.
  split.
  - destruct (cursorX b + x <? 0) eqn:E.
    + destruct (0 >=? viewWidth b) eqn:E'; lia.
    + rewrite u16_small by lia.
      destruct (cursorX b + x >=? viewWidth b) eqn:E'; lia.
  - destruct (originMode b) eqn:Eo.
    + specialize (Ho eq_refl).
      rewrite (u16_small (cursorY b - topMargin b)) by lia.
      rewrite (i16_small (cursorY b - topMargin b)),
        (i16_small (cursorY b - topMargin b + y)) by lia.
      destruct (cursorY b - topMargin b + y <? 0) eqn:E.
      * rewrite Z.add_0_l, (u16_small (topMargin b)) by lia.
        destruct (topMargin b >? bottomMargin b) eqn:E'; lia.
      * rewrite (u16_small (cursorY b - topMargin b + y)) by lia.
        rewrite u16_small by lia.
        destruct (cursorY b - topMargin b + y + topMargin b >? bottomMargin b) eqn:E'; lia.
    + rewrite (i16_small (cursorY b)), (i16_small (cursorY b + y)) by lia.
      destruct (cursorY b + y <? 0) eqn:E.
      * destruct (0 >? viewHeight b - 1) eqn:E'; lia.
      * rewrite u16_small by lia.
        destruct (cursorY b + y >? viewHeight b - 1) eqn:E'; lia.
Qed.

(** [MovePosition] adds the offsets to the cursor and clamps: the column to
    the columns of the view, the row to the rows of the view or, in origin
    mode with the cursor at or below the top margin, to the rows of the
    scroll region.  (Views and offsets below 16384, so that the [int16] sums
    of the source do not wrap.) *)
Theorem MovePosition_clamps (x y : Z) (b : Buffer) :
  1 <= viewWidth b <= 16384 -> 1 <= viewHeight b <= 16384 ->
  0 <= cursorX b <= viewWidth b -> 0 <= cursorY b < viewHeight b ->
  -16384 <= x < 16384 -> -16384 <= y < 16384 ->
  is_u16 (topMargin b) -> is_u16 (bottomMargin b) ->
  (originMode b = true -> topMargin b <= cursorY b) ->
  cursorX (MovePosition x y b) = Z.min (Z.max 0 (cursorX b + x)) (viewWidth b - 1) /\
  cursorY (MovePosition x y b) =
    (if originMode b then Z.min (Z.max (topMargin b) (cursorY b + y)) (bottomMargin b)
     else Z.min (Z.max 0 (cursorY b + y)) (viewHeight b - 1)).
Proof. apply MovePosition_cursor. Qed.

Lemma MovePosition_clamps_witness :
  let b := state_of (run [OpSetPosition 3 2] (fresh 10 8 100)) (fresh 10 8 100) in
  cursorX (MovePosition (-5) 1 b) = 0 /\ cursorY (MovePosition (-5) 1 b) = 3 /\
  cursorX (MovePosition 20 20 b) = 9 /\ cursorY (MovePosition 20 20 b) = 7.
Proof.
  intros b.
  assert (Hvw : viewWidth b = 10) by reflexivity.
  assert (Hvh : viewHeight b = 8) by reflexivity.
  assert (Hcx : cursorX b = 3) by reflexivity.
  assert (Hcy : cursorY b = 2) by reflexivity.
  assert (Ht : topMargin b = 0) by reflexivity.
  assert (Hb : bottomMargin b = 7) by reflexivity.
  assert (Ho : originMode b = false) by reflexivity.
  clearbody b.
  destruct (MovePosition_clamps (-5) 1 b) as (Hx1 & Hy1);
    rewrite ?Hvw, ?Hvh, ?Hcx, ?Hcy, ?Ht, ?Hb, ?Ho; unfold is_u16; try lia; try discriminate.
  destruct (MovePosition_clamps 20 20 b) as (Hx2 & Hy2);
    rewrite ?Hvw, ?Hvh, ?Hcx, ?Hcy, ?Ht, ?Hb, ?Ho; unfold is_u16; try lia; try discriminate.
  rewrite Hx1, Hy1, Hx2, Hy2, Ho, Hvw, Hvh, Hcx, Hcy. repeat split.
Defined.

(** ** Rows of the view across line creation *)

(** Comparisons kept as booleans by a case split, turned into propositions. *)
Ltac bool_to_prop :=
  repeat match goal with
         | H : (_ <? _) = true |- _ => apply Z.ltb_lt in H
         | H : (_ <? _) = false |- _ => apply Z.ltb_ge in H
         | H : (_ <=? _) = true |- _ => apply Z.leb_le in H
         | H : (_ <=? _) = false |- _ => apply Z.leb_gt in H
         | H : (_ >? _) = true |- _ => rewrite Z.gtb_ltb in H; apply Z.ltb_lt in H
         | H : (_ >? _) = false |- _ => rewrite Z.gtb_ltb in H; apply Z.ltb_ge in H
         | H : (_ >=? _) = true |- _ => rewrite Z.geb_leb in H; apply Z.leb_le in H
         | H : (_ >=? _) = false |- _ => rewrite Z.geb_leb in H; apply Z.leb_gt in H
         | H : (_ =? _) = true |- _ => apply Z.eqb_eq in H
         | H : (_ =? _) = false |- _ => apply Z.eqb_neq in H
         end.

Ltac blia := bool_to_prop; lia.

Lemma rowLine_append_fresh (b : Buffer) (k : nat) (row : Z) :
  is_u16 (viewHeight b) -> is_u16 row ->
  (length (lines b) + k <= Z.to_nat (viewHeight b))%nat ->
  rowLine (set_lines (lines b ++ replicate k newLine) b) row = rowLine b row.
Proof.
  intros Hv Hr Hk. unfold rowLine, viewLine, convertViewLineToRawLine, Height, is_u16 in *.
  fields_cbn. rewrite length_app, length_replicate.
  destruct (viewHeight b >? Z.of_nat (length (lines b))) eqn:E1.
  - assert (Hraw : (if viewHeight b >? Z.of_nat (length (lines b) + k) then row
                    else u64 (row + (Z.of_nat (length (lines b) + k) - viewHeight b))) = row).
    { destruct (viewHeight b >? Z.of_nat (length (lines b) + k)) eqn:E2; [reflexivity |].
      replace (Z.of_nat (length (lines b) + k) - viewHeight b) with 0 by blia.
      rewrite Z.add_0_r. apply u64_small. lia. }
    rewrite Hraw.
    destruct (lines b !! Z.to_nat row) as [l|] eqn:El.
    + rewrite lookup_app_l by (apply lookup_lt_Some in El; exact El). rewrite El. reflexivity.
    + apply lookup_ge_None in El. rewrite lookup_app_r by exact El. simpl.
      destruct (replicate k newLine !! (Z.to_nat row - length (lines b))%nat) as [l|] eqn:Er;
        [| reflexivity].
      apply lookup_replicate in Er as [-> _]. reflexivity.
  - assert (k = 0%nat) by blia. subst k. simpl. rewrite app_nil_r, Nat.add_0_r.
    destruct (viewHeight b >? Z.of_nat (length (lines b))) eqn:E2; [blia | reflexivity].
Qed.

(** [getViewLine] on a row of the view shows every row as before: the lines
    it creates are fresh. *)
Lemma getViewLine_rowLine (row : Z) (b b1 : Buffer) (li : nat) :
  is_u16 (viewHeight b) -> 0 <= row < viewHeight b ->
  getViewLine row b = Ok (b1, li) ->
  forall r, is_u16 r -> rowLine b1 r = rowLine b r.
Proof.
  intros Hv Hr H r Hr0. unfold getViewLine, ViewHeight in H.
  destruct (row >=? viewHeight b) eqn:E; [lia |].
  destruct (Height b <? viewHeight b) eqn:E1.
  - injection H as <- _. apply rowLine_append_fresh; [exact Hv | exact Hr0 |].
    unfold Height, is_u16 in *. lia.
  - destruct (int (convertViewLineToRawLine b row) <? Height b); [| discriminate].
    injection H as <- _. reflexivity.
Qed.

Lemma getViewLine_current (row : Z) (b : Buffer) :
  len_ok b -> is_u16 (viewHeight b) -> 0 <= row < viewHeight b ->
  exists ls li,
    getViewLine row b = Ok (set_lines ls b, li) /\
    ls !! li = Some (rowLine b row) /\
    li = Z.to_nat (convertViewLineToRawLine (set_lines ls b) row) /\
    len_ok (set_lines ls b) /\
    (forall r, is_u16 r -> rowLine (set_lines ls b) r = rowLine b r).
Proof.
  intros Hl Hv Hr.
  destruct (getViewLine_in_view row b Hl Hv Hr) as (ls & li & Hg & Hli & Hlook & Hlen).
  exists ls, li. split; [exact Hg |]. split; [exact Hlook |]. split; [exact Hli |].
  split; [exact Hlen |]. eapply getViewLine_rowLine; eassumption.
Qed.

(** ** Backspace and carriage return *)

(** [Backspace] with origin mode off: one column left; from the column past
    the right edge, two columns left; at column 0, up to the last column of
    the row above when the current line is a continuation, and no move
    otherwise. *)
Theorem Backspace_moves_left (b : Buffer) :
  len_ok b ->
  1 <= viewWidth b <= 16384 -> 1 <= viewHeight b <= 16384 ->
  0 <= cursorX b <= viewWidth b -> 0 <= cursorY b < viewHeight b ->
  is_u16 (topMargin b) -> is_u16 (bottomMargin b) -> originMode b = false ->
  exists b', Backspace b = Ok b' /\
    (cursorX b', cursorY b') =
      (if cursorX b =? 0 then
         if wrapped (rowLine b (cursorY b))
         then (viewWidth b - 1, Z.max 0 (cursorY b - 1))
         else (0, cursorY b)
       else if cursorX b =? viewWidth b then (Z.max 0 (viewWidth b - 2), cursorY b)
       else (cursorX b - 1, cursorY b)).
Proof.
  intros Hl Hw Hh Hx Hy Ht Hb Ho. unfold Backspace, inDoWrap.
  destruct (cursorX b =? 0) eqn:E0.
  - destruct (getViewLine_current (cursorY b) b Hl) as (ls & li & Hg & Hlook & _).
    { unfold is_u16. lia. } { lia. }
    unfold getCurrentLine. rewrite Hg. cbn [bind]. unfold readLine. fields_cbn.
    rewrite Hlook. cbn [bind].
    destruct (wrapped (rowLine b (cursorY b))).
    + eexists. split; [reflexivity |].
      destruct (MovePosition_cursor (i16 (u16 (Width (set_lines ls b) - 1))) (-1)
                  (set_lines ls b)) as (Hmx & Hmy); fields_cbn; try assumption; try lia.
      { unfold Width. fields_cbn. rewrite u16_small, i16_small by lia. lia. }
      { intros Hcontra. congruence. }
      rewrite Hmx, Hmy. fields_cbn. rewrite Ho. unfold Width. fields_cbn.
      rewrite u16_small, i16_small by lia. f_equal; lia.
    + eexists. split; [reflexivity |]. fields_cbn. f_equal; lia.
  - destruct (cursorX b =? viewWidth b) eqn:E1.
    + eexists. split; [reflexivity |].
      destruct (MovePosition_cursor (-2) 0 b) as (Hmx & Hmy); try assumption; try lia.
      { intros Hcontra. congruence. }
      rewrite Hmx, Hmy, Ho. f_equal; lia.
    + eexists. split; [reflexivity |].
      destruct (MovePosition_cursor (-1) 0 b) as (Hmx & Hmy); try assumption; try lia.
      { intros Hcontra. congruence. }
      rewrite Hmx, Hmy, Ho. f_equal; lia.
Qed.

Lemma Backspace_moves_left_witness :
  let b := state_of (run [OpWrite [97; 98; 99; 100; 101]] (fresh 5 3 100)) (fresh 5 3 100) in
  cursorX b = 5 /\
  exists b', Backspace b = Ok b' /\ cursorX b' = 3 /\ cursorY b' = 0.
Proof.
  intros b.
  assert (Hl : len_ok b) by (vm_compute; reflexivity).
  assert (Hvw : viewWidth b = 5) by reflexivity.
  assert (Hvh : viewHeight b = 3) by reflexivity.
  assert (Hcx : cursorX b = 5) by reflexivity.
  assert (Hcy : cursorY b = 0) by reflexivity.
  assert (Ht : topMargin b = 0) by reflexivity.
  assert (Hb : bottomMargin b = 2) by reflexivity.
  assert (Ho : originMode b = false) by reflexivity.
  clearbody b.
  destruct (Backspace_moves_left b Hl) as (b' & Hbs & Hpos);
    rewrite ?Hvw, ?Hvh, ?Hcx, ?Hcy, ?Ht, ?Hb; unfold is_u16; try lia; try exact Ho.
  split; [reflexivity |]. exists b'. split; [exact Hbs |].
  rewrite Hcx, Hvw, Hcy in Hpos. cbn in Hpos. injection Hpos as -> ->. split; reflexivity.
Defined.

Lemma carriageReturnLoop_walks_up (fuel : nat) (b : Buffer) :
  len_ok b -> is_u16 (viewHeight b) -> 0 <= cursorY b < viewHeight b ->
  (Z.to_nat (cursorY b) < fuel)%nat ->
  exists b', carriageReturnLoop fuel b = Ok b' /\
    0 <= cursorY b' <= cursorY b /\ cursorX b' = cursorX b /\
    (cursorY b' = 0 \/ wrapped (rowLine b (cursorY b')) = false) /\
    (forall r, cursorY b' < r <= cursorY b -> wrapped (rowLine b r) = true) /\
    (forall r, is_u16 r -> rowLine b' r = rowLine b r).
Proof.
  revert b. induction fuel as [|fuel IH]; intros b Hl Hv Hy Hf; [lia |].
  destruct (getViewLine_current (cursorY b) b Hl Hv Hy) as (ls & li & Hg & Hlook & _ & Hl1 & Hrows).
  cbn [carriageReturnLoop]. unfold getCurrentLine. rewrite Hg. cbn [bind].
  unfold readLine. fields_cbn. rewrite Hlook. cbn [bind].
  destruct (wrapped (rowLine b (cursorY b))) eqn:Ew; cbn [andb].
  - destruct (cursorY b >? 0) eqn:E0.
    + destruct (IH (set_cursorY (u16 (cursorY b - 1)) (set_lines ls b)))
        as (b' & Hrun & Hy' & Hx' & Hstop & Hwr & Hrows').
      { exact Hl1. } { exact Hv. }
      { fields_cbn. unfold is_u16 in Hv. rewrite u16_small by blia. blia. }
      { fields_cbn. unfold is_u16 in Hv. rewrite u16_small by blia. blia. }
      fields_cbn. unfold is_u16 in Hv. rewrite u16_small in * by blia.
      assert (Heq : forall r, is_u16 r ->
                 rowLine (set_cursorY (cursorY b - 1) (set_lines ls b)) r = rowLine b r).
      { intros r Hr. rewrite <- (Hrows r Hr). reflexivity. }
      exists b'. split; [exact Hrun |]. split; [lia |]. split; [exact Hx' |].
      split; [| split].
      * destruct Hstop as [Hz | Hnw]; [left; exact Hz | right].
        rewrite <- Heq by (unfold is_u16; lia). exact Hnw.
      * intros r Hr. destruct (decide (r = cursorY b)) as [-> | Hne]; [exact Ew |].
        rewrite <- Heq by (unfold is_u16; lia). apply Hwr. lia.
      * intros r Hr. rewrite Hrows' by exact Hr. apply Heq. exact Hr.
    + eexists. split; [reflexivity |]. fields_cbn.
      split; [lia |]. split; [reflexivity |]. split; [left; blia |].
      split; [intros r Hr; lia | exact Hrows].
  - eexists. split; [reflexivity |]. fields_cbn.
    split; [lia |]. split; [reflexivity |]. split; [right; exact Ew |].
    split; [intros r Hr; lia | exact Hrows].
Qed.

(** [CarriageReturn] returns for a cursor row inside the view.  It puts the
    cursor in column 0 of the first row at or above the cursor row that is
    not a continuation line (or of row 0): every row it walked over is a
    continuation line.  The lines shown are unchanged. *)
Theorem CarriageReturn_walks_to_line_start (b : Buffer) :
  len_ok b -> is_u16 (viewHeight b) -> 0 <= cursorY b < viewHeight b ->
  exists b', CarriageReturn b = Ok b' /\
    cursorX b' = 0 /\ 0 <= cursorY b' <= cursorY b /\
    (cursorY b' = 0 \/ wrapped (rowLine b (cursorY b')) = false) /\
    (forall r, cursorY b' < r <= cursorY b -> wrapped (rowLine b r) = true) /\
    (forall r, is_u16 r -> rowLine b' r = rowLine b r).
Proof.
  intros Hl Hv Hy.
  destruct (carriageReturnLoop_walks_up (S (Z.to_nat (cursorY b))) b Hl Hv Hy)
    as (b1 & Hrun & Hy1 & Hx1 & Hstop & Hwr & Hrows); [lia |].
  unfold CarriageReturn. rewrite Hrun. cbn [bind]. eexists. split; [reflexivity |].
  fields_cbn. split; [reflexivity |]. split; [exact Hy1 |]. split; [exact Hstop |].
  split; [exact Hwr | exact Hrows].
Qed.

Lemma CarriageReturn_walks_to_line_start_witness :
  let b := state_of (run [OpWrite [97; 98; 99; 100; 101; 102]; OpResizeView 3 3]
                       (fresh 6 3 100)) (fresh 6 3 100) in
  (cursorY b = 1 /\ wrapped (rowLine b 1) = true /\ wrapped (rowLine b 0) = false) /\
  exists b', CarriageReturn b = Ok b' /\ cursorX b' = 0 /\ cursorY b' = 0.
Proof.
  intros b.
  assert (Hl : len_ok b) by (vm_compute; reflexivity).
  assert (Hv : is_u16 (viewHeight b)) by (vm_compute; split; [discriminate | reflexivity]).
  assert (Hy : 0 <= cursorY b < viewHeight b) by (vm_compute; split; [discriminate | reflexivity]).
  assert (Hcy : cursorY b = 1) by reflexivity.
  assert (Hw1 : wrapped (rowLine b 1) = true) by reflexivity.
  assert (Hw0 : wrapped (rowLine b 0) = false) by reflexivity.
  clearbody b.
  destruct (CarriageReturn_walks_to_line_start b Hl Hv Hy)
    as (b' & Hcr & Hx & Hy' & Hstop & _).
  split; [auto |]. exists b'. split; [exact Hcr |]. split; [exact Hx |].
  rewrite Hcy in Hy'. destruct Hstop as [Hz | Hnw]; [exact Hz |].
  assert (Hc : cursorY b' = 0 \/ cursorY b' = 1) by lia.
  destruct Hc as [Hz | Ho]; [exact Hz |]. rewrite Ho, Hw1 in Hnw. discriminate.
Defined.

(** ** Index and reverse index at the edges *)

(** [fields_cbn], with the remaining fields of the buffer. *)
Ltac fields_cbn_all :=
  fields_cbn;
  cbn [cursorAttr replaceMode lineFeedMode autoWrap selectionStart selectionEnd
       selectionComplete selectionExpanded selectionClickTime defaultCell maxLines
       emitDisplayChange set_lines set_cursorX set_cursorY set_viewHeight set_viewWidth
       set_savedX set_savedY set_scrollLinesFromBottom set_topMargin set_bottomMargin
       set_replaceMode set_originMode set_lineFeedMode set_autoWrap set_dirty
       set_selectionEnd set_selectionComplete updLine SaveCursor RestoreCursor
       SetVerticalMargins ResetVerticalMargins] in *.

Lemma last_drop_lt {A : Type} (k : nat) (l : list A) :
  (k < length l)%nat -> last (drop k l) = last l.
Proof.
  intros Hk. rewrite !last_lookup, length_drop, lookup_drop. f_equal. lia.
Qed.

(** The append of [Index] keeps the newest lines: with a cap of at least one
    line, the result is the list with the fresh line at the end, without its
    oldest lines beyond the cap. *)
Lemma appendCapped_drop (maxL : Z) (ls : list Line) :
  1 <= maxL ->
  appendCapped maxL ls = drop (Z.to_nat (Z.of_nat (length ls) + 1 - maxL)) (ls ++ [newLine]) /\
  Z.of_nat (length (appendCapped maxL ls)) = Z.min (Z.of_nat (length ls) + 1) maxL /\
  last (appendCapped maxL ls) = Some newLine.
Proof.
  intros Hm. unfold appendCapped. rewrite length_app. cbn [length].
  replace (Z.of_nat (length ls + 1)) with (Z.of_nat (length ls) + 1) by lia.
  destruct (Z.of_nat (length ls) + 1 >? maxL) eqn:E.
  - assert (Hlen : length (drop (Z.to_nat (Z.of_nat (length ls) + 1 - maxL)) (ls ++ [newLine]))
                   = Z.to_nat maxL).
    { rewrite length_drop, length_app. cbn [length]. blia. }
    rewrite take_ge by (rewrite Hlen; lia).
    split; [reflexivity |]. split; [rewrite Hlen; blia |].
    rewrite last_drop_lt by (rewrite length_app; cbn [length]; blia).
    apply last_snoc.
  - replace (Z.to_nat (Z.of_nat (length ls) + 1 - maxL)) with 0%nat by blia.
    rewrite drop_0. split; [reflexivity |].
    split; [rewrite length_app; cbn [length]; blia | apply last_snoc].
Qed.

(** [Index] on the last row of the view, outside any scroll region: the call
    returns, a fresh line is appended, the oldest lines beyond
    max(maxLines, viewHeight) are dropped from the front, and the cursor does
    not move.  Afterwards the line count is within that cap, whatever it was
    before. *)
Theorem Index_on_last_row_appends_within_cap (b : Buffer) :
  is_u16 (viewHeight b) -> 1 <= viewHeight b ->
  InScrollableRegion b = false -> viewHeight b - 1 <= cursorY b ->
  exists b', Index b = Ok b' /\
    lines b' = drop (Z.to_nat (Height b + 1 - getMaxLines b)) (lines b ++ [newLine]) /\
    Height b' = Z.min (Height b + 1) (getMaxLines b) /\
    last (lines b') = Some newLine /\
    within_cap b' /\
    cursorX b' = cursorX b /\ cursorY b' = cursorY b /\ dirty b' = true.
Proof.
  intros Hv Hv1 Hr Hy. unfold Index, ViewHeight. rewrite Hr. unfold is_u16 in Hv.
  rewrite u16_small by lia.
  destruct (cursorY b >=? viewHeight b - 1) eqn:E; [| blia].
  assert (Hm : 1 <= getMaxLines b).
  { unfold getMaxLines. destruct (maxLines b <? viewHeight b) eqn:E'; blia. }
  destruct (appendCapped_drop (getMaxLines b) (lines b) Hm) as (Hd & Hlen & Hlast).
  eexists. split; [reflexivity |]. fields_cbn. unfold Height.
  split; [exact Hd |]. split; [exact Hlen |]. split; [exact Hlast |].
  split; [| repeat split].
  unfold within_cap, Height. fields_cbn_all. rewrite Hlen.
  unfold getMaxLines. destruct (maxLines b <? viewHeight b) eqn:E'; blia.
Qed.

Lemma Index_on_last_row_appends_within_cap_witness :
  let b := state_of (run [OpWrite [97]; OpNewLine; OpWrite [98]] (fresh 5 2 2)) (fresh 5 2 2) in
  (map lineRunes (lines b) = [[97]; [98]] /\ cursorY b = 1) /\
  exists b', Index b = Ok b' /\ map lineRunes (lines b') = [[98]; []] /\ Height b' = 2.
Proof.
  intros b.
  assert (Hv : is_u16 (viewHeight b)) by (vm_compute; split; [discriminate | reflexivity]).
  assert (Hv1 : 1 <= viewHeight b) by (vm_compute; discriminate).
  assert (Hr : InScrollableRegion b = false) by reflexivity.
  assert (Hy : viewHeight b - 1 <= cursorY b) by (vm_compute; discriminate).
  assert (Hls : lines b ++ [newLine]
                = [putCell 0 97 attr0 (defaultCell b) newLine;
                   putCell 0 98 attr0 (defaultCell b) newLine; newLine]) by reflexivity.
  assert (Hh : Height b = 2) by reflexivity.
  assert (Hm : getMaxLines b = 2) by reflexivity.
  assert (Hb : map lineRunes (lines b) = [[97]; [98]] /\ cursorY b = 1) by (split; reflexivity).
  clearbody b.
  destruct (Index_on_last_row_appends_within_cap b Hv Hv1 Hr Hy)
    as (b' & Hi & Hl & Hh' & _).
  split; [exact Hb |]. exists b'. split; [exact Hi |].
  rewrite Hh, Hm in *. rewrite Hls in Hl. rewrite Hl. split; [reflexivity | exact Hh'].
Defined.

(** The loop of [Index] runs off the end of a list that is too short. *)
Lemma shiftLinesUp_short (n i : nat) (ls : list Line) :
  (1 <= n)%nat -> (length ls <= i + n)%nat -> shiftLinesUp n i ls = Panic.
Proof.
  revert i ls. induction n as [|n IH]; intros i ls Hn Hlen; [lia |].
  cbn [shiftLinesUp]. destruct (ls !! S i) as [next|] eqn:En; [| reflexivity].
  apply lookup_lt_Some in En.
  apply IH; [lia | rewrite length_insert; lia].
Qed.

(** [Index] on the bottom margin of an active scroll region faults with an
    index out of range when the grid store does not hold the bottom-margin
    row yet (the store is filled lazily, row by row). *)
Theorem Index_in_region_panics_without_bottom_row (b : Buffer) :
  typed b -> len_ok b ->
  InScrollableRegion b = true -> cursorY b = bottomMargin b ->
  Height b <= convertViewLineToRawLine b (bottomMargin b) ->
  Index b = Panic.
Proof.
  intros Ht Hl Hr Hc Hb.
  destruct Ht as (_ & Hcy & Hvh & _ & _ & _ & _ & Htop & Hbot & _).
  unfold InScrollableRegion in Hr.
  apply andb_true_iff in Hr as [Hr Hle]. apply andb_true_iff in Hr as [Hhas Hge].
  unfold is_u16, is_u64 in *. bool_to_prop.
  assert (0 <= viewOffset b).
  { unfold viewOffset. pose proof (Height_nonneg b).
    destruct (viewHeight b >? Height b) eqn:E; blia. }
  rewrite convertViewLineToRawLine_offset in Hb by (unfold is_u16; auto; lia).
  unfold Index, InScrollableRegion. rewrite Hhas. cbn [andb].
  destruct (cursorY b >=? topMargin b) eqn:E1; [| blia].
  destruct (cursorY b <=? bottomMargin b) eqn:E2; [| blia]. cbn [andb].
  destruct (cursorY b <? bottomMargin b) eqn:E3; [blia |].
  rewrite !u16_small by lia.
  rewrite !convertViewLineToRawLine_offset by (unfold is_u16; auto; lia).
  unfold Height in Hb.
  destruct (decide (topMargin b = bottomMargin b)) as [Heq | Hne].
  - rewrite Heq, Z.sub_diag. change (Z.to_nat 0) with 0%nat.
    cbn [shiftLinesUp bind]. unfold storeLine.
    destruct (bottomMargin b + viewOffset b <? Z.of_nat (length (lines b))) eqn:E4; [blia |].
    rewrite andb_false_r. reflexivity.
  - rewrite shiftLinesUp_short; [reflexivity | lia | lia].
Qed.

Lemma Index_in_region_panics_without_bottom_row_witness :
  let b := state_of (run [OpWrite [97]; OpNewLine; OpWrite [98]; OpSetVerticalMargins 1 2;
                          OpSetPosition 0 2] (fresh 5 3 100)) (fresh 5 3 100) in
  Height b = 2 /\ cursorY b = 2 /\ Index b = Panic /\ NewLine b = Panic.
Proof.
  intros b.
  assert (Ht : typed b).
  { unfold typed, is_u16, is_u64. vm_compute. repeat split; discriminate. }
  assert (Hl : len_ok b) by (vm_compute; reflexivity).
  assert (Hr : InScrollableRegion b = true) by reflexivity.
  assert (Hc : cursorY b = bottomMargin b) by reflexivity.
  assert (Hb : Height b <= convertViewLineToRawLine b (bottomMargin b))
    by (vm_compute; discriminate).
  assert (Hh : Height b = 2) by reflexivity.
  assert (Hy : cursorY b = 2) by reflexivity.
  assert (Hn : IsNewLineMode b || false = true) by reflexivity.
  assert (Hi0 : InScrollableRegion (set_cursorX 0 b) = true) by reflexivity.
  clearbody b.
  pose proof (Index_in_region_panics_without_bottom_row b Ht Hl Hr Hc Hb) as Hi.
  pose proof (Index_in_region_panics_without_bottom_row (set_cursorX 0 b)) as Hi'.
  split; [exact Hh |]. split; [exact Hy |]. split; [exact Hi |].
  unfold NewLine, NewLineEx. rewrite Hn, Hi'; [reflexivity | | exact Hl | exact Hi0 | exact Hc | exact Hb].
  unfold typed, is_u16, is_u64 in *. fields_cbn_all. lia.
Defined.

(** The loop of [ReverseIndex] moves each line of the range one place down
    the list and leaves the others alone. *)
Lemma shiftLinesDown_lookup (n i : nat) (ls : list Line) :
  (n <= i)%nat -> (i < length ls)%nat ->
  exists ls', shiftLinesDown n i ls = Ok ls' /\
    length ls' = length ls /\
    (forall j, (i - n < j <= i)%nat -> ls' !! j = ls !! pred j) /\
    (forall j, (j <= i - n \/ i < j)%nat -> ls' !! j = ls !! j).
Proof.
  revert i ls. induction n as [|n IH]; intros i ls Hn Hlen.
  - exists ls. cbn [shiftLinesDown]. split; [reflexivity | split; [reflexivity | split]].
    + intros j Hj. lia.
    + reflexivity.
  - destruct i as [|j]; [lia |]. cbn [shiftLinesDown].
    destruct (ls !! j) as [prev|] eqn:Ep.
    2:{ apply lookup_ge_None in Ep. lia. }
    destruct (decide (S j < length ls)%nat) as [Hlt | Hge]; [| lia].
    destruct (IH j (<[S j := prev]> ls)) as (ls' & Hs & Hl & Hin & Hout).
    { lia. } { rewrite length_insert. lia. }
    exists ls'. split; [exact Hs |]. rewrite length_insert in Hl. split; [exact Hl |]. split.
    + intros k Hk. destruct (decide (k = S j)) as [-> | Hne].
      * rewrite Hout by lia. rewrite list_lookup_insert_eq by lia. symmetry. exact Ep.
      * rewrite Hin by lia. apply list_lookup_insert_ne. lia.
    + intros k Hk. rewrite Hout by lia. apply list_lookup_insert_ne. lia.
Qed.

(** [ReverseIndex] on the top margin of an active scroll region, when the
    grid store holds the bottom-margin row: the call returns, the region
    scrolls down (rows top+1..bottom show what rows top..bottom-1 showed),
    the top-margin row is blank, the rows outside the region are unchanged
    and the cursor does not move. *)
Theorem ReverseIndex_at_top_margin_scrolls_region_down (b : Buffer) :
  typed b -> len_ok b -> is_u16 (bottomMargin b) ->
  InScrollableRegion b = true -> cursorY b = topMargin b ->
  convertViewLineToRawLine b (bottomMargin b) < Height b ->
  exists b', ReverseIndex b = Ok b' /\
    (forall row, topMargin b < row <= bottomMargin b ->
       viewLine b' row = viewLine b (row - 1)) /\
    viewLine b' (topMargin b) = Some newLine /\
    (forall row, 0 <= row < topMargin b \/ bottomMargin b < row < 65536 ->
       viewLine b' row = viewLine b row) /\
    cursorX b' = cursorX b /\ cursorY b' = cursorY b.
Proof.
  intros Ht Hl Hbm Hr Hc Hb.
  destruct Ht as (_ & Hcy & Hvh & _ & _ & _ & _ & Htop & Hbot & _).
  unfold InScrollableRegion in Hr.
  apply andb_true_iff in Hr as [Hr Hle]. apply andb_true_iff in Hr as [Hhas Hge].
  unfold is_u16, is_u64 in *.
  assert (Hoff : 0 <= viewOffset b).
  { unfold viewOffset. pose proof (Height_nonneg b).
    destruct (viewHeight b >? Height b) eqn:E; blia. }
  assert (Hconv : forall row, 0 <= row < 65536 ->
             convertViewLineToRawLine b row = row + viewOffset b).
  { intros row Hrow. apply convertViewLineToRawLine_offset; [exact Hl | exact Hvh | lia]. }
  rewrite Hconv in Hb by lia.
  unfold ReverseIndex, InScrollableRegion. rewrite Hhas, Hge, Hle. cbn [andb].
  destruct (cursorY b >? topMargin b) eqn:E; [blia |]. bool_to_prop.
  rewrite !u16_small by lia. rewrite !Hconv by lia.
  destruct (shiftLinesDown_lookup
              (Z.to_nat (bottomMargin b + viewOffset b - (topMargin b + viewOffset b)))
              (Z.to_nat (bottomMargin b + viewOffset b)) (lines b))
    as (ls & Hsh & Hlen & Hin & Hout).
  { lia. } { unfold Height in Hb. lia. }
  destruct (storeLine_lookup (topMargin b + viewOffset b) newLine ls)
    as (ls' & Hst & Hlen' & Hat & Hother).
  { unfold Height in Hb. lia. }
  rewrite Hsh. cbn [bind]. rewrite Hst. cbn [bind]. eexists. split; [reflexivity |].
  assert (Hconv' : forall row, 0 <= row < 65536 ->
             convertViewLineToRawLine (emitDisplayChange (set_lines ls' b)) row
             = row + viewOffset b).
  { intros row Hrow. rewrite <- Hconv by exact Hrow.
    apply convertViewLineToRawLine_ext; fields_cbn; congruence. }
  unfold viewLine. split; [| split; [| split; [| split; reflexivity]]].
  - intros row Hrow. rewrite Hconv', Hconv by lia. fields_cbn.
    rewrite Hother by lia. rewrite Hin by lia. f_equal. lia.
  - rewrite Hconv' by lia. fields_cbn. exact Hat.
  - intros row Hrow. rewrite Hconv', Hconv by lia. fields_cbn.
    rewrite Hother by lia. apply Hout. lia.
Qed.

Lemma ReverseIndex_at_top_margin_scrolls_region_down_witness :
  let b := state_of (run (regionOps ++ [OpSetPosition 0 1]) (fresh 4 5 100)) (fresh 4 5 100) in
  exists b', ReverseIndex b = Ok b' /\
    map (fun row => option_map lineRunes (viewLine b row)) [0; 1; 2; 3; 4]
      = [Some [65]; Some [66]; Some [67]; Some [68]; Some [69]] /\
    viewLine b' 1 = Some newLine /\
    viewLine b' 2 = viewLine b 1 /\ viewLine b' 3 = viewLine b 2 /\
    viewLine b' 0 = viewLine b 0 /\ viewLine b' 4 = viewLine b 4 /\
    cursorY b' = 1.
Proof.
  intros b.
  assert (Ht : typed b).
  { unfold typed, is_u16, is_u64. vm_compute. repeat split; discriminate. }
  assert (Hl : len_ok b) by (vm_compute; reflexivity).
  assert (Hbm : is_u16 (bottomMargin b)) by (vm_compute; split; [discriminate | reflexivity]).
  assert (Hr : InScrollableRegion b = true) by reflexivity.
  assert (Hc : cursorY b = topMargin b) by reflexivity.
  assert (Hb : convertViewLineToRawLine b (bottomMargin b) < Height b)
    by (vm_compute; reflexivity).
  assert (Hrows : map (fun row => option_map lineRunes (viewLine b row)) [0; 1; 2; 3; 4]
                  = [Some [65]; Some [66]; Some [67]; Some [68]; Some [69]])
    by (vm_compute; reflexivity).
  assert (Htop : topMargin b = 1) by reflexivity.
  assert (Hbot : bottomMargin b = 3) by reflexivity.
  clearbody b.
  destruct (ReverseIndex_at_top_margin_scrolls_region_down b Ht Hl Hbm Hr Hc Hb)
    as (b' & Hi & Hin & Htopline & Hout & _ & Hy).
  exists b'. split; [exact Hi |]. split; [exact Hrows |].
  rewrite Htop, Hbot in *.
  split; [exact Htopline |].
  split; [apply (Hin 2); lia |].
  split; [apply (Hin 3); lia |].
  split; [apply Hout; lia |].
  split; [apply Hout; lia |].
  rewrite Hy. exact Hc.
Defined.

(** ** Reflow on resize *)

Lemma logicalLines_nil_iff (ls : list Line) : logicalLines ls = [] <-> ls = [].
Proof.
  split; [| intros ->; reflexivity].
  destruct ls as [|line rest]; [reflexivity |]. cbn [logicalLines].
  destruct (logicalLines rest); [discriminate |].
  destruct (headWrapped rest); discriminate.
Qed.

Lemma logicalLines_cons (line : Line) (rest : list Line) :
  logicalLines (line :: rest) =
  match logicalLines rest with
  | group :: groups =>
    if headWrapped rest then (cells line ++ group) :: groups
    else cells line :: group :: groups
  | [] => [cells line]
  end.
Proof. reflexivity. Qed.

(** The logical lines of [line :: rest] depend on [rest] only through its
    logical lines and on whether it starts with a continuation. *)
Lemma logicalLines_cons_ext (line : Line) (rest rest' : list Line) :
  logicalLines rest' = logicalLines rest -> headWrapped rest' = headWrapped rest ->
  logicalLines (line :: rest') = logicalLines (line :: rest).
Proof. intros Hl Hh. cbn [logicalLines]. rewrite Hl, Hh. reflexivity. Qed.

Lemma logicalLines_cells_ext (line line' : Line) (rest : list Line) :
  cells line' = cells line -> logicalLines (line' :: rest) = logicalLines (line :: rest).
Proof. intros Hc. cbn [logicalLines]. rewrite Hc. reflexivity. Qed.

(** Cells put in front of the first line join its logical line. *)
Lemma logicalLines_prepend (cs : list Cell) (line : Line) (rest : list Line) :
  exists group groups,
    logicalLines (line :: rest) = group :: groups /\
    logicalLines (set_cells (cs ++ cells line) line :: rest) = (cs ++ group) :: groups.
Proof.
  cbn [logicalLines cells set_cells].
  destruct (logicalLines rest) as [|g gs].
  - eexists _, _. split; reflexivity.
  - destruct (headWrapped rest); eexists _, _; (split; [reflexivity |]);
      rewrite <- ?app_assoc; reflexivity.
Qed.

Lemma wrapLines_head (fuel : nat) (width : Z) (ls ls' : list Line) :
  wrapLines fuel width ls = Ok ls' ->
  headWrapped ls' = headWrapped ls /\ (length ls <= length ls')%nat.
Proof.
  revert ls ls'. induction fuel as [|fuel IH]; intros ls ls' H; [discriminate |].
  cbn [wrapLines] in H. destruct ls as [|line rest].
  - injection H as <-. split; [reflexivity | lia].
  - destruct (Z.of_nat (length (cells line)) >? width).
    + bind_inv H as tl Htl. injection H as <-. split; [reflexivity |].
      apply IH in Htl as [_ Hlen]. cbn [length].
      destruct rest as [|nextLine after]; [cbn [length] in *; lia |].
      destruct (wrapped nextLine); cbn [length] in *; lia.
    + bind_inv H as tl Htl. injection H as <-. split; [reflexivity |].
      apply IH in Htl as [_ Hlen]. cbn [length]. lia.
Qed.

(** What the shrinking loop does when it returns: no line is longer than the
    width, and the logical lines are the same. *)
Lemma wrapLines_result (fuel : nat) (width : Z) (ls ls' : list Line) :
  0 <= width ->
  wrapLines fuel width ls = Ok ls' ->
  fitsWidth width ls' /\ logicalLines ls' = logicalLines ls.
Proof.
  intros Hw. revert ls ls'. induction fuel as [|fuel IH]; intros ls ls' H; [discriminate |].
  cbn [wrapLines] in H. destruct ls as [|line rest].
  - injection H as <-. split; [constructor | reflexivity].
  - destruct (Z.of_nat (length (cells line)) >? width) eqn:E.
    + bind_inv H as tl Htl. injection H as <-.
      pose proof (wrapLines_head _ _ _ _ Htl) as [Hhead _].
      apply IH in Htl as [Hfit Hlog].
      split.
      { constructor; [| exact Hfit]. cbn [cells set_cells]. rewrite length_take. lia. }
      set (line' := set_cells (take (Z.to_nat width) (cells line)) line) in *.
      set (sillyCells := drop (Z.to_nat width) (cells line)) in *.
      assert (Hcut : cells line' ++ sillyCells = cells line).
      { subst line' sillyCells. cbn [cells set_cells]. apply take_drop. }
      rewrite (logicalLines_cons_ext line' _ _ Hlog Hhead).
      destruct rest as [|nextLine after].
      * cbn [logicalLines headWrapped wrappedLine cells wrapped].
        rewrite Hcut. reflexivity.
      * destruct (wrapped nextLine) eqn:Ewn.
        -- destruct (logicalLines_prepend sillyCells nextLine after)
             as (g & gs & Hg & Hg').
           rewrite (logicalLines_cons line'), (logicalLines_cons line), Hg, Hg'.
           cbn [headWrapped wrapped set_cells]. rewrite Ewn.
           rewrite app_assoc, Hcut. reflexivity.
        -- rewrite (logicalLines_cons line'), (logicalLines_cons (wrappedLine sillyCells)),
             (logicalLines_cons line).
           destruct (logicalLines (nextLine :: after)) as [|g gs] eqn:Eg.
           { apply logicalLines_nil_iff in Eg. discriminate. }
           cbn [headWrapped wrappedLine wrapped cells]. rewrite Ewn, Hcut. reflexivity.
    + bind_inv H as tl Htl. injection H as <-.
      pose proof (wrapLines_head _ _ _ _ Htl) as [Hhead _].
      apply IH in Htl as [Hfit Hlog]. split.
      * constructor; [blia | exact Hfit].
      * apply logicalLines_cons_ext; assumption.
Qed.

(** The budget of the shrinking loop is enough for a width of at least one
    cell: every step consumes a line or at least one cell. *)
Lemma wrapLines_returns (fuel : nat) (width : Z) (ls : list Line) :
  1 <= width ->
  (length ls + length (concat (map cells ls)) < fuel)%nat ->
  exists ls', wrapLines fuel width ls = Ok ls'.
Proof.
  intros Hw. revert ls. induction fuel as [|fuel IH]; intros ls Hf; [lia |].
  cbn [wrapLines]. destruct ls as [|line rest]; [eauto |].
  cbn [map concat length] in Hf. rewrite length_app in Hf.
  destruct (Z.of_nat (length (cells line)) >? width) eqn:E.
  - assert (Hsilly : (length (drop (Z.to_nat width) (cells line)) < length (cells line))%nat).
    { rewrite length_drop. blia. }
    match goal with |- context [wrapLines fuel width ?r] => destruct (IH r) as [tl ->] end.
    + destruct rest as [|nextLine after].
      * cbn [map concat length wrappedLine cells] in *. rewrite app_nil_r. lia.
      * cbn [map concat length] in Hf. rewrite length_app in Hf.
        destruct (wrapped nextLine); cbn [map concat length set_cells wrappedLine cells];
          rewrite !length_app; lia.
    + cbn [bind]. eauto.
  - destruct (IH rest) as [tl ->]; [lia |]. cbn [bind]. eauto.
Qed.

(** The shrinking pass of [ResizeView], for a new width of at least one cell:
    it returns, no line is left longer than the width, no line is lost, and
    the logical lines (each line joined with its continuation lines) are the
    same as before. *)
Theorem wrapLines_reflows (width : Z) (ls : list Line) :
  1 <= width ->
  exists ls', wrapLines (wrapBudget ls) width ls = Ok ls' /\
    fitsWidth width ls' /\
    logicalLines ls' = logicalLines ls /\
    (length ls <= length ls')%nat.
Proof.
  intros Hw. destruct (wrapLines_returns (wrapBudget ls) width ls Hw) as [ls' Hrun].
  { unfold wrapBudget. lia. }
  exists ls'. split; [exact Hrun |].
  destruct (wrapLines_result (wrapBudget ls) width ls ls' ltac:(lia) Hrun) as [Hfit Hlog].
  destruct (wrapLines_head _ _ _ _ Hrun) as [_ Hlen]. auto.
Qed.

Lemma wrapLines_reflows_witness :
  let ls := lines (state_of (run [OpWrite [97; 98; 99; 100; 101; 102; 103]; OpNewLine;
                                  OpWrite [104; 105]] (fresh 10 3 100)) (fresh 10 3 100)) in
  map lineRunes ls = [[97; 98; 99; 100; 101; 102; 103]; [104; 105]] /\
  exists ls', wrapLines (wrapBudget ls) 3 ls = Ok ls' /\
    map (fun l => (lineRunes l, wrapped l)) ls'
      = [([97; 98; 99], false); ([100; 101; 102], true); ([103], true); ([104; 105], false)] /\
    fitsWidth 3 ls' /\ logicalLines ls' = logicalLines ls.
Proof.
  intros ls. split; [reflexivity |].
  destruct (wrapLines_reflows 3 ls ltac:(lia)) as (ls' & Hrun & Hfit & Hlog & _).
  exists ls'. split; [exact Hrun |]. split; [| split; [exact Hfit | exact Hlog]].
  assert (Hc : map (fun l => (lineRunes l, wrapped l))
                 (lines_of (wrapLines (wrapBudget ls) 3 ls))
               = [([97; 98; 99], false); ([100; 101; 102], true); ([103], true);
                  ([104; 105], false)]).
  { vm_compute. reflexivity. }
  rewrite Hrun in Hc. exact Hc.
Defined.

(** What the inner loop of the growing branch does for one line. *)
Lemma pullCells_result (width : Z) (line : Line) (rest : list Line) :
  forall line' rest', pullCells width line rest = (line', rest') ->
    wrapped line' = wrapped line /\
    (length rest' <= length rest)%nat /\
    (headWrapped rest' = true -> width <= Z.of_nat (length (cells line'))) /\
    logicalLines (line' :: rest') = logicalLines (line :: rest).
Proof.
  revert line. induction rest as [|nextLine after IH]; intros line line' rest' H.
  - cbn [pullCells] in H. injection H as <- <-.
    split; [reflexivity |]. split; [lia |]. split; [discriminate | reflexivity].
  - cbn [pullCells] in H. destruct (wrapped nextLine) eqn:Ewn; cbn [negb] in H.
    2:{ injection H as <- <-. split; [reflexivity |]. split; [lia |].
        split; [cbn [headWrapped]; congruence | reflexivity]. }
    destruct (width - Z.of_nat (length (cells line)) <=? 0) eqn:Esp.
    { injection H as <- <-. split; [reflexivity |]. split; [lia |].
      split; [intros _; blia | reflexivity]. }
    set (space := width - Z.of_nat (length (cells line))) in *.
    set (moveCount := if space >? Z.of_nat (length (cells nextLine))
                      then Z.of_nat (length (cells nextLine)) else space) in *.
    assert (Hmc : 0 < moveCount <= Z.of_nat (length (cells nextLine)) /\ moveCount <= space
                  \/ moveCount = Z.of_nat (length (cells nextLine))).
    { subst moveCount. destruct (space >? Z.of_nat (length (cells nextLine))) eqn:E; blia. }
    destruct (moveCount =? Z.of_nat (length (cells nextLine))) eqn:Eall.
    + apply IH in H as (Hw & Hlen & Hfull & Hlog).
      split; [exact Hw |]. split; [cbn [length]; lia |]. split; [exact Hfull |].
      rewrite Hlog. bool_to_prop.
      rewrite (logicalLines_cons line), (logicalLines_cons nextLine).
      rewrite logicalLines_cons. cbn [cells set_cells headWrapped].
      rewrite Eall, Nat2Z.id, firstn_all, Ewn.
      destruct (logicalLines after) as [|g gs]; [reflexivity |].
      destruct (headWrapped after); rewrite <- ?app_assoc; reflexivity.
    + injection H as <- <-. bool_to_prop.
      assert (Hsp : moveCount = space).
      { subst moveCount. destruct (space >? Z.of_nat (length (cells nextLine))) eqn:E;
          [lia | reflexivity]. }
      split; [reflexivity |]. split; [cbn [length]; lia |].
      split.
      { intros _. cbn [cells set_cells]. rewrite length_app, length_take.
        subst space. destruct Hmc as [Hmc | Hmc]; lia. }
      destruct (logicalLines_prepend (take (Z.to_nat moveCount) (cells nextLine))
                  (set_cells (drop (Z.to_nat moveCount) (cells nextLine)) nextLine) after)
        as (g & gs & Hg & Hg').
      cbn [cells set_cells] in Hg'. rewrite take_drop in Hg'.
      assert (Hnext : set_cells (cells nextLine)
                        (set_cells (drop (Z.to_nat moveCount) (cells nextLine)) nextLine)
                      = nextLine) by (destruct nextLine; reflexivity).
      rewrite Hnext in Hg'.
      rewrite logicalLines_cons, Hg. rewrite (logicalLines_cons line), Hg'.
      cbn [headWrapped wrapped set_cells cells]. rewrite Ewn.
      rewrite <- app_assoc. reflexivity.
Qed.

Lemma unwrapLines_head (n : nat) (width : Z) (ls : list Line) :
  headWrapped (unwrapLines n width ls) = headWrapped ls /\
  (length (unwrapLines n width ls) <= length ls)%nat.
Proof.
  revert ls. induction n as [|n IH]; intros ls.
  - destruct ls; cbn [unwrapLines]; split; auto.
  - destruct ls as [|line rest]; cbn [unwrapLines]; [split; auto |].
    destruct (pullCells width line rest) as [line' rest'] eqn:Ep.
    apply pullCells_result in Ep as (Hw & Hlen & _ & _).
    split; [cbn [headWrapped]; exact Hw |].
    cbn [length]. destruct (IH rest') as [_ Hl]. lia.
Qed.



(** Shrinking and growing back: the lines cut at width 3 are joined again at
    width 10. *)
Lemma unwrapLines_after_wrapLines_example :
  let ls := lines (state_of (run [OpWrite [97; 98; 99; 100; 101; 102; 103]; OpNewLine;
                                  OpWrite [104; 105]] (fresh 10 3 100)) (fresh 10 3 100)) in
  let cut := lines_of (wrapLines (wrapBudget ls) 3 ls) in
  map (fun l => (lineRunes l, wrapped l)) (unwrapLines (length cut) 10 cut)
  = [([97; 98; 99; 100; 101; 102; 103], false); ([104; 105], false)].
Proof. vm_compute. reflexivity. Qed.

(** ** Resizing as a whole *)

(** [getViewLine] only ever appends fresh lines. *)
Lemma getViewLine_padding (index : Z) (b b1 : Buffer) (li : nat) :
  getViewLine index b = Ok (b1, li) ->
  exists k, b1 = set_lines (lines b ++ replicate k newLine) b /\
            (k <= Z.to_nat (index + 1))%nat.
Proof.
  unfold getViewLine. intros H.
  assert (Hid : set_lines (lines b ++ replicate 0 newLine) b = b).
  { cbn [replicate]. rewrite app_nil_r. destruct b; reflexivity. }
  destruct (index >=? ViewHeight b).
  - destruct (length (lines b)); [discriminate |]. injection H as <- _.
    exists 0%nat. split; [symmetry; exact Hid | lia].
  - destruct (Height b <? ViewHeight b).
    + injection H as <- _. eexists. split; [reflexivity | lia].
    + destruct (int (convertViewLineToRawLine b index) <? Height b); [| discriminate].
      injection H as <- _. exists 0%nat. split; [symmetry; exact Hid | lia].
Qed.

Lemma concat_cells_fresh (k : nat) : concat (map cells (replicate k newLine)) = [].
Proof. induction k as [|k IH]; [reflexivity |]. cbn. exact IH. Qed.

Lemma wrapBudget_padding (ls : list Line) (k : nat) :
  wrapBudget (ls ++ replicate k newLine) = (wrapBudget ls + k)%nat.
Proof.
  unfold wrapBudget. rewrite map_app, concat_app, concat_cells_fresh, app_nil_r.
  rewrite length_app, length_replicate. lia.
Qed.

Lemma fitsWidth_padding (width : Z) (ls : list Line) (k : nat) :
  0 <= width -> fitsWidth width ls -> fitsWidth width (ls ++ replicate k newLine).
Proof.
  intros Hw Hf. unfold fitsWidth. apply Forall_app. split; [exact Hf |].
  apply Forall_replicate. cbn. lia.
Qed.

(** The shrinking pass leaves at most one line per line and per cell. *)
Lemma wrapLines_length (fuel : nat) (width : Z) (ls ls' : list Line) :
  1 <= width ->
  wrapLines fuel width ls = Ok ls' ->
  (length ls' <= length ls + length (concat (map cells ls)))%nat.
Proof.
  intros Hw. revert ls ls'. induction fuel as [|fuel IH]; intros ls ls' H; [discriminate |].
  cbn [wrapLines] in H. destruct ls as [|line rest].
  - injection H as <-. cbn. lia.
  - cbn [map concat length]. rewrite length_app.
    destruct (Z.of_nat (length (cells line)) >? width) eqn:E.
    + bind_inv H as tl Htl. injection H as <-. apply IH in Htl. cbn [length].
      assert (Hsilly : (length (drop (Z.to_nat width) (cells line)) < length (cells line))%nat).
      { rewrite length_drop. blia. }
      destruct rest as [|nextLine after].
      * cbn [map concat length wrappedLine cells] in *. rewrite app_nil_r in Htl. lia.
      * cbn [map concat length] in *. rewrite length_app.
        destruct (wrapped nextLine); cbn [map concat length set_cells wrappedLine cells] in Htl;
          rewrite !length_app in Htl; lia.
    + bind_inv H as tl Htl. injection H as <-. apply IH in Htl. cbn [length]. lia.
Qed.

(** [ResizeView] to a view of at least one column and one row, from a buffer
    whose cursor row is inside the view: the call returns, the view has the
    new size, the margins are reset to the whole view (no scroll region is
    active), the cursor row is a row of the new view, the dirty flag is set,
    and after a shrink no line is longer than the new width.  (The lines and
    cells fit in memory: fewer than 2^62 minus 2^16.) *)
Theorem ResizeView_returns (w h : Z) (b : Buffer) :
  is_u16 w -> 1 <= w -> is_u16 h -> 1 <= h ->
  is_u16 (viewHeight b) -> 0 <= cursorY b < viewHeight b ->
  Z.of_nat (wrapBudget (lines b)) + 65536 < 4611686018427387904 ->
  exists b', ResizeView w h b = Ok b' /\
    viewWidth b' = w /\ viewHeight b' = h /\
    topMargin b' = 0 /\ bottomMargin b' = h - 1 /\ HasScrollableRegion b' = false /\
    0 <= cursorY b' < h /\ dirty b' = true /\
    (w < viewWidth b -> fitsWidth w (lines b')).
Proof.
  intros Hw Hw1 Hh Hh1 Hv Hy Hmem. unfold is_u16 in *.
  assert (Hl : len_ok b).
  { unfold len_ok, Height, wrapBudget in *. lia. }
  unfold ResizeView. destruct (viewHeight b =? 0) eqn:E0; [blia |].
  destruct (getViewLine_current (cursorY b) b Hl Hv Hy) as (ls1 & li & Hg & Hlook & _ & Hl1 & _).
  destruct (getViewLine_padding _ _ _ _ Hg) as (k & Hpad & Hk).
  assert (Hls1 : ls1 = lines b ++ replicate k newLine).
  { apply (f_equal lines) in Hpad. exact Hpad. }
  unfold getCurrentLine. rewrite Hg. cbn [bind]. unfold readLine. fields_cbn.
  rewrite Hlook. cbn [bind].
  assert (Hwrap : exists ls2,
             (if w <? viewWidth b then wrapLines (wrapBudget ls1) w ls1
              else if w >? viewWidth b then Ok (unwrapLines (length ls1) w ls1)
                   else Ok ls1) = Ok ls2 /\
             (w < viewWidth b -> fitsWidth w ls2) /\
             (length ls2 <= wrapBudget ls1)%nat).
  { destruct (w <? viewWidth b) eqn:Es.
    - destruct (wrapLines_reflows w ls1 Hw1) as (ls2 & Hrun & Hfit & _ & _).
      exists ls2. split; [exact Hrun |]. split; [intros _; exact Hfit |].
      apply wrapLines_length in Hrun; [| exact Hw1]. unfold wrapBudget. lia.
    - destruct (w >? viewWidth b) eqn:Eg.
      + eexists. split; [reflexivity |]. split; [intros; blia |].
        destruct (unwrapLines_head (length ls1) w ls1) as [_ Hlen].
        unfold wrapBudget. lia.
      + exists ls1. split; [reflexivity |]. split; [intros; blia |].
        unfold wrapBudget. lia. }
  destruct Hwrap as (ls2 & -> & Hfit & Hlen2). cbn [bind]. cbv zeta.
  unfold getCurrentLine.
  rewrite Hls1, wrapBudget_padding in Hlen2.
  set (b2 := set_viewHeight h (set_viewWidth w (set_lines ls2 (set_lines ls1 b)))).
  fields_cbn.
  set (cY := if u16 (Height b2 - 1) >=? h then u16 (h - 1) else u16 (Height b2 - 1)).
  assert (HcY : 0 <= cY < h).
  { subst cY. pose proof (u16_range (Height b2 - 1)) as Hr.
    destruct (u16 (Height b2 - 1) >=? h) eqn:Ec; [rewrite u16_small; lia | blia]. }
  destruct (getViewLine_current cY (set_cursorY cY b2)) as (ls4 & li4 & Hg4 & Hlook4 & _).
  { unfold len_ok, Height. subst b2. fields_cbn. lia. }
  { subst b2. fields_cbn. unfold is_u16. lia. }
  { subst b2. fields_cbn. lia. }
  destruct (getViewLine_padding _ _ _ _ Hg4) as (k4 & Hpad4 & _).
  assert (Hls4 : ls4 = ls2 ++ replicate k4 newLine).
  { apply (f_equal lines) in Hpad4. exact Hpad4. }
  rewrite Hg4. cbn [bind]. fields_cbn. rewrite Hlook4. cbn [bind].
  eexists. split; [reflexivity |]. subst b2. fields_cbn.
  split; [reflexivity |]. split; [reflexivity |]. split; [reflexivity |].
  split; [apply u16_small; lia |].
  split.
  { unfold HasScrollableRegion, ViewHeight. fields_cbn.
    rewrite (u16_small (h - 1)), (u64_small (h - 1)) by lia.
    rewrite Z.ltb_irrefl. reflexivity. }
  split; [exact HcY |]. split; [reflexivity |].
  intros Hs. rewrite Hls4. apply fitsWidth_padding; [lia | auto].
Qed.

Lemma ResizeView_returns_witness :
  let b := state_of (run [OpWrite [97; 98; 99; 100; 101; 102]; OpNewLine;
                          OpWrite [103; 104; 105; 106]; OpSetVerticalMargins 0 1]
                       (fresh 6 4 100)) (fresh 6 4 100) in
  HasScrollableRegion b = true /\
  exists b', ResizeView 3 2 b = Ok b' /\
    viewWidth b' = 3 /\ viewHeight b' = 2 /\ HasScrollableRegion b' = false /\
    fitsWidth 3 (lines b').
Proof.
  intros b.
  assert (Hv : is_u16 (viewHeight b)) by (vm_compute; split; [discriminate | reflexivity]).
  assert (Hy : 0 <= cursorY b < viewHeight b) by (vm_compute; split; [discriminate | reflexivity]).
  assert (Hm : Z.of_nat (wrapBudget (lines b)) + 65536 < 4611686018427387904)
    by (vm_compute; reflexivity).
  assert (Hr : HasScrollableRegion b = true) by reflexivity.
  assert (Hvw : viewWidth b = 6) by reflexivity.
  clearbody b.
  destruct (ResizeView_returns 3 2 b) as (b' & Hrun & Hw' & Hh' & _ & _ & Hno & _ & _ & Hfit);
    unfold is_u16; try lia; try assumption.
  split; [exact Hr |]. exists b'. split; [exact Hrun |]. split; [exact Hw' |].
  split; [exact Hh' |]. split; [exact Hno |]. apply Hfit. lia.
Defined.
